(** * Scheduling and delivery reconciliation of the channel repost bot

    A shallow embedding of the scheduler package (due check, task
    materializer, dispatch loop, outcome reconciler), of the repository
    queries it runs on the [send_records], [channels], [channel_groups] and
    [message_templates] tables, and of the model structs.

    Conventions of the embedding:
    - Go's [int] and [int64] are [Z]; where the source does arithmetic the
      two's-complement wrap-around is written out with [int64].
    - A [time.Time] is the number of nanoseconds on the wall clock of the one
      fixed-offset location the process runs in; a [time.Duration] is an
      [int64] count of nanoseconds.  The calendar date printed by
      [Format("2006-01-02")] is represented by the day number.
    - Go's string-typed enumerations ([SendType], [SendStatus],
      [ScheduleMode]) stay strings: the database can hold any text.
    - A table is the list of its rows in insertion order; a query is a filter,
      a stable sort and a cut of that list.  Timestamps are compared as
      instants.
    - What the outside world answers is collected in [Env]: the clock, read
      as one instant per activation; for each repository call whether the
      database refuses it; what the Telegram API answers to a send, a delete
      and a pin; which case each [select] of the dispatch loop takes.  The
      calls made to the message service are logged, in order, in the [calls]
      field of [World].
    - A worker started with [go] runs to its end at the point where it is
      started; logging and the pacing sleeps are left out. *)

From Stdlib Require Import ZArith List String Bool Lia.
Import ListNotations.
Local Open Scope string_scope.
Local Open Scope Z_scope.
Local Open Scope list_scope.

Notation "s +++ t" := (String.append s t) (at level 60, right associativity).

(** ** Machine integers and time *)

Definition int64 (z : Z) : Z := (z + 2 ^ 63) mod 2 ^ 64 - 2 ^ 63.

Module time.
Definition Time := Z.
Definition Duration := Z.

Definition Nanosecond : Duration := 1.
Definition Millisecond : Duration := 1000000.
Definition Second : Duration := 1000000000.
Definition Minute : Duration := 60 * Second.
Definition Hour : Duration := 60 * Minute.
Definition Day : Duration := 24 * Hour.

(** [time.Duration(n) * unit] *)
Definition Duration_mul (n : Z) (unit : Duration) : Duration := int64 (n * unit).

(** [t.Add(d)] *)
Definition Add (t : Time) (d : Duration) : Time := t + d.
(** [t.After(u)] *)
Definition After (t u : Time) : bool := u <? t.

(** [t.Hour()], [t.Minute()] and the day that [t.Format("2006-01-02")] prints *)
Definition Time_Hour (t : Time) : Z := (t mod Day) / Hour.
Definition Time_Minute (t : Time) : Z := (t mod Hour) / Minute.
Definition Time_Date (t : Time) : Z := t / Day.
End time.

(** ** package models *)

Definition ScheduleMode := string.
Definition ScheduleModeFrequency : ScheduleMode := "frequency".
Definition ScheduleModeTimepoints : ScheduleMode := "timepoints".

Definition MessageType := string.
Definition MessageTypeText : MessageType := "text".
Definition MessageTypePhoto : MessageType := "photo".

Definition SendType := string.
Definition SendTypeRepost : SendType := "repost".
Definition SendTypePush : SendType := "push".

Definition SendStatus := string.
Definition SendStatusPending : SendStatus := "pending".
Definition SendStatusSent : SendStatus := "sent".
Definition SendStatusFailed : SendStatus := "failed".
Definition SendStatusRetry : SendStatus := "retry".

Module TimePoint.
Record t := mk { Hour : Z; Minute : Z }.
End TimePoint.

Definition TimePoints := list TimePoint.t.

Module InlineKeyboardButton.
Record t := mk { Text : string; URL : string }.
End InlineKeyboardButton.

Definition InlineKeyboard := list (list InlineKeyboardButton.t).

Module ChannelGroup.
Record t := mk {
  ID : Z;
  Name : string;
  Description : string;
  MessageID : Z;
  Frequency : Z;
  ScheduleMode : ScheduleMode;
  ScheduleTimepoints : TimePoints;
  IsActive : bool;
  AutoPin : bool;
  CreatedAt : time.Time;
  UpdatedAt : time.Time
}.
End ChannelGroup.

Module Channel.
Record t := mk {
  ID : Z;
  ChannelID : string;
  ChannelName : string;
  GroupID : Z;
  LastMessageID : string;
  IsActive : bool;
  CreatedAt : time.Time;
  UpdatedAt : time.Time
}.

Definition with_LastMessageID (m : string) (u : time.Time) (c : t) : t :=
  mk (ID c) (ChannelID c) (ChannelName c) (GroupID c) m (IsActive c) (CreatedAt c) u.
End Channel.

Module MessageTemplate.
Record t := mk {
  ID : Z;
  Title : string;
  Content : string;
  MessageType : MessageType;
  MediaURL : string;
  Buttons : InlineKeyboard;
  Entities : string;
  CreatedAt : time.Time;
  UpdatedAt : time.Time
}.
End MessageTemplate.

Module SendRecord.
Record t := mk {
  ID : Z;
  GroupID : Z;
  ChannelID : string;
  MessageID : string;
  MessageType : SendType;
  Status : SendStatus;
  ErrorMessage : option string;
  RetryCount : Z;
  ScheduledAt : time.Time;
  SentAt : option time.Time;
  CreatedAt : time.Time;
  UpdatedAt : time.Time
}.

Definition with_MessageID (m : string) (r : t) : t :=
  mk (ID r) (GroupID r) (ChannelID r) m (MessageType r) (Status r)
     (ErrorMessage r) (RetryCount r) (ScheduledAt r) (SentAt r) (CreatedAt r) (UpdatedAt r).
Definition with_Status (s : SendStatus) (r : t) : t :=
  mk (ID r) (GroupID r) (ChannelID r) (MessageID r) (MessageType r) s
     (ErrorMessage r) (RetryCount r) (ScheduledAt r) (SentAt r) (CreatedAt r) (UpdatedAt r).
Definition with_ErrorMessage (e : option string) (r : t) : t :=
  mk (ID r) (GroupID r) (ChannelID r) (MessageID r) (MessageType r) (Status r)
     e (RetryCount r) (ScheduledAt r) (SentAt r) (CreatedAt r) (UpdatedAt r).
Definition with_RetryCount (n : Z) (r : t) : t :=
  mk (ID r) (GroupID r) (ChannelID r) (MessageID r) (MessageType r) (Status r)
     (ErrorMessage r) n (ScheduledAt r) (SentAt r) (CreatedAt r) (UpdatedAt r).
Definition with_ScheduledAt (s : time.Time) (r : t) : t :=
  mk (ID r) (GroupID r) (ChannelID r) (MessageID r) (MessageType r) (Status r)
     (ErrorMessage r) (RetryCount r) s (SentAt r) (CreatedAt r) (UpdatedAt r).
Definition with_SentAt (s : option time.Time) (r : t) : t :=
  mk (ID r) (GroupID r) (ChannelID r) (MessageID r) (MessageType r) (Status r)
     (ErrorMessage r) (RetryCount r) (ScheduledAt r) s (CreatedAt r) (UpdatedAt r).
End SendRecord.

(** ** package config *)

Module SchedulerConfig.
Record t := mk {
  CheckInterval : Z;
  MaxWorkers : Z;
  RetryAttempts : Z;
  RetryInterval : Z
}.
End SchedulerConfig.

(** ** Results of fallible calls *)

Inductive result (A : Type) : Type :=
| Ok (a : A)
| Err (e : string).
Arguments Ok {A} a.
Arguments Err {A} e.

(** ** The environment *)

(** [tgbotapi.MessageEntity], the fields the message service reads. *)
Module MessageEntity.
Record t := mk { Type_ : string; Offset : Z; Length : Z; URL : string }.
End MessageEntity.

(** The repository calls, named with the arguments that go to the database. *)
Inductive RepoCall : Type :=
| QGetChannelGroup (id : Z)
| QGetChannelGroups
| QGetChannelsByGroupID (groupID : Z)
| QUpdateChannelLastMessageID (channelID : string)
| QGetMessageTemplate (id : Z)
| QCreateSendRecord (groupID : Z) (channelID : string)
| QUpdateSendRecord (id : Z)
| QGetPendingSendRecords
| QGetPendingSendRecordsByGroupAndChannel (groupID : Z) (channelID : string)
| QGetSendRecordsByGroupID (groupID : Z) (limit : Z)
| QCleanupDuplicatePendingRecords.

(** The three cases of the [select] in [processPendingRecords]. *)
Inductive SelectCase : Type :=
| WorkerAcquired
| ContextDone
| NoWorker.

Record Env := mkEnv {
  (** [time.Now()] *)
  time_Now : time.Time;
  (** the driver error, if the database refuses the call *)
  db_error : RepoCall -> option string;
  (** [json.Unmarshal] of a template's serialized entities *)
  json_Unmarshal : string -> option (list MessageEntity.t);
  (** the Telegram API behind the message service *)
  api_Send : string -> MessageTemplate.t -> list MessageEntity.t -> result string;
  api_Delete : string -> string -> option string;
  api_Pin : string -> string -> option string;
  (** which case the [select] takes for the record with this id *)
  select_case : Z -> SelectCase
}.

(** ** package database *)

Record DB := mkDB {
  channel_groups : list ChannelGroup.t;
  channels : list Channel.t;
  message_templates : list MessageTemplate.t;
  send_records : list SendRecord.t;
  (** the AUTOINCREMENT counter of [send_records] *)
  send_records_seq : Z
}.

Definition set_channels (cs : list Channel.t) (d : DB) : DB :=
  mkDB (channel_groups d) cs (message_templates d) (send_records d) (send_records_seq d).
Definition set_send_records (rs : list SendRecord.t) (seq : Z) (d : DB) : DB :=
  mkDB (channel_groups d) (channels d) (message_templates d) rs seq.

(** [CURRENT_TIMESTAMP] has a resolution of one second. *)
Definition CURRENT_TIMESTAMP (env : Env) : time.Time :=
  (time_Now env / time.Second) * time.Second.

(** [ORDER BY]: a stable insertion sort; rows that compare equal keep their
    table order (SQL leaves the order of such rows open). *)
Fixpoint insert_by {A : Type} (before : A -> A -> bool) (x : A) (l : list A) : list A :=
  match l with
  | [] => [x]
  | y :: l' => if before x y then x :: y :: l' else y :: insert_by before x l'
  end.

Definition order_by {A : Type} (before : A -> A -> bool) (l : list A) : list A :=
  fold_right (insert_by before) [] l.

(** [LIMIT n]; a negative limit means no limit in SQLite. *)
Definition LIMIT {A : Type} (n : Z) (l : list A) : list A :=
  if n <? 0 then l else firstn (Z.to_nat n) l.

Module Repository.

Definition GetChannelGroup (env : Env) (d : DB) (id : Z) : result ChannelGroup.t :=
  match db_error env (QGetChannelGroup id) with
  | Some e => Err ("failed to get channel group: " +++ e)
  | None =>
      match find (fun g => ChannelGroup.ID g =? id) (channel_groups d) with
      | Some g => Ok g
      | None => Err "channel group not found"
      end
  end.

Definition GetChannelGroups (env : Env) (d : DB) : result (list ChannelGroup.t) :=
  match db_error env QGetChannelGroups with
  | Some e => Err ("failed to get channel groups: " +++ e)
  | None =>
      Ok (order_by (fun a b => ChannelGroup.CreatedAt b <=? ChannelGroup.CreatedAt a)
                   (channel_groups d))
  end.

Definition GetChannelsByGroupID (env : Env) (d : DB) (groupID : Z) : result (list Channel.t) :=
  match db_error env (QGetChannelsByGroupID groupID) with
  | Some e => Err ("failed to get channels: " +++ e)
  | None =>
      Ok (order_by (fun a b => Channel.CreatedAt a <=? Channel.CreatedAt b)
            (filter (fun c => (Channel.GroupID c =? groupID) && Channel.IsActive c)
                    (channels d)))
  end.

Definition UpdateChannelLastMessageID (env : Env) (d : DB) (channelID messageID : string)
  : option string * DB :=
  match db_error env (QUpdateChannelLastMessageID channelID) with
  | Some e => (Some ("failed to update channel last message ID: " +++ e), d)
  | None =>
      (None,
       set_channels
         (map (fun c => if String.eqb (Channel.ChannelID c) channelID
                        then Channel.with_LastMessageID messageID (CURRENT_TIMESTAMP env) c
                        else c)
              (channels d)) d)
  end.

Definition GetMessageTemplate (env : Env) (d : DB) (id : Z) : result MessageTemplate.t :=
  match db_error env (QGetMessageTemplate id) with
  | Some e => Err ("failed to get message template: " +++ e)
  | None =>
      match find (fun m => MessageTemplate.ID m =? id) (message_templates d) with
      | Some m => Ok m
      | None => Err "message template not found"
      end
  end.

(** The INSERT names six columns; the others take the defaults of the
    table: no error message, [retry_count] 0, no [sent_at], and the current
    timestamp for [created_at] and [updated_at]. *)
Definition CreateSendRecord (env : Env) (d : DB) (record : SendRecord.t)
  : option string * DB :=
  match db_error env (QCreateSendRecord (SendRecord.GroupID record) (SendRecord.ChannelID record)) with
  | Some e => (Some ("failed to create send record: " +++ e), d)
  | None =>
      let id := send_records_seq d + 1 in
      let row :=
        SendRecord.mk id (SendRecord.GroupID record) (SendRecord.ChannelID record)
          (SendRecord.MessageID record) (SendRecord.MessageType record)
          (SendRecord.Status record) None 0 (SendRecord.ScheduledAt record) None
          (CURRENT_TIMESTAMP env) (CURRENT_TIMESTAMP env) in
      (None, set_send_records (send_records d ++ [row]) id d)
  end.

(** The row written by the UPDATE: [message_id], [status], [error_message],
    [retry_count], [sent_at] come from the record, [updated_at] from the
    database; every other column keeps its value. *)
Definition updated_row (env : Env) (record row : SendRecord.t) : SendRecord.t :=
  SendRecord.mk (SendRecord.ID row) (SendRecord.GroupID row) (SendRecord.ChannelID row)
    (SendRecord.MessageID record) (SendRecord.MessageType row)
    (SendRecord.Status record) (SendRecord.ErrorMessage record)
    (SendRecord.RetryCount record) (SendRecord.ScheduledAt row)
    (SendRecord.SentAt record) (SendRecord.CreatedAt row) (CURRENT_TIMESTAMP env).

Definition UpdateSendRecord (env : Env) (d : DB) (record : SendRecord.t)
  : option string * DB :=
  match db_error env (QUpdateSendRecord (SendRecord.ID record)) with
  | Some e => (Some ("failed to update send record: " +++ e), d)
  | None =>
      (None,
       set_send_records
         (map (fun row => if SendRecord.ID row =? SendRecord.ID record
                          then updated_row env record row else row)
              (send_records d))
         (send_records_seq d) d)
  end.

Definition status_in_flight (r : SendRecord.t) : bool :=
  String.eqb (SendRecord.Status r) SendStatusPending
  || String.eqb (SendRecord.Status r) SendStatusRetry.

Definition GetPendingSendRecords (env : Env) (d : DB) : result (list SendRecord.t) :=
  match db_error env QGetPendingSendRecords with
  | Some e => Err ("failed to get pending send records: " +++ e)
  | None =>
      Ok (order_by (fun a b => SendRecord.ScheduledAt a <=? SendRecord.ScheduledAt b)
            (filter (fun r => status_in_flight r
                              && (SendRecord.ScheduledAt r <=? time_Now env))
                    (send_records d)))
  end.

Definition GetPendingSendRecordsByGroupAndChannel (env : Env) (d : DB)
           (groupID : Z) (channelID : string) : result (list SendRecord.t) :=
  match db_error env (QGetPendingSendRecordsByGroupAndChannel groupID channelID) with
  | Some e => Err ("failed to get pending send records: " +++ e)
  | None =>
      Ok (order_by (fun a b => SendRecord.CreatedAt b <=? SendRecord.CreatedAt a)
            (filter (fun r => (SendRecord.GroupID r =? groupID)
                              && String.eqb (SendRecord.ChannelID r) channelID
                              && status_in_flight r)
                    (send_records d)))
  end.

Definition GetSendRecordsByGroupID (env : Env) (d : DB) (groupID : Z) (limit : Z)
  : result (list SendRecord.t) :=
  match db_error env (QGetSendRecordsByGroupID groupID limit) with
  | Some e => Err ("failed to get send records: " +++ e)
  | None =>
      Ok (LIMIT limit
            (order_by (fun a b => SendRecord.CreatedAt b <=? SendRecord.CreatedAt a)
               (filter (fun r => SendRecord.GroupID r =? groupID) (send_records d))))
  end.

(** [DELETE FROM send_records WHERE status = 'pending' AND message_type = 'repost'] *)
Definition CleanupDuplicatePendingRecords (env : Env) (d : DB) : option string * DB :=
  match db_error env QCleanupDuplicatePendingRecords with
  | Some e => (Some ("failed to cleanup pending records: " +++ e), d)
  | None =>
      (None,
       set_send_records
         (filter (fun r => negb (String.eqb (SendRecord.Status r) SendStatusPending
                                 && String.eqb (SendRecord.MessageType r) SendTypeRepost))
                 (send_records d))
         (send_records_seq d) d)
  end.

End Repository.


(** ** package services: the message service as seen by the scheduler *)

(** The calls the scheduler makes to the message service (the delivery
    gateway), in the order in which they are made. *)
Inductive GatewayCall : Type :=
| CallDeleteMessage (channelID messageID : string)
| CallSendMessageWithTemplate (channelID : string) (template : MessageTemplate.t)
                              (entities : list MessageEntity.t)
| CallPinMessage (channelID messageID : string).

Record World := mkWorld {
  db : DB;
  calls : list GatewayCall
}.

Definition set_db (d : DB) (w : World) : World := mkWorld d (calls w).
Definition log_call (c : GatewayCall) (w : World) : World := mkWorld (db w) (calls w ++ [c]).

(** [var entities []tgbotapi.MessageEntity] followed by the guarded
    [json.Unmarshal]; the same lines occur in [processRepostRecord] and in
    [sendMessage]. *)
Definition deserialize_entities (env : Env) (template : MessageTemplate.t)
  : list MessageEntity.t :=
  if String.eqb (MessageTemplate.Entities template) "" then []
  else match json_Unmarshal env (MessageTemplate.Entities template) with
       | Some entities => entities
       | None => []
       end.

Module MessageService.

Definition DeleteMessage (env : Env) (channelID messageID : string) (w : World)
  : option string * World :=
  (api_Delete env channelID messageID, log_call (CallDeleteMessage channelID messageID) w).

Definition SendMessageWithTemplate (env : Env) (channelID : string)
           (template : MessageTemplate.t) (entities : list MessageEntity.t) (w : World)
  : result string * World :=
  (api_Send env channelID template entities,
   log_call (CallSendMessageWithTemplate channelID template entities) w).

(** [SendMessage] is the exported wrapper of [sendMessage]. *)
Definition sendMessage (env : Env) (channelID : string) (template : MessageTemplate.t)
           (w : World) : result string * World :=
  SendMessageWithTemplate env channelID template (deserialize_entities env template) w.

Definition SendMessage := sendMessage.

Definition PinMessage (env : Env) (channelID messageID : string) (w : World)
  : option string * World :=
  (api_Pin env channelID messageID, log_call (CallPinMessage channelID messageID) w).

End MessageService.

(** ** package scheduler *)

Module Scheduler.

(** *** Due check *)

Definition is_sent_repost (r : SendRecord.t) : bool :=
  String.eqb (SendRecord.MessageType r) SendTypeRepost
  && String.eqb (SendRecord.Status r) SendStatusSent.

Definition shouldCreateFrequencyTask (env : Env) (d : DB) (group : ChannelGroup.t) : bool :=
  match Repository.GetSendRecordsByGroupID env d (ChannelGroup.ID group) 1 with
  | Err _ => true
  | Ok [] => true
  | Ok (lastRecord :: _) =>
      if negb (is_sent_repost lastRecord) then true
      else
        match SendRecord.SentAt lastRecord with
        | None => true
        | Some sentAt =>
            let nextSendTime :=
              time.Add sentAt (time.Duration_mul (ChannelGroup.Frequency group) time.Minute) in
            time.After (time_Now env) nextSendTime
        end
  end.

Definition abs (x : Z) : Z := if x <? 0 then int64 (- x) else x.

(** The loop of [hasAlreadySentToday] over the records of the group. *)
Fixpoint sentTodayAt (today : Z) (timepoint : TimePoint.t) (records : list SendRecord.t)
  : bool :=
  match records with
  | [] => false
  | record :: rest =>
      if negb (is_sent_repost record) then sentTodayAt today timepoint rest
      else
        match SendRecord.SentAt record with
        | None => sentTodayAt today timepoint rest
        | Some sentAt =>
            if negb (time.Time_Date sentAt =? today) then sentTodayAt today timepoint rest
            else if (time.Time_Hour sentAt =? TimePoint.Hour timepoint)
                    && (abs (int64 (time.Time_Minute sentAt - TimePoint.Minute timepoint)) <=? 1)
                 then true
                 else sentTodayAt today timepoint rest
        end
  end.

Definition hasAlreadySentToday (env : Env) (d : DB) (groupID : Z) (today : Z)
           (timepoint : TimePoint.t) : bool :=
  match Repository.GetSendRecordsByGroupID env d groupID 50 with
  | Err _ => false
  | Ok records => sentTodayAt today timepoint records
  end.

(** The loop of [shouldCreateTimepointTask] over the configured time points. *)
Fixpoint matchTimepoints (env : Env) (d : DB) (groupID : Z)
         (currentHour currentMinute today : Z) (timepoints : TimePoints) : bool :=
  match timepoints with
  | [] => false
  | timepoint :: rest =>
      if (TimePoint.Hour timepoint =? currentHour)
         && (TimePoint.Minute timepoint =? currentMinute)
      then if hasAlreadySentToday env d groupID today timepoint
           then matchTimepoints env d groupID currentHour currentMinute today rest
           else true
      else matchTimepoints env d groupID currentHour currentMinute today rest
  end.

Definition shouldCreateTimepointTask (env : Env) (d : DB) (group : ChannelGroup.t) : bool :=
  match ChannelGroup.ScheduleTimepoints group with
  | [] => false
  | timepoints =>
      let now := time_Now env in
      matchTimepoints env d (ChannelGroup.ID group)
        (time.Time_Hour now) (time.Time_Minute now) (time.Time_Date now) timepoints
  end.

Definition shouldCreateRepostTask (env : Env) (d : DB) (group : ChannelGroup.t) : bool :=
  if String.eqb (ChannelGroup.ScheduleMode group) ScheduleModeFrequency
  then shouldCreateFrequencyTask env d group
  else if String.eqb (ChannelGroup.ScheduleMode group) ScheduleModeTimepoints
  then shouldCreateTimepointTask env d group
  else shouldCreateFrequencyTask env d group.

(** *** Task materializer *)

(** The zero [time.Time] of a struct literal that leaves the field out. *)
Definition zeroTime : time.Time := -62135596800 * time.Second.

(** The body of the loop of [createRepostTask] over the channels. *)
Definition createRepostTask_channel (env : Env) (group : ChannelGroup.t)
           (w : World) (channel : Channel.t) : World :=
  if negb (Channel.IsActive channel) then w
  else
    match Repository.GetPendingSendRecordsByGroupAndChannel
            env (db w) (ChannelGroup.ID group) (Channel.ChannelID channel) with
    | Err _ => w
    | Ok existingRecords =>
        if 0 <? Z.of_nat (List.length existingRecords) then w
        else
          let record :=
            SendRecord.mk 0 (ChannelGroup.ID group) (Channel.ChannelID channel) ""
              SendTypeRepost SendStatusPending None 0 (time_Now env) None
              zeroTime zeroTime in
          set_db (snd (Repository.CreateSendRecord env (db w) record)) w
    end.

Definition createRepostTask (env : Env) (group : ChannelGroup.t) (w : World) : World :=
  match Repository.GetChannelsByGroupID env (db w) (ChannelGroup.ID group) with
  | Err _ => w
  | Ok channels => fold_left (createRepostTask_channel env group) channels w
  end.

(** The body of the loop of [createRepostTasks] over the groups. *)
Definition createRepostTasks_group (env : Env) (w : World) (group : ChannelGroup.t) : World :=
  if negb (ChannelGroup.IsActive group) then w
  else if shouldCreateRepostTask env (db w) group then createRepostTask env group w
  else w.

Definition createRepostTasks (env : Env) (w : World) : World :=
  match Repository.GetChannelGroups env (db w) with
  | Err _ => w
  | Ok groups => fold_left (createRepostTasks_group env) groups w
  end.

(** *** Outcome reconciler *)

(** The search for the target channel among the channels of the group. *)
Definition findTargetChannel (channelID : string) (channels : list Channel.t)
  : option Channel.t :=
  find (fun channel => String.eqb (Channel.ChannelID channel) channelID) channels.

(** The record as it is marked when the send has succeeded. *)
Definition mark_sent (env : Env) (messageID : string) (record : SendRecord.t) : SendRecord.t :=
  SendRecord.with_ErrorMessage None
    (SendRecord.with_SentAt (Some (time_Now env))
       (SendRecord.with_Status SendStatusSent
          (SendRecord.with_MessageID messageID record))).

(** The record as it is marked when it is given up without a send. *)
Definition mark_failed (reason : string) (record : SendRecord.t) : SendRecord.t :=
  SendRecord.with_ErrorMessage (Some reason)
    (SendRecord.with_Status SendStatusFailed record).

Definition processRepostRecord (env : Env) (record : SendRecord.t) (w : World)
  : option string * World :=
  match Repository.GetChannelGroup env (db w) (SendRecord.GroupID record) with
  | Err e => (Some e, w)
  | Ok group =>
      if negb (ChannelGroup.IsActive group) then
        let record := mark_failed "Channel group is inactive" record in
        (None, set_db (snd (Repository.UpdateSendRecord env (db w) record)) w)
      else
        match Repository.GetMessageTemplate env (db w) (ChannelGroup.MessageID group) with
        | Err e => (Some e, w)
        | Ok template =>
            match Repository.GetChannelsByGroupID env (db w) (SendRecord.GroupID record) with
            | Err e => (Some e, w)
            | Ok channels =>
                match findTargetChannel (SendRecord.ChannelID record) channels with
                | None =>
                    let record := mark_failed "Channel not found" record in
                    (None, set_db (snd (Repository.UpdateSendRecord env (db w) record)) w)
                | Some targetChannel =>
                    (* Delete previous message if exists *)
                    let w :=
                      if negb (String.eqb (Channel.LastMessageID targetChannel) "")
                      then snd (MessageService.DeleteMessage env
                                  (Channel.ChannelID targetChannel)
                                  (Channel.LastMessageID targetChannel) w)
                      else w in
                    let entities := deserialize_entities env template in
                    match MessageService.SendMessageWithTemplate env
                            (Channel.ChannelID targetChannel) template entities w with
                    | (Err e, w) => (Some e, w)
                    | (Ok messageID, w) =>
                        (* Pin message if auto pin is enabled *)
                        let w :=
                          if ChannelGroup.AutoPin group
                          then snd (MessageService.PinMessage env
                                      (Channel.ChannelID targetChannel) messageID w)
                          else w in
                        (* Update channel last message ID in database *)
                        let w :=
                          set_db (snd (Repository.UpdateChannelLastMessageID env (db w)
                                         (Channel.ChannelID targetChannel) messageID)) w in
                        let record := mark_sent env messageID record in
                        let '(err, d) := Repository.UpdateSendRecord env (db w) record in
                        (err, set_db d w)
                    end
                end
            end
        end
  end.

Definition processPushRecord (env : Env) (record : SendRecord.t) (w : World)
  : option string * World :=
  match Repository.GetChannelGroup env (db w) (SendRecord.GroupID record) with
  | Err e => (Some e, w)
  | Ok group =>
      if negb (ChannelGroup.IsActive group) then
        let record := mark_failed "Channel group is inactive" record in
        (None, set_db (snd (Repository.UpdateSendRecord env (db w) record)) w)
      else
        match Repository.GetMessageTemplate env (db w) (ChannelGroup.MessageID group) with
        | Err e => (Some e, w)
        | Ok template =>
            (* Send message (don't delete previous) *)
            match MessageService.SendMessage env (SendRecord.ChannelID record) template w with
            | (Err e, w) => (Some e, w)
            | (Ok messageID, w) =>
                let record := mark_sent env messageID record in
                let '(err, d) := Repository.UpdateSendRecord env (db w) record in
                (err, set_db d w)
            end
        end
  end.

(** The retry classifier. *)
Definition handleSendError (config : SchedulerConfig.t) (env : Env)
           (record : SendRecord.t) (err : string) (w : World) : World :=
  let record := SendRecord.with_RetryCount (int64 (SendRecord.RetryCount record + 1)) record in
  let record := SendRecord.with_ErrorMessage (Some err) record in
  let record :=
    if SendRecord.RetryCount record <? SchedulerConfig.RetryAttempts config
    then
      SendRecord.with_ScheduledAt
        (time.Add (time_Now env)
           (time.Duration_mul (SchedulerConfig.RetryInterval config) time.Second))
        (SendRecord.with_Status SendStatusRetry record)
    else SendRecord.with_Status SendStatusFailed record in
  set_db (snd (Repository.UpdateSendRecord env (db w) record)) w.

Definition processRecord (config : SchedulerConfig.t) (env : Env)
           (record : SendRecord.t) (w : World) : World :=
  if String.eqb (SendRecord.MessageType record) SendTypeRepost then
    match processRepostRecord env record w with
    | (Some err, w) => handleSendError config env record err w
    | (None, w) => w
    end
  else if String.eqb (SendRecord.MessageType record) SendTypePush then
    match processPushRecord env record w with
    | (Some err, w) => handleSendError config env record err w
    | (None, w) => w
    end
  else w.

(** *** Dispatch loop *)

(** The loop of [processPendingRecords]; a worker started with
    [go s.processRecord(record)] runs to its end where it is started. *)
Fixpoint dispatch (config : SchedulerConfig.t) (env : Env)
         (records : list SendRecord.t) (w : World) : World :=
  match records with
  | [] => w
  | record :: rest =>
      match select_case env (SendRecord.ID record) with
      | WorkerAcquired => dispatch config env rest (processRecord config env record w)
      | ContextDone => w
      | NoWorker => dispatch config env rest w
      end
  end.

Definition processPendingRecords (config : SchedulerConfig.t) (env : Env) (w : World) : World :=
  match Repository.GetPendingSendRecords env (db w) with
  | Err _ => w
  | Ok records => dispatch config env records w
  end.

(** [Start] up to the point where the two loops are started: the sweep. *)
Definition Start (env : Env) (w : World) : World :=
  set_db (snd (Repository.CleanupDuplicatePendingRecords env (db w))) w.

(** *** Runs of the scheduling core *)

(** One activation of the scheduling core: the start, one tick of
    [scheduleRepostTasks], or one tick of [processPendingTasks]. *)
Inductive Activation : Type :=
| AStart (env : Env)
| ACreateRepostTasks (env : Env)
| AProcessPendingRecords (env : Env).

Definition activate (config : SchedulerConfig.t) (w : World) (a : Activation) : World :=
  match a with
  | AStart env => Start env w
  | ACreateRepostTasks env => createRepostTasks env w
  | AProcessPendingRecords env => processPendingRecords config env w
  end.

Definition run (config : SchedulerConfig.t) (acts : list Activation) (w : World) : World :=
  fold_left (activate config) acts w.

End Scheduler.

(** * Statements of the properties: auxiliary definitions *)

(** The rows of [send_records] in flight for a pair, in table order. *)
Definition in_flight_rows (groupID : Z) (channelID : string) (d : DB) : list SendRecord.t :=
  filter (fun r => (SendRecord.GroupID r =? groupID)
                   && String.eqb (SendRecord.ChannelID r) channelID
                   && Repository.status_in_flight r)
         (send_records d).





(** The primary key of [send_records]: ids are distinct and none is above the
    AUTOINCREMENT counter. *)
Definition wf_send_records (d : DB) : Prop :=
  NoDup (map SendRecord.ID (send_records d))
  /\ forall r, In r (send_records d) -> SendRecord.ID r <= send_records_seq d.

(** The rows of [d'] are those of [d], in the same places, where the rows with
    this id may have been rewritten; a rewritten row keeps its id, its group
    and its channel. *)
Definition updates_only (id : Z) (d d' : DB) : Prop :=
  send_records_seq d' = send_records_seq d
  /\ exists g : SendRecord.t -> SendRecord.t,
      (forall r, SendRecord.ID (g r) = SendRecord.ID r
                 /\ SendRecord.GroupID (g r) = SendRecord.GroupID r
                 /\ SendRecord.ChannelID (g r) = SendRecord.ChannelID r)
      /\ send_records d'
         = map (fun r => if SendRecord.ID r =? id then g r else r) (send_records d).

(** [d'] has the rows of [d], unchanged, followed by new rows. *)
Definition appends_only (d d' : DB) : Prop :=
  exists added, send_records d' = send_records d ++ added.

Definition not_pending (r : SendRecord.t) : bool :=
  negb (String.eqb (SendRecord.Status r) SendStatusPending).

(** All rows of a group, most recently created first: what
    [GetSendRecordsByGroupID] cuts with its LIMIT. *)
Definition group_history (d : DB) (groupID : Z) : list SendRecord.t :=
  order_by (fun a b => SendRecord.CreatedAt b <=? SendRecord.CreatedAt a)
    (filter (fun r => SendRecord.GroupID r =? groupID) (send_records d)).

(** The due predicate of frequency mode in the words of the specification:
    due iff no sent repost record exists for the group, or the sent-at of the
    most recent such record plus the frequency has elapsed. *)
Definition spec_frequency_due (d : DB) (group : ChannelGroup.t) (now : time.Time) : bool :=
  match filter Scheduler.is_sent_repost (group_history d (ChannelGroup.ID group)) with
  | [] => true
  | r :: _ =>
      match SendRecord.SentAt r with
      | None => true
      | Some sentAt => sentAt + ChannelGroup.Frequency group * time.Minute <=? now
      end
  end.

(** * Concrete scenarios *)

Module Scenario.

Definition no_db_error : RepoCall -> option string := fun _ => None.

(** Everything works; the next message gets the id 102. *)
Definition env_at (now : time.Time) : Env :=
  mkEnv now no_db_error (fun _ => None) (fun _ _ _ => Ok "102")
        (fun _ _ => None) (fun _ _ => None) (fun _ => WorkerAcquired).

(** Telegram refuses every send. *)
Definition env_send_fails (now : time.Time) : Env :=
  mkEnv now no_db_error (fun _ => None)
        (fun _ _ _ => Err "failed to send message to channel -1001: Too Many Requests")
        (fun _ _ => None) (fun _ _ => None) (fun _ => WorkerAcquired).

Definition config3 : SchedulerConfig.t := SchedulerConfig.mk 60 5 3 300.

(** 08:00:00 on day 20000 *)
Definition day0 : Z := 20000.
Definition t0800 : time.Time := day0 * time.Day + 8 * time.Hour.

Definition template1 : MessageTemplate.t :=
  MessageTemplate.mk 1 "daily" "hello" MessageTypeText "" [] "" 0 0.

Definition group_frequency : ChannelGroup.t :=
  ChannelGroup.mk 1 "news" "" 1 60 ScheduleModeFrequency [] true false 0 0.

Definition group_timepoints : ChannelGroup.t :=
  ChannelGroup.mk 1 "news" "" 1 60 ScheduleModeTimepoints [TimePoint.mk 8 0] true false 0 0.

Definition group_autopin : ChannelGroup.t :=
  ChannelGroup.mk 1 "news" "" 1 60 ScheduleModeFrequency [] true true 0 0.

Definition group_inactive : ChannelGroup.t :=
  ChannelGroup.mk 1 "news" "" 1 60 ScheduleModeFrequency [] false false 0 0.

Definition channel1 : Channel.t := Channel.mk 1 "-1001" "news one" 1 "101" true 0 0.

(** A repost of group 1 to channel -1001, created at 08:00:00 and sent at 08:00:30. *)
Definition sent_0800_30 : SendRecord.t :=
  SendRecord.mk 1 1 "-1001" "101" SendTypeRepost SendStatusSent None 0
    t0800 (Some (t0800 + 30 * time.Second)) t0800 (t0800 + 30 * time.Second).

(** A repost of group 1 to channel -1002, created one second later, that failed. *)
Definition failed_0800_01 : SendRecord.t :=
  SendRecord.mk 2 1 "-1002" "" SendTypeRepost SendStatusFailed
    (Some "failed to send message to channel -1002: Forbidden") 3
    (t0800 + time.Second) None (t0800 + time.Second) (t0800 + 35 * time.Second).

Definition pending1 : SendRecord.t :=
  SendRecord.mk 1 1 "-1001" "" SendTypeRepost SendStatusPending None 0
    t0800 None t0800 t0800.

Definition db_of (group : ChannelGroup.t) (rows : list SendRecord.t) (seq : Z) : DB :=
  mkDB [group] [channel1] [template1] rows seq.

Definition world_of (group : ChannelGroup.t) (rows : list SendRecord.t) (seq : Z) : World :=
  mkWorld (db_of group rows seq) [].

End Scenario.

Module Scenario5.
(** Fifty reposts of group 1 to the channels -1010 .. -1059, created at
    08:00:01, each waiting for its retry after a failed send. *)
Definition digit (n : nat) : string :=
  String (Ascii.ascii_of_nat (48 + n)) EmptyString.

Definition retry_row (i : nat) : SendRecord.t :=
  SendRecord.mk (Z.of_nat i + 2) 1
    ("-10" +++ digit (1 + i / 10) +++ digit (i mod 10)) "" SendTypeRepost SendStatusRetry
    (Some "failed to send message: Forbidden") 1
    (Scenario.t0800 + time.Second) None
    (Scenario.t0800 + time.Second) (Scenario.t0800 + 20 * time.Second).

Definition rows : list SendRecord.t := Scenario.sent_0800_30 :: map retry_row (seq 0 50).

Definition d : DB := Scenario.db_of Scenario.group_timepoints rows 51.
End Scenario5.

(** The channel that [processRepostRecord] picks as its target, when the
    channels of the group can be read. *)
Definition targetChannelOf (env : Env) (d : DB) (record : SendRecord.t) : option Channel.t :=
  match Repository.GetChannelsByGroupID env d (SendRecord.GroupID record) with
  | Ok channels => Scheduler.findTargetChannel (SendRecord.ChannelID record) channels
  | Err _ => None
  end.

(** What one sees of a row when following its retries. *)
Definition retry_view (r : SendRecord.t)
  : SendStatus * Z * option string * time.Time :=
  (SendRecord.Status r, SendRecord.RetryCount r, SendRecord.ErrorMessage r,
   SendRecord.ScheduledAt r).

Module Scenario2.
Definition w0 : World := Scenario.world_of Scenario.group_frequency [Scenario.pending1] 1.

(** The dispatch tick number [n], ten seconds after the previous one, with
    Telegram refusing the send. *)
Definition tick (n : Z) (w : World) : World :=
  Scheduler.processPendingRecords Scenario.config3
    (Scenario.env_send_fails (Scenario.t0800 + n * 10 * time.Second)) w.

Definition error_text : string :=
  "failed to send message to channel -1001: Too Many Requests".
End Scenario2.

(** Processing of a push record in the words of the specification: what
    [processRepostRecord] does, with only the delete of the previous message
    left out. *)
Definition spec_processPushRecord (env : Env) (record : SendRecord.t) (w : World)
  : option string * World :=
  match Repository.GetChannelGroup env (db w) (SendRecord.GroupID record) with
  | Err e => (Some e, w)
  | Ok group =>
      if negb (ChannelGroup.IsActive group) then
        let record := Scheduler.mark_failed "Channel group is inactive" record in
        (None, set_db (snd (Repository.UpdateSendRecord env (db w) record)) w)
      else
        match Repository.GetMessageTemplate env (db w) (ChannelGroup.MessageID group) with
        | Err e => (Some e, w)
        | Ok template =>
            match Repository.GetChannelsByGroupID env (db w) (SendRecord.GroupID record) with
            | Err e => (Some e, w)
            | Ok channels =>
                match Scheduler.findTargetChannel (SendRecord.ChannelID record) channels with
                | None =>
                    let record := Scheduler.mark_failed "Channel not found" record in
                    (None, set_db (snd (Repository.UpdateSendRecord env (db w) record)) w)
                | Some targetChannel =>
                    let entities := deserialize_entities env template in
                    match MessageService.SendMessageWithTemplate env
                            (Channel.ChannelID targetChannel) template entities w with
                    | (Err e, w) => (Some e, w)
                    | (Ok messageID, w) =>
                        let w :=
                          if ChannelGroup.AutoPin group
                          then snd (MessageService.PinMessage env
                                      (Channel.ChannelID targetChannel) messageID w)
                          else w in
                        let w :=
                          set_db (snd (Repository.UpdateChannelLastMessageID env (db w)
                                         (Channel.ChannelID targetChannel) messageID)) w in
                        let record := Scheduler.mark_sent env messageID record in
                        let '(err, d) := Repository.UpdateSendRecord env (db w) record in
                        (err, set_db d w)
                    end
                end
            end
        end
  end.

Definition is_send_call (c : GatewayCall) : bool :=
  match c with
  | CallSendMessageWithTemplate _ _ _ => true
  | _ => false
  end.

Module Scenario8.
Definition push1 : SendRecord.t :=
  SendRecord.mk 1 1 "-1001" "" SendTypePush SendStatusPending None 0
    Scenario.t0800 None Scenario.t0800 Scenario.t0800.

Definition w0 : World := Scenario.world_of Scenario.group_autopin [push1] 1.
Definition env : Env := Scenario.env_at (Scenario.t0800 + 10 * time.Second).
End Scenario8.

Module Scenario10.
(** A due record whose kind is neither repost nor push. *)
Definition forward1 : SendRecord.t :=
  SendRecord.mk 1 1 "-1001" "" "forward" SendStatusPending None 0
    Scenario.t0800 None Scenario.t0800 Scenario.t0800.

Definition w0 : World := Scenario.world_of Scenario.group_frequency [forward1] 1.
Definition env : Env := Scenario.env_at (Scenario.t0800 + 10 * time.Second).
Definition acts : list Scheduler.Activation :=
  [Scheduler.AStart env; Scheduler.ACreateRepostTasks env;
   Scheduler.AProcessPendingRecords env; Scheduler.AProcessPendingRecords env].
End Scenario10.

(** * The rest of the message service and of the repository *)

From Stdlib Require Import Permutation Sorted.

(** ** package services: sends and deletes for a whole group *)

Module Services.

(** [recordSendSuccess]: the struct carries a sent-at, the INSERT of
    [CreateSendRecord] does not write it. *)
Definition recordSendSuccess (env : Env) (groupID : Z) (channelID messageID : string)
           (sendType : SendType) (w : World) : World :=
  let now := time_Now env in
  let record :=
    SendRecord.mk 0 groupID channelID messageID sendType SendStatusSent None 0
      now (Some now) Scheduler.zeroTime Scheduler.zeroTime in
  set_db (snd (Repository.CreateSendRecord env (db w) record)) w.

Definition recordSendFailure (env : Env) (groupID : Z) (channelID : string)
           (sendType : SendType) (errorMsg : string) (w : World) : World :=
  let record :=
    SendRecord.mk 0 groupID channelID "" sendType SendStatusFailed (Some errorMsg) 0
      (time_Now env) None Scheduler.zeroTime Scheduler.zeroTime in
  set_db (snd (Repository.CreateSendRecord env (db w) record)) w.

Definition sendRepostToChannel (env : Env) (channel : Channel.t)
           (template : MessageTemplate.t) (w : World) : option string * World :=
  (* Delete previous message if exists *)
  let w :=
    if negb (String.eqb (Channel.LastMessageID channel) "")
    then snd (MessageService.DeleteMessage env (Channel.ChannelID channel)
                (Channel.LastMessageID channel) w)
    else w in
  (* Send new message *)
  match MessageService.sendMessage env (Channel.ChannelID channel) template w with
  | (Err e, w) => (Some ("failed to send message: " +++ e), w)
  | (Ok messageID, w) =>
      (* Update last message ID *)
      let w :=
        set_db (snd (Repository.UpdateChannelLastMessageID env (db w)
                       (Channel.ChannelID channel) messageID)) w in
      (* Record success *)
      let w :=
        recordSendSuccess env (Channel.GroupID channel) (Channel.ChannelID channel)
          messageID SendTypeRepost w in
      (None, w)
  end.

Definition sendPushToChannel (env : Env) (channel : Channel.t)
           (template : MessageTemplate.t) (w : World) : option string * World :=
  match MessageService.sendMessage env (Channel.ChannelID channel) template w with
  | (Err e, w) => (Some ("failed to send message: " +++ e), w)
  | (Ok messageID, w) =>
      let w :=
        recordSendSuccess env (Channel.GroupID channel) (Channel.ChannelID channel)
          messageID SendTypePush w in
      (None, w)
  end.

(** The bodies of the loops of [SendRepost] and [SendPush] over the channels. *)
Definition SendRepost_channel (env : Env) (groupID : Z) (template : MessageTemplate.t)
           (w : World) (channel : Channel.t) : World :=
  match sendRepostToChannel env channel template w with
  | (Some err, w) =>
      recordSendFailure env groupID (Channel.ChannelID channel) SendTypeRepost err w
  | (None, w) => w
  end.

Definition SendPush_channel (env : Env) (groupID : Z) (template : MessageTemplate.t)
           (w : World) (channel : Channel.t) : World :=
  match sendPushToChannel env channel template w with
  | (Some err, w) =>
      recordSendFailure env groupID (Channel.ChannelID channel) SendTypePush err w
  | (None, w) => w
  end.

(** The common frame of [SendRepost] and [SendPush]: load the group, refuse
    an inactive one, load the template and the channels, then loop. *)
Definition SendRepost (env : Env) (groupID : Z) (w : World) : option string * World :=
  match Repository.GetChannelGroup env (db w) groupID with
  | Err e => (Some ("failed to get channel group: " +++ e), w)
  | Ok group =>
      if negb (ChannelGroup.IsActive group)
      then (Some "channel group is not active", w)
      else
        match Repository.GetMessageTemplate env (db w) (ChannelGroup.MessageID group) with
        | Err e => (Some ("failed to get message template: " +++ e), w)
        | Ok template =>
            match Repository.GetChannelsByGroupID env (db w) groupID with
            | Err e => (Some ("failed to get channels: " +++ e), w)
            | Ok channels =>
                (None, fold_left (SendRepost_channel env groupID template) channels w)
            end
        end
  end.

Definition SendPush (env : Env) (groupID : Z) (w : World) : option string * World :=
  match Repository.GetChannelGroup env (db w) groupID with
  | Err e => (Some ("failed to get channel group: " +++ e), w)
  | Ok group =>
      if negb (ChannelGroup.IsActive group)
      then (Some "channel group is not active", w)
      else
        match Repository.GetMessageTemplate env (db w) (ChannelGroup.MessageID group) with
        | Err e => (Some ("failed to get message template: " +++ e), w)
        | Ok template =>
            match Repository.GetChannelsByGroupID env (db w) groupID with
            | Err e => (Some ("failed to get channels: " +++ e), w)
            | Ok channels =>
                (None, fold_left (SendPush_channel env groupID template) channels w)
            end
        end
  end.

(** The body of the second loop of [deleteChannelMessages], over the records. *)
Definition deleteChannelMessages_record (env : Env) (channel : Channel.t)
           (w : World) (record : SendRecord.t) : World :=
  if String.eqb (SendRecord.ChannelID record) (Channel.ChannelID channel)
     && negb (String.eqb (SendRecord.MessageID record) "")
     && String.eqb (SendRecord.Status record) SendStatusSent
  then snd (MessageService.DeleteMessage env (Channel.ChannelID channel)
              (SendRecord.MessageID record) w)
  else w.

Definition deleteChannelMessages (env : Env) (channel : Channel.t) (w : World)
  : option string * World :=
  (* Delete last repost message if exists *)
  let w :=
    if negb (String.eqb (Channel.LastMessageID channel) "")
    then
      match MessageService.DeleteMessage env (Channel.ChannelID channel)
              (Channel.LastMessageID channel) w with
      | (Some _, w) => w
      | (None, w) =>
          (* Clear last message ID *)
          set_db (snd (Repository.UpdateChannelLastMessageID env (db w)
                         (Channel.ChannelID channel) "")) w
      end
    else w in
  (* Get recent send records for this channel *)
  match Repository.GetSendRecordsByGroupID env (db w) (Channel.GroupID channel) 50 with
  | Err e => (Some ("failed to get send records: " +++ e), w)
  | Ok records => (None, fold_left (deleteChannelMessages_record env channel) records w)
  end.

Definition DeleteGroupMessages (env : Env) (groupID : Z) (w : World)
  : option string * World :=
  match Repository.GetChannelsByGroupID env (db w) groupID with
  | Err e => (Some ("failed to get channels: " +++ e), w)
  | Ok channels =>
      (None, fold_left (fun w channel => snd (deleteChannelMessages env channel w)) channels w)
  end.

End Services.

(** ** package database: switching a group on and off *)

(** [UpdateChannelGroupStatus]; [driver_error] is what the database answers
    to the UPDATE. *)
Definition UpdateChannelGroupStatus (env : Env) (driver_error : option string)
           (d : DB) (id : Z) (isActive : bool) : option string * DB :=
  match driver_error with
  | Some e => (Some ("failed to update channel group status: " +++ e), d)
  | None =>
      (None,
       mkDB
         (map (fun g =>
                 if ChannelGroup.ID g =? id
                 then ChannelGroup.mk (ChannelGroup.ID g) (ChannelGroup.Name g)
                        (ChannelGroup.Description g) (ChannelGroup.MessageID g)
                        (ChannelGroup.Frequency g) (ChannelGroup.ScheduleMode g)
                        (ChannelGroup.ScheduleTimepoints g) isActive
                        (ChannelGroup.AutoPin g) (ChannelGroup.CreatedAt g)
                        (CURRENT_TIMESTAMP env)
                 else g)
              (channel_groups d))
         (channels d) (message_templates d) (send_records d) (send_records_seq d))
  end.

(** * Statements of the further properties: auxiliary definitions *)

(** The record that the retry classifier writes. *)
Definition classified (config : SchedulerConfig.t) (env : Env)
           (record : SendRecord.t) (err : string) : SendRecord.t :=
  let record := SendRecord.with_RetryCount (int64 (SendRecord.RetryCount record + 1)) record in
  let record := SendRecord.with_ErrorMessage (Some err) record in
  if SendRecord.RetryCount record <? SchedulerConfig.RetryAttempts config
  then
    SendRecord.with_ScheduledAt
      (time.Add (time_Now env)
         (time.Duration_mul (SchedulerConfig.RetryInterval config) time.Second))
      (SendRecord.with_Status SendStatusRetry record)
  else SendRecord.with_Status SendStatusFailed record.

(** The records that the processing of [record] may hand to the UPDATE. *)
Inductive written_record (config : SchedulerConfig.t) (env : Env) (record : SendRecord.t)
  : SendRecord.t -> Prop :=
| written_failed (reason : string) :
    written_record config env record (Scheduler.mark_failed reason record)
| written_sent (messageID : string) :
    written_record config env record (Scheduler.mark_sent env messageID record)
| written_classified (err : string) :
    written_record config env record (classified config env record err).

(** The rows after an UPDATE of the rows with the id of [record]. *)
Definition rows_updated (env : Env) (record : SendRecord.t) (rows : list SendRecord.t)
  : list SendRecord.t :=
  map (fun row => if SendRecord.ID row =? SendRecord.ID record
                  then Repository.updated_row env record row else row) rows.

(** The channel a call to the message service goes to. *)
Definition call_channel (c : GatewayCall) : string :=
  match c with
  | CallDeleteMessage channelID _ => channelID
  | CallSendMessageWithTemplate channelID _ _ => channelID
  | CallPinMessage channelID _ => channelID
  end.

Definition is_delete_call (c : GatewayCall) : bool :=
  match c with
  | CallDeleteMessage _ _ => true
  | _ => false
  end.

(** What the scheduling core never writes of a channel row. *)
Definition channel_identity (c : Channel.t)
  : Z * string * string * Z * bool * time.Time :=
  (Channel.ID c, Channel.ChannelID c, Channel.ChannelName c, Channel.GroupID c,
   Channel.IsActive c, Channel.CreatedAt c).

(** Every row marked sent carries a sent-at. *)
Definition sent_rows_have_sent_at (d : DB) : Prop :=
  forall r, In r (send_records d) ->
            SendRecord.Status r = SendStatusSent -> SendRecord.SentAt r <> None.

(** A row as the materializer creates it at [now] for a group and a channel. *)
Definition materialized_at (now : time.Time) (d : DB) (r : SendRecord.t) : Prop :=
  SendRecord.Status r = SendStatusPending
  /\ SendRecord.MessageType r = SendTypeRepost
  /\ SendRecord.RetryCount r = 0
  /\ SendRecord.ScheduledAt r = now
  /\ SendRecord.SentAt r = None
  /\ SendRecord.ErrorMessage r = None
  /\ exists group channel,
      In group (channel_groups d) /\ ChannelGroup.IsActive group = true
      /\ ChannelGroup.ID group = SendRecord.GroupID r
      /\ In channel (channels d) /\ Channel.IsActive channel = true
      /\ Channel.GroupID channel = SendRecord.GroupID r
      /\ Channel.ChannelID channel = SendRecord.ChannelID r.

(** [d'] has the groups, channels and templates of [d]. *)
Definition same_tables (d d' : DB) : Prop :=
  channel_groups d' = channel_groups d
  /\ channels d' = channels d
  /\ message_templates d' = message_templates d.

Module Scenario7.
(** Two timepoints one minute apart. *)
Definition group_adjacent : ChannelGroup.t :=
  ChannelGroup.mk 1 "news" "" 1 60 ScheduleModeTimepoints
    [TimePoint.mk 8 0; TimePoint.mk 8 1] true false 0 0.

Definition d : DB := Scenario.db_of group_adjacent [Scenario.sent_0800_30] 1.

(** 08:01:05 of the same day *)
Definition env : Env := Scenario.env_at (Scenario.t0800 + 65 * time.Second).

(** The history lookup with the limit 50 fails. *)
Definition env_lookup_fails (now : time.Time) : Env :=
  mkEnv now
    (fun q => match q with
              | QGetSendRecordsByGroupID _ _ => Some "database is locked"
              | _ => None
              end)
    (fun _ => None) (fun _ _ _ => Ok "102")
    (fun _ _ => None) (fun _ _ => None) (fun _ => WorkerAcquired).
End Scenario7.

(** What the processing of [record] may do to the world: at most three calls,
    at most one of them a send, all to the channel of the record; groups,
    templates and the identity of the channels untouched; at most one UPDATE
    of the rows with the id of the record. *)
Definition processing_effect (config : SchedulerConfig.t) (env : Env)
           (record : SendRecord.t) (w w' : World) : Prop :=
  exists added,
    calls w' = calls w ++ added
    /\ Forall (fun c => call_channel c = SendRecord.ChannelID record) added
    /\ (List.length (filter is_send_call added) <= 1)%nat
    /\ (List.length added <= 3)%nat
    /\ channel_groups (db w') = channel_groups (db w)
    /\ message_templates (db w') = message_templates (db w)
    /\ send_records_seq (db w') = send_records_seq (db w)
    /\ map channel_identity (channels (db w')) = map channel_identity (channels (db w))
    /\ (send_records (db w') = send_records (db w)
        \/ exists rec',
            written_record config env record rec'
            /\ send_records (db w') = rows_updated env rec' (send_records (db w))).

(** A row as a send for a whole group records it: only the six columns of the
    INSERT are stored, so there is neither a sent-at nor an error text. *)
Definition recorded_by_group_send (env : Env) (groupID : Z) (sendType : SendType)
           (r : SendRecord.t) : Prop :=
  SendRecord.GroupID r = groupID
  /\ SendRecord.MessageType r = sendType
  /\ (SendRecord.Status r = SendStatusSent \/ SendRecord.Status r = SendStatusFailed)
  /\ SendRecord.SentAt r = None
  /\ SendRecord.ErrorMessage r = None
  /\ SendRecord.RetryCount r = 0
  /\ SendRecord.ScheduledAt r = time_Now env
  /\ SendRecord.CreatedAt r = CURRENT_TIMESTAMP env.

Module Scenario18.
Definition channel2 : Channel.t := Channel.mk 2 "-1002" "news two" 1 "" true 0 0.

Definition w0 : World :=
  mkWorld (mkDB [Scenario.group_frequency] [Scenario.channel1; channel2]
             [Scenario.template1] [] 0) [].

(** Telegram accepts the send to -1001 and refuses the one to -1002. *)
Definition env : Env :=
  mkEnv (Scenario.t0800 + 5 * time.Second) Scenario.no_db_error (fun _ => None)
        (fun channelID _ _ =>
           if String.eqb channelID "-1001" then Ok "102" else Err "Forbidden")
        (fun _ _ => None) (fun _ _ => None) (fun _ => WorkerAcquired).
End Scenario18.

Module Scenario22.
(** Group 1 with its channel and no rows yet, and that group switched off. *)
Definition w0 : World := Scenario.world_of Scenario.group_frequency [] 0.

Definition switched_off : World :=
  set_db (snd (UpdateChannelGroupStatus (Scenario.env_at Scenario.t0800) None (db w0) 1 false)) w0.
End Scenario22.

Module Scenario23.
(** The retry of a repost, due at 08:00, beside a pending repost. *)
Definition retry2 : SendRecord.t :=
  SendRecord.mk 2 1 "-1001" "" SendTypeRepost SendStatusRetry (Some "Too Many Requests") 1
    Scenario.t0800 None Scenario.t0800 Scenario.t0800.

Definition w0 : World :=
  Scenario.world_of Scenario.group_frequency [Scenario.pending1; retry2] 2.
End Scenario23.
(** * Properties *)

(** Closed goals over the concrete scenarios are settled by evaluation. *)
Ltac by_computation :=
  vm_compute;
  repeat match goal with |- _ /\ _ => split end;
  first [reflexivity | discriminate | (intros; discriminate) | (intros; congruence)
        | (left; reflexivity)].

(** ** Queries: ORDER BY and LIMIT *)

Section OrderBy.
Context {A : Type} (before : A -> A -> bool).

Lemma insert_by_In (x y : A) (l : list A) :
  In y (insert_by before x l) <-> y = x \/ In y l.
Proof.
  induction l as [|z l IH]; simpl.
  - intuition congruence.
  - destruct (before x z); simpl; rewrite ?IH; intuition congruence.
Qed.

Lemma order_by_In (y : A) (l : list A) : In y (order_by before l) <-> In y l.
Proof.
  induction l as [|x l IH]; simpl; [tauto|].
  rewrite insert_by_In, IH. intuition congruence.
Qed.

Lemma insert_by_length (x : A) (l : list A) :
  List.length (insert_by before x l) = S (List.length l).
Proof.
  induction l as [|z l IH]; simpl; [reflexivity|].
  destruct (before x z); simpl; congruence.
Qed.

Lemma order_by_length (l : list A) : List.length (order_by before l) = List.length l.
Proof.
  induction l as [|x l IH]; simpl; [reflexivity|].
  rewrite insert_by_length. congruence.
Qed.

Lemma order_by_nil (l : list A) : order_by before l = [] <-> l = [].
Proof.
  split; intros H.
  - apply length_zero_iff_nil. rewrite <- order_by_length, H. reflexivity.
  - subst. reflexivity.
Qed.

End OrderBy.

(** The first row of a descending [ORDER BY] has the greatest key. *)
Lemma order_by_desc_head {A : Type} (key : A -> Z) (l : list A) (x : A) (rest : list A) :
  order_by (fun a b => key b <=? key a) l = x :: rest ->
  forall y, In y l -> key y <= key x.
Proof.
  revert x rest. induction l as [|a l IH]; intros x rest H y Hy; [destruct Hy|].
  simpl in H. destruct (order_by (fun a b => key b <=? key a) l) as [|z l'] eqn:E.
  - apply order_by_nil in E. subst l. simpl in H. injection H as <- _.
    destruct Hy as [->|[]]. lia.
  - simpl in H. specialize (IH z l' eq_refl).
    destruct (key z <=? key a) eqn:C.
    + injection H as <- _. apply Z.leb_le in C.
      destruct Hy as [->|Hy]; [lia|]. specialize (IH y Hy). lia.
    + injection H as <- _. apply Z.leb_gt in C.
      destruct Hy as [->|Hy]; [lia|]. exact (IH y Hy).
Qed.



Lemma LIMIT_1_head {A : Type} (l : list A) : LIMIT 1 l = firstn 1 l.
Proof. reflexivity. Qed.

(** ** C1: at most one record in flight per (group, channel) *)

Lemma createRepostTask_channel_skip env group w channel :
  in_flight_rows (ChannelGroup.ID group) (Channel.ChannelID channel) (db w) <> [] ->
  Scheduler.createRepostTask_channel env group w channel = w.
Proof.
  intros H. unfold Scheduler.createRepostTask_channel.
  destruct (negb (Channel.IsActive channel)); [reflexivity|].
  unfold Repository.GetPendingSendRecordsByGroupAndChannel.
  destruct (db_error env _); [reflexivity|].
  rewrite order_by_length. fold (in_flight_rows (ChannelGroup.ID group) (Channel.ChannelID channel) (db w)).
  destruct (in_flight_rows _ _ (db w)); [congruence|reflexivity].
Qed.




(** ** Frame properties of the writes to [send_records] *)

Lemma updates_only_refl id d : updates_only id d d.
Proof.
  split; [reflexivity|]. exists (fun r => r). split; [auto|].
  rewrite <- (map_id (send_records d)) at 1. apply map_ext.
  intros r. now destruct (SendRecord.ID r =? id).
Qed.

Lemma updates_only_trans id d1 d2 d3 :
  updates_only id d1 d2 -> updates_only id d2 d3 -> updates_only id d1 d3.
Proof.
  intros (S1 & g1 & K1 & E1) (S2 & g2 & K2 & E2). split; [congruence|].
  exists (fun r => g2 (g1 r)). split.
  - intros r. destruct (K1 r) as (A1 & B1 & C1). destruct (K2 (g1 r)) as (A2 & B2 & C2).
    repeat split; congruence.
  - rewrite E2, E1, map_map. apply map_ext. intros r.
    destruct (SendRecord.ID r =? id) eqn:E; [|now rewrite E].
    destruct (K1 r) as (A1 & _). rewrite A1, E. reflexivity.
Qed.

(** What [updates_only] gives about ids and about the other rows. *)
Lemma updates_only_frame id d d' :
  updates_only id d d' ->
  send_records_seq d' = send_records_seq d
  /\ map SendRecord.ID (send_records d') = map SendRecord.ID (send_records d)
  /\ forall r, In r (send_records d) -> SendRecord.ID r <> id -> In r (send_records d').
Proof.
  intros (S & g & K & E). split; [exact S|]. rewrite E. split.
  - rewrite map_map. apply map_ext. intros r.
    destruct (SendRecord.ID r =? id); [apply K|reflexivity].
  - intros r Hr Hid. apply in_map_iff. exists r. split; [|exact Hr].
    apply Z.eqb_neq in Hid. now rewrite Hid.
Qed.

Lemma updates_only_same_rows id d d' :
  send_records d' = send_records d -> send_records_seq d' = send_records_seq d ->
  updates_only id d d'.
Proof.
  intros E S. destruct (updates_only_refl id d) as (_ & g & K & Eg).
  split; [exact S|]. exists g. split; [exact K|]. now rewrite E.
Qed.

Lemma UpdateSendRecord_updates_only env d record :
  updates_only (SendRecord.ID record) d (snd (Repository.UpdateSendRecord env d record)).
Proof.
  unfold Repository.UpdateSendRecord.
  destruct (db_error env _); [apply updates_only_refl|].
  cbn [snd]. split; [reflexivity|].
  exists (Repository.updated_row env record). split; [intros r; repeat split|reflexivity].
Qed.

Lemma UpdateChannelLastMessageID_send_records env d channelID messageID :
  send_records (snd (Repository.UpdateChannelLastMessageID env d channelID messageID))
  = send_records d
  /\ send_records_seq (snd (Repository.UpdateChannelLastMessageID env d channelID messageID))
     = send_records_seq d.
Proof.
  unfold Repository.UpdateChannelLastMessageID. destruct (db_error env _); split; reflexivity.
Qed.

Lemma UpdateChannelLastMessageID_updates_only id env d channelID messageID :
  updates_only id d (snd (Repository.UpdateChannelLastMessageID env d channelID messageID)).
Proof.
  destruct (UpdateChannelLastMessageID_send_records env d channelID messageID) as [E1 E2].
  now apply updates_only_same_rows.
Qed.

Lemma mark_failed_ID reason record :
  SendRecord.ID (Scheduler.mark_failed reason record) = SendRecord.ID record.
Proof. reflexivity. Qed.

Lemma mark_sent_ID env m record :
  SendRecord.ID (Scheduler.mark_sent env m record) = SendRecord.ID record.
Proof. reflexivity. Qed.

Lemma UpdateSendRecord_pair env d record (w : World) :
  snd (let '(err, d') := Repository.UpdateSendRecord env d record in (err, set_db d' w))
  = set_db (snd (Repository.UpdateSendRecord env d record)) w.
Proof. destruct (Repository.UpdateSendRecord env d record); reflexivity. Qed.

Lemma processRepostRecord_updates_only env record w :
  updates_only (SendRecord.ID record) (db w)
               (db (snd (Scheduler.processRepostRecord env record w))).
Proof.
  unfold Scheduler.processRepostRecord.
  destruct (Repository.GetChannelGroup env (db w) _) as [group|]; [|apply updates_only_refl].
  destruct (negb (ChannelGroup.IsActive group)).
  { cbn [snd set_db db]. rewrite <- (mark_failed_ID "Channel group is inactive" record) at 1.
    apply UpdateSendRecord_updates_only. }
  destruct (Repository.GetMessageTemplate env (db w) _) as [template|]; [|apply updates_only_refl].
  destruct (Repository.GetChannelsByGroupID env (db w) _) as [channels|]; [|apply updates_only_refl].
  destruct (Scheduler.findTargetChannel _ channels) as [targetChannel|].
  2:{ cbn [snd set_db db]. rewrite <- (mark_failed_ID "Channel not found" record) at 1.
      apply UpdateSendRecord_updates_only. }
  unfold MessageService.SendMessageWithTemplate, MessageService.DeleteMessage,
    MessageService.PinMessage.
  destruct (api_Send env _ template _) as [messageID|e].
  2:{ destruct (negb (String.eqb (Channel.LastMessageID targetChannel) ""));
      apply updates_only_refl. }
  rewrite UpdateSendRecord_pair. cbn [snd set_db db log_call].
  eapply updates_only_trans; [apply (UpdateChannelLastMessageID_updates_only (SendRecord.ID record))|].
  rewrite <- (mark_sent_ID env messageID record) at 1.
  match goal with
  | |- updates_only _ ?d0 (snd (Repository.UpdateSendRecord _ ?d1 _)) =>
      replace d0 with d1; [apply UpdateSendRecord_updates_only|]
  end.
  destruct (negb (String.eqb (Channel.LastMessageID targetChannel) ""));
    destruct (ChannelGroup.AutoPin group); reflexivity.
Qed.

Lemma processPushRecord_updates_only env record w :
  updates_only (SendRecord.ID record) (db w)
               (db (snd (Scheduler.processPushRecord env record w))).
Proof.
  unfold Scheduler.processPushRecord.
  destruct (Repository.GetChannelGroup env (db w) _) as [group|]; [|apply updates_only_refl].
  destruct (negb (ChannelGroup.IsActive group)).
  { cbn [snd set_db db]. rewrite <- (mark_failed_ID "Channel group is inactive" record) at 1.
    apply UpdateSendRecord_updates_only. }
  destruct (Repository.GetMessageTemplate env (db w) _) as [template|]; [|apply updates_only_refl].
  unfold MessageService.SendMessage, MessageService.sendMessage,
    MessageService.SendMessageWithTemplate.
  destruct (api_Send env _ template _) as [messageID|e]; [|apply updates_only_refl].
  rewrite UpdateSendRecord_pair. cbn [snd set_db db log_call].
  rewrite <- (mark_sent_ID env messageID record) at 1.
  apply UpdateSendRecord_updates_only.
Qed.

Lemma handleSendError_updates_only config env record err w :
  updates_only (SendRecord.ID record) (db w)
               (db (Scheduler.handleSendError config env record err w)).
Proof.
  unfold Scheduler.handleSendError. cbn [set_db db].
  match goal with
  | |- updates_only _ _ (snd (Repository.UpdateSendRecord _ _ ?r)) =>
      replace (SendRecord.ID record) with (SendRecord.ID r);
      [apply UpdateSendRecord_updates_only|]
  end.
  destruct (_ <? _); reflexivity.
Qed.

Lemma processRecord_updates_only config env record w :
  updates_only (SendRecord.ID record) (db w)
               (db (Scheduler.processRecord config env record w)).
Proof.
  unfold Scheduler.processRecord.
  destruct (String.eqb (SendRecord.MessageType record) SendTypeRepost).
  { pose proof (processRepostRecord_updates_only env record w) as H.
    destruct (Scheduler.processRepostRecord env record w) as [[err|] w']; [|exact H].
    eapply updates_only_trans; [exact H|apply handleSendError_updates_only]. }
  destruct (String.eqb (SendRecord.MessageType record) SendTypePush).
  { pose proof (processPushRecord_updates_only env record w) as H.
    destruct (Scheduler.processPushRecord env record w) as [[err|] w']; [|exact H].
    eapply updates_only_trans; [exact H|apply handleSendError_updates_only]. }
  apply updates_only_refl.
Qed.

(** Deleting rows keeps the remaining ids distinct. *)
Lemma distinct_ids_filter (keep : SendRecord.t -> bool) (rows : list SendRecord.t) :
  NoDup (map SendRecord.ID rows) -> NoDup (map SendRecord.ID (filter keep rows)).
Proof.
  induction rows as [|row rows IH]; intros Hd; cbn [filter map] in *; [exact Hd|].
  apply NoDup_cons_iff in Hd. destruct Hd as [Hfresh Hd].
  destruct (keep row); cbn [map]; [|now apply IH].
  apply NoDup_cons; [|now apply IH].
  intros Hin. apply Hfresh. apply in_map_iff in Hin. destruct Hin as (x & Hx & Hin).
  apply filter_In in Hin. apply in_map_iff. exists x. tauto.
Qed.

Lemma NoDup_map_In_eq {A B : Type} (f : A -> B) (l : list A) (x y : A) :
  NoDup (map f l) -> In x l -> In y l -> f x = f y -> x = y.
Proof.
  induction l as [|a l IH]; simpl; intros H Hx Hy E; [contradiction|].
  inversion H as [|? ? Hn Hd]; subst.
  destruct Hx as [->|Hx], Hy as [->|Hy]; auto.
  - exfalso. apply Hn. rewrite E. now apply in_map.
  - exfalso. apply Hn. rewrite <- E. now apply in_map.
Qed.

Lemma updates_only_wf id d d' :
  updates_only id d d' -> wf_send_records d -> wf_send_records d'.
Proof.
  intros H [Hn Hb]. apply updates_only_frame in H. destruct H as (S & I & _).
  split; [now rewrite I|].
  intros r Hr. rewrite S.
  assert (Hin : In (SendRecord.ID r) (map SendRecord.ID (send_records d))).
  { rewrite <- I. now apply in_map. }
  apply in_map_iff in Hin. destruct Hin as (r0 & E & Hr0). rewrite <- E. now apply Hb.
Qed.

(** *** The dispatch loop *)

Lemma dispatch_ids config env records w :
  send_records_seq (db (Scheduler.dispatch config env records w)) = send_records_seq (db w)
  /\ map SendRecord.ID (send_records (db (Scheduler.dispatch config env records w)))
     = map SendRecord.ID (send_records (db w)).
Proof.
  revert w. induction records as [|x records IH]; intros w; simpl; [auto|].
  destruct (select_case env (SendRecord.ID x)); auto.
  destruct (IH (Scheduler.processRecord config env x w)) as [S I].
  destruct (updates_only_frame _ _ _ (processRecord_updates_only config env x w))
    as (S' & I' & _).
  split; congruence.
Qed.

Lemma processPendingRecords_ids config env w :
  send_records_seq (db (Scheduler.processPendingRecords config env w)) = send_records_seq (db w)
  /\ map SendRecord.ID (send_records (db (Scheduler.processPendingRecords config env w)))
     = map SendRecord.ID (send_records (db w)).
Proof.
  unfold Scheduler.processPendingRecords.
  destruct (Repository.GetPendingSendRecords env (db w)); [apply dispatch_ids|auto].
Qed.

Lemma GetPendingSendRecords_In env d records x :
  Repository.GetPendingSendRecords env d = Ok records -> In x records ->
  In x (send_records d).
Proof.
  unfold Repository.GetPendingSendRecords.
  destruct (db_error env _); [discriminate|]. intros [= <-] H.
  apply order_by_In in H. apply filter_In in H. tauto.
Qed.

(** *** The materializer *)

Lemma appends_only_refl d : appends_only d d.
Proof. exists []. now rewrite app_nil_r. Qed.

Lemma appends_only_trans d1 d2 d3 :
  appends_only d1 d2 -> appends_only d2 d3 -> appends_only d1 d3.
Proof.
  intros [a1 E1] [a2 E2]. exists (a1 ++ a2). now rewrite E2, E1, app_assoc.
Qed.

Lemma CreateSendRecord_appends env d record :
  appends_only d (snd (Repository.CreateSendRecord env d record))
  /\ (wf_send_records d -> wf_send_records (snd (Repository.CreateSendRecord env d record))).
Proof.
  unfold Repository.CreateSendRecord.
  destruct (db_error env _); [split; [apply appends_only_refl|auto]|].
  cbn [snd]. split; [eexists; reflexivity|].
  intros [Hn Hb]. split; cbn [set_send_records send_records send_records_seq].
  - rewrite map_app. apply NoDup_app; [exact Hn|repeat constructor; simpl; tauto|].
    intros a Ha [<-|[]]. apply in_map_iff in Ha. destruct Ha as (r & E & Hr).
    apply Hb in Hr. simpl in E. lia.
  - intros r Hr. apply in_app_iff in Hr. destruct Hr as [Hr|[<-|[]]].
    + apply Hb in Hr. lia.
    + simpl. lia.
Qed.

Lemma createRepostTask_channel_appends env group w channel :
  appends_only (db w) (db (Scheduler.createRepostTask_channel env group w channel))
  /\ (wf_send_records (db w) ->
      wf_send_records (db (Scheduler.createRepostTask_channel env group w channel))).
Proof.
  unfold Scheduler.createRepostTask_channel.
  destruct (negb (Channel.IsActive channel)); [split; [apply appends_only_refl|auto]|].
  destruct (Repository.GetPendingSendRecordsByGroupAndChannel env (db w) _ _);
    [|split; [apply appends_only_refl|auto]].
  destruct (0 <? _); [split; [apply appends_only_refl|auto]|].
  cbn [set_db db]. apply CreateSendRecord_appends.
Qed.

Lemma createRepostTask_appends env group w :
  appends_only (db w) (db (Scheduler.createRepostTask env group w))
  /\ (wf_send_records (db w) -> wf_send_records (db (Scheduler.createRepostTask env group w))).
Proof.
  unfold Scheduler.createRepostTask.
  destruct (Repository.GetChannelsByGroupID env (db w) _) as [channels|];
    [|split; [apply appends_only_refl|auto]].
  revert w. induction channels as [|c cs IH]; intros w; simpl;
    [split; [apply appends_only_refl|auto]|].
  destruct (createRepostTask_channel_appends env group w c) as [A1 W1].
  destruct (IH (Scheduler.createRepostTask_channel env group w c)) as [A2 W2].
  split; [eapply appends_only_trans; eauto|auto].
Qed.

Lemma createRepostTasks_appends env w :
  appends_only (db w) (db (Scheduler.createRepostTasks env w))
  /\ (wf_send_records (db w) -> wf_send_records (db (Scheduler.createRepostTasks env w))).
Proof.
  unfold Scheduler.createRepostTasks.
  destruct (Repository.GetChannelGroups env (db w)) as [groups|];
    [|split; [apply appends_only_refl|auto]].
  revert w. induction groups as [|g gs IH]; intros w; simpl;
    [split; [apply appends_only_refl|auto]|].
  assert (H : appends_only (db w) (db (Scheduler.createRepostTasks_group env w g))
              /\ (wf_send_records (db w) ->
                  wf_send_records (db (Scheduler.createRepostTasks_group env w g)))).
  { unfold Scheduler.createRepostTasks_group.
    destruct (negb (ChannelGroup.IsActive g)); [split; [apply appends_only_refl|auto]|].
    destruct (Scheduler.shouldCreateRepostTask env (db w) g);
      [apply createRepostTask_appends|split; [apply appends_only_refl|auto]]. }
  destruct H as [A1 W1].
  destruct (IH (Scheduler.createRepostTasks_group env w g)) as [A2 W2].
  split; [eapply appends_only_trans; eauto|auto].
Qed.

(** *** The sweep *)

Lemma Start_send_records env w :
  send_records (db (Scheduler.Start env w)) = send_records (db w)
  \/ send_records (db (Scheduler.Start env w))
     = filter (fun r => negb (String.eqb (SendRecord.Status r) SendStatusPending
                              && String.eqb (SendRecord.MessageType r) SendTypeRepost))
              (send_records (db w)).
Proof.
  unfold Scheduler.Start, Repository.CleanupDuplicatePendingRecords.
  destruct (db_error env _); [left|right]; reflexivity.
Qed.

Lemma Start_wf env w :
  wf_send_records (db w) -> wf_send_records (db (Scheduler.Start env w)).
Proof.
  unfold Scheduler.Start, Repository.CleanupDuplicatePendingRecords.
  destruct (db_error env _); [auto|].
  intros [Hn Hb]. split; cbn [snd set_db db set_send_records send_records send_records_seq].
  - now apply distinct_ids_filter.
  - intros r Hr. apply filter_In in Hr. apply Hb. tauto.
Qed.

(** *** In-flight records across the whole scheduling core *)












(** ** C9: only the sweep deletes, and only pending records *)

Lemma filter_not_pending_sweep (l : list SendRecord.t) :
  filter not_pending
    (filter (fun r => negb (String.eqb (SendRecord.Status r) SendStatusPending
                            && String.eqb (SendRecord.MessageType r) SendTypeRepost)) l)
  = filter not_pending l.
Proof.
  induction l as [|r l IH]; [reflexivity|]. simpl. unfold not_pending at 2.
  destruct (String.eqb (SendRecord.Status r) SendStatusPending) eqn:E; simpl.
  - destruct (String.eqb (SendRecord.MessageType r) SendTypeRepost); simpl; [exact IH|].
    unfold not_pending at 1. rewrite E. exact IH.
  - unfold not_pending at 1. rewrite E. simpl. now rewrite IH.
Qed.

(** C9. The sweep of [Start] removes only rows whose status is pending (they
    are the pending repost rows); the rows with any other status are the same
    rows in the same order afterwards, and the sweep adds or changes no row.
    No other operation of the scheduling core removes a row: a tick of the
    materializer only appends rows, and a tick of the dispatch loop, the
    processing of any record and the retry classifier keep the list of row
    ids as it is. *)
Theorem C9_only_the_sweep_deletes_pending :
  (forall env w r,
      In r (send_records (db w)) ->
      In r (send_records (db (Scheduler.Start env w)))
      \/ (SendRecord.Status r = SendStatusPending /\ SendRecord.MessageType r = SendTypeRepost))
  /\ (forall env w,
         filter not_pending (send_records (db (Scheduler.Start env w)))
         = filter not_pending (send_records (db w)))
  /\ (forall env w r,
         In r (send_records (db (Scheduler.Start env w))) -> In r (send_records (db w)))
  /\ (forall env w,
         exists added,
           send_records (db (Scheduler.createRepostTasks env w)) = send_records (db w) ++ added)
  /\ (forall config env w,
         map SendRecord.ID (send_records (db (Scheduler.processPendingRecords config env w)))
         = map SendRecord.ID (send_records (db w)))
  /\ (forall config env record w,
         map SendRecord.ID (send_records (db (Scheduler.processRecord config env record w)))
         = map SendRecord.ID (send_records (db w)))
  /\ (forall config env record err w,
         map SendRecord.ID (send_records (db (Scheduler.handleSendError config env record err w)))
         = map SendRecord.ID (send_records (db w))).
Proof.
  repeat split.
  - intros env w r Hr. destruct (Start_send_records env w) as [E|E]; rewrite E; [now left|].
    destruct (String.eqb (SendRecord.Status r) SendStatusPending) eqn:E1;
      destruct (String.eqb (SendRecord.MessageType r) SendTypeRepost) eqn:E2.
    + right. split; now apply String.eqb_eq.
    + left. apply filter_In. rewrite E1, E2. auto.
    + left. apply filter_In. rewrite E1. auto.
    + left. apply filter_In. rewrite E1. auto.
  - intros env w. destruct (Start_send_records env w) as [E|E]; rewrite E; [reflexivity|].
    apply filter_not_pending_sweep.
  - intros env w r. destruct (Start_send_records env w) as [E|E]; rewrite E; [auto|].
    intros H. apply filter_In in H. tauto.
  - intros env w. apply createRepostTasks_appends.
  - intros config env w. apply processPendingRecords_ids.
  - intros config env record w.
    apply (updates_only_frame _ _ _ (processRecord_updates_only config env record w)).
  - intros config env record err w.
    apply (updates_only_frame _ _ _ (handleSendError_updates_only config env record err w)).
Qed.

Lemma C9_witness :
  let w := Scenario.world_of Scenario.group_frequency
             [Scenario.sent_0800_30; Scenario.failed_0800_01] 2 in
  In Scenario.sent_0800_30
     (send_records (db (Scheduler.Start (Scenario.env_at Scenario.t0800) w)))
  \/ (SendRecord.Status Scenario.sent_0800_30 = SendStatusPending
      /\ SendRecord.MessageType Scenario.sent_0800_30 = SendTypeRepost).
Proof.
  exact (proj1 C9_only_the_sweep_deletes_pending (Scenario.env_at Scenario.t0800)
               (Scenario.world_of Scenario.group_frequency
                  [Scenario.sent_0800_30; Scenario.failed_0800_01] 2)
               Scenario.sent_0800_30 (or_introl eq_refl)).
Defined.

(** ** C10: a record of an unknown kind is never settled *)

Lemma processRecord_unknown_kind config env record w :
  SendRecord.MessageType record <> SendTypeRepost ->
  SendRecord.MessageType record <> SendTypePush ->
  Scheduler.processRecord config env record w = w.
Proof.
  intros H1 H2. unfold Scheduler.processRecord.
  apply String.eqb_neq in H1, H2. now rewrite H1, H2.
Qed.

Lemma dispatch_keeps config env r0 records w :
  SendRecord.MessageType r0 <> SendTypeRepost ->
  SendRecord.MessageType r0 <> SendTypePush ->
  (forall x, In x records -> x = r0 \/ SendRecord.ID x <> SendRecord.ID r0) ->
  In r0 (send_records (db w)) ->
  In r0 (send_records (db (Scheduler.dispatch config env records w))).
Proof.
  intros H1 H2. revert w. induction records as [|x records IH]; intros w Hx Hin; [exact Hin|].
  simpl. destruct (select_case env (SendRecord.ID x)); auto.
  - apply IH; [intros y Hy; apply Hx; now right|].
    destruct (Hx x (or_introl eq_refl)) as [->|Hne].
    + now rewrite processRecord_unknown_kind.
    + destruct (updates_only_frame _ _ _ (processRecord_updates_only config env x w))
        as (_ & _ & F).
      apply F; [exact Hin|congruence].
  - apply IH; [intros y Hy; apply Hx; now right|exact Hin].
Qed.

Lemma activate_keeps config r0 a w :
  SendRecord.MessageType r0 <> SendTypeRepost ->
  SendRecord.MessageType r0 <> SendTypePush ->
  wf_send_records (db w) -> In r0 (send_records (db w)) ->
  wf_send_records (db (Scheduler.activate config w a))
  /\ In r0 (send_records (db (Scheduler.activate config w a))).
Proof.
  intros H1 H2 Hwf Hin. destruct a as [env|env|env]; cbn [Scheduler.activate].
  - split; [now apply Start_wf|].
    destruct (Start_send_records env w) as [E|E]; rewrite E; [exact Hin|].
    apply filter_In. split; [exact Hin|].
    apply String.eqb_neq in H1. rewrite H1. now rewrite andb_false_r.
  - destruct (createRepostTasks_appends env w) as [[added E] W]. split; [auto|].
    rewrite E. apply in_app_iff. now left.
  - split.
    + destruct (processPendingRecords_ids config env w) as [S I].
      destruct Hwf as [Hn Hb]. split; [now rewrite I|].
      intros r Hr. rewrite S.
      assert (Hi : In (SendRecord.ID r) (map SendRecord.ID (send_records (db w)))).
      { rewrite <- I. now apply in_map. }
      apply in_map_iff in Hi. destruct Hi as (r' & E & Hr'). rewrite <- E. now apply Hb.
    + unfold Scheduler.processPendingRecords.
      destruct (Repository.GetPendingSendRecords env (db w)) as [records|] eqn:G; [|exact Hin].
      apply dispatch_keeps; auto.
      intros x Hx. pose proof (GetPendingSendRecords_In _ _ _ _ G Hx) as Hxin.
      destruct (Z.eq_dec (SendRecord.ID x) (SendRecord.ID r0)) as [E|E]; [left|now right].
      destruct Hwf as [Hn _]. exact (NoDup_map_In_eq _ _ _ _ Hn Hxin Hin E).
Qed.

Lemma run_keeps config r0 acts w :
  SendRecord.MessageType r0 <> SendTypeRepost ->
  SendRecord.MessageType r0 <> SendTypePush ->
  wf_send_records (db w) -> In r0 (send_records (db w)) ->
  In r0 (send_records (db (Scheduler.run config acts w))).
Proof.
  intros H1 H2. revert w. induction acts as [|a acts IH]; intros w Hwf Hin; [exact Hin|].
  unfold Scheduler.run. simpl.
  destruct (activate_keeps config r0 a w H1 H2 Hwf Hin) as [Hwf' Hin'].
  now apply IH.
Qed.

(** C10. For a record whose kind is neither repost nor push, [processRecord]
    returns the world as it found it: no call to the message service, no call
    of the retry classifier, no write.  So in a table with distinct ids the
    row is still there, the very same row (same status, same scheduled-at),
    after any sequence of activations of the scheduling core; and while its
    status is pending or retry, every dispatch tick at or after its
    scheduled-at whose query succeeds fetches it again. *)
Theorem C10_unknown_kind_is_never_settled :
  forall config record,
    SendRecord.MessageType record <> SendTypeRepost ->
    SendRecord.MessageType record <> SendTypePush ->
    (forall env w, Scheduler.processRecord config env record w = w)
    /\ (forall acts w,
           wf_send_records (db w) -> In record (send_records (db w)) ->
           In record (send_records (db (Scheduler.run config acts w))))
    /\ (forall env d,
           In record (send_records d) ->
           Repository.status_in_flight record = true ->
           SendRecord.ScheduledAt record <= time_Now env ->
           db_error env QGetPendingSendRecords = None ->
           exists records,
             Repository.GetPendingSendRecords env d = Ok records /\ In record records)
    /\ (forall acts w env,
           wf_send_records (db w) -> In record (send_records (db w)) ->
           Repository.status_in_flight record = true ->
           SendRecord.ScheduledAt record <= time_Now env ->
           db_error env QGetPendingSendRecords = None ->
           exists records,
             Repository.GetPendingSendRecords env (db (Scheduler.run config acts w))
             = Ok records
             /\ In record records).
Proof.
  intros config record H1 H2.
  assert (Fetch : forall env d,
             In record (send_records d) ->
             Repository.status_in_flight record = true ->
             SendRecord.ScheduledAt record <= time_Now env ->
             db_error env QGetPendingSendRecords = None ->
             exists records,
               Repository.GetPendingSendRecords env d = Ok records /\ In record records).
  { intros env d Hin Hs Hdue Hq. unfold Repository.GetPendingSendRecords. rewrite Hq.
    eexists. split; [reflexivity|]. apply order_by_In. apply filter_In.
    split; [exact Hin|]. rewrite Hs. apply Z.leb_le in Hdue. now rewrite Hdue. }
  split; [|split; [|split]].
  - intros env w. now apply processRecord_unknown_kind.
  - intros acts w Hwf Hin. now apply run_keeps.
  - exact Fetch.
  - intros acts w env Hwf Hin Hs Hdue Hq. apply Fetch; auto. now apply run_keeps.
Qed.

Lemma C10_witness :
  Scheduler.processRecord Scenario.config3 Scenario10.env Scenario10.forward1 Scenario10.w0
  = Scenario10.w0
  /\ In Scenario10.forward1
        (send_records (db (Scheduler.run Scenario.config3 Scenario10.acts Scenario10.w0)))
  /\ exists records,
       Repository.GetPendingSendRecords Scenario10.env (db Scenario10.w0) = Ok records
       /\ In Scenario10.forward1 records.
Proof.
  destruct (C10_unknown_kind_is_never_settled Scenario.config3 Scenario10.forward1
              ltac:(discriminate) ltac:(discriminate)) as (H1 & H2 & H3 & _).
  split; [apply H1|]. split.
  - apply H2; [|now left]. split.
    + repeat constructor. simpl. tauto.
    + intros r [<-|[]]. simpl. lia.
  - apply H3; [now left|by_computation..].
Defined.

(** ** The due check in frequency mode (C3, C4) *)

Lemma int64_small (z : Z) : - 2 ^ 63 <= z < 2 ^ 63 -> int64 z = z.
Proof. intros H. unfold int64. rewrite Z.mod_small; lia. Qed.

Lemma GetSendRecordsByGroupID_history env d groupID limit :
  db_error env (QGetSendRecordsByGroupID groupID limit) = None ->
  Repository.GetSendRecordsByGroupID env d groupID limit
  = Ok (LIMIT limit (group_history d groupID)).
Proof. intros H. unfold Repository.GetSendRecordsByGroupID. now rewrite H. Qed.

Lemma shouldCreateRepostTask_frequency env d group :
  ChannelGroup.ScheduleMode group <> ScheduleModeTimepoints ->
  Scheduler.shouldCreateRepostTask env d group = Scheduler.shouldCreateFrequencyTask env d group.
Proof.
  intros H. unfold Scheduler.shouldCreateRepostTask. apply String.eqb_neq in H. rewrite H.
  now destruct (String.eqb _ ScheduleModeFrequency).
Qed.

(** C3, amended. For a group in frequency mode with frequency F minutes (F
    minutes fitting a duration) whose last record, the one the history lookup
    returns, is a sent repost with sent_at = T, the due predicate is false at
    every instant up to and including T+F, and true at every instant strictly
    after T+F. *)
Theorem C3_frequency_due_strictly_after :
  forall env d group lastRecord rest T,
    ChannelGroup.ScheduleMode group = ScheduleModeFrequency ->
    Repository.GetSendRecordsByGroupID env d (ChannelGroup.ID group) 1
    = Ok (lastRecord :: rest) ->
    Scheduler.is_sent_repost lastRecord = true ->
    SendRecord.SentAt lastRecord = Some T ->
    - 2 ^ 63 <= ChannelGroup.Frequency group * time.Minute < 2 ^ 63 ->
    (time_Now env <= T + ChannelGroup.Frequency group * time.Minute ->
     Scheduler.shouldCreateRepostTask env d group = false)
    /\ (T + ChannelGroup.Frequency group * time.Minute < time_Now env ->
        Scheduler.shouldCreateRepostTask env d group = true).
Proof.
  intros env d group lastRecord rest T Hmode Hq Hsent HT Hrange.
  rewrite shouldCreateRepostTask_frequency by (rewrite Hmode; discriminate).
  unfold Scheduler.shouldCreateFrequencyTask. rewrite Hq, Hsent, HT. cbn [negb].
  unfold time.Duration_mul, time.Add, time.After. rewrite int64_small by exact Hrange.
  split; intros H; [apply Z.ltb_ge|apply Z.ltb_lt]; lia.
Qed.

(** At the boundary instant T+F itself the predicate is still false. *)
Lemma C3_counterexample_boundary :
  let T := Scenario.t0800 + 30 * time.Second in
  let d := Scenario.db_of Scenario.group_frequency [Scenario.sent_0800_30] 1 in
  let env := Scenario.env_at (T + 60 * time.Minute) in
  ChannelGroup.Frequency Scenario.group_frequency = 60
  /\ Repository.GetSendRecordsByGroupID env d 1 1 = Ok [Scenario.sent_0800_30]
  /\ SendRecord.SentAt Scenario.sent_0800_30 = Some T
  /\ Scheduler.shouldCreateRepostTask env d Scenario.group_frequency = false.
Proof. vm_compute. repeat split. Qed.

Lemma C3_witness :
  Scheduler.shouldCreateRepostTask
    (Scenario.env_at (Scenario.t0800 + 30 * time.Second + 59 * time.Minute))
    (Scenario.db_of Scenario.group_frequency [Scenario.sent_0800_30] 1)
    Scenario.group_frequency = false
  /\ Scheduler.shouldCreateRepostTask
       (Scenario.env_at (Scenario.t0800 + 30 * time.Second + 60 * time.Minute + 1))
       (Scenario.db_of Scenario.group_frequency [Scenario.sent_0800_30] 1)
       Scenario.group_frequency = true.
Proof.
  split.
  - apply (C3_frequency_due_strictly_after
             (Scenario.env_at (Scenario.t0800 + 30 * time.Second + 59 * time.Minute))
             (Scenario.db_of Scenario.group_frequency [Scenario.sent_0800_30] 1)
             Scenario.group_frequency Scenario.sent_0800_30 []
             (Scenario.t0800 + 30 * time.Second));
      by_computation.
  - apply (C3_frequency_due_strictly_after
             (Scenario.env_at (Scenario.t0800 + 30 * time.Second + 60 * time.Minute + 1))
             (Scenario.db_of Scenario.group_frequency [Scenario.sent_0800_30] 1)
             Scenario.group_frequency Scenario.sent_0800_30 []
             (Scenario.t0800 + 30 * time.Second));
      by_computation.
Defined.

Lemma filter_nil_iff {A : Type} (p : A -> bool) (l : list A) :
  filter p l = [] <-> forall x, In x l -> p x = false.
Proof.
  induction l as [|a l IH]; simpl; [tauto|].
  destruct (p a) eqn:E.
  - split; [discriminate|]. intros H. specialize (H a (or_introl eq_refl)). congruence.
  - rewrite IH. split; [intros H x [<-|Hx]; auto | auto].
Qed.

Lemma group_history_head d groupID r :
  hd_error (group_history d groupID) = Some r ->
  In r (send_records d)
  /\ SendRecord.GroupID r = groupID
  /\ forall r', In r' (send_records d) -> SendRecord.GroupID r' = groupID ->
                SendRecord.CreatedAt r' <= SendRecord.CreatedAt r.
Proof.
  unfold group_history. intros H.
  destruct (order_by _ _) as [|x rest] eqn:E; [discriminate|]. injection H as ->.
  assert (Hin : In r (filter (fun r0 => SendRecord.GroupID r0 =? groupID) (send_records d))).
  { eapply order_by_In. rewrite E. now left. }
  apply filter_In in Hin. destruct Hin as [Hin Hg]. apply Z.eqb_eq in Hg.
  repeat split; auto.
  intros r' Hr' Hg'.
  apply (order_by_desc_head SendRecord.CreatedAt _ _ _ E).
  apply filter_In. split; [exact Hr'|]. now apply Z.eqb_eq.
Qed.

Lemma group_history_nil d groupID :
  group_history d groupID = [] <->
  forall r, In r (send_records d) -> SendRecord.GroupID r <> groupID.
Proof.
  unfold group_history. rewrite order_by_nil, filter_nil_iff.
  split; intros H r Hr; specialize (H r Hr); now apply Z.eqb_neq.
Qed.

(** C4, amended. In frequency mode (and in any mode other than timepoints) the
    due predicate looks only at the most recently created record of the group,
    of whatever kind and status: the group is due iff the history lookup fails,
    or the group has no record, or that record is not a sent repost, or it has
    no sent-at, or now is strictly after its sent-at plus the frequency in
    minutes (as a duration).  That record is a row of the group, and no row of
    the group was created later. *)
Theorem C4_frequency_due_by_newest_record :
  forall env d group,
    ChannelGroup.ScheduleMode group <> ScheduleModeTimepoints ->
    (Scheduler.shouldCreateRepostTask env d group = true <->
     db_error env (QGetSendRecordsByGroupID (ChannelGroup.ID group) 1) <> None
     \/ (forall r, In r (send_records d) -> SendRecord.GroupID r <> ChannelGroup.ID group)
     \/ exists r,
         hd_error (group_history d (ChannelGroup.ID group)) = Some r
         /\ (Scheduler.is_sent_repost r = false
             \/ SendRecord.SentAt r = None
             \/ exists T, SendRecord.SentAt r = Some T
                          /\ T + int64 (ChannelGroup.Frequency group * time.Minute)
                             < time_Now env))
    /\ (forall r,
           hd_error (group_history d (ChannelGroup.ID group)) = Some r ->
           In r (send_records d)
           /\ SendRecord.GroupID r = ChannelGroup.ID group
           /\ forall r', In r' (send_records d) ->
                         SendRecord.GroupID r' = ChannelGroup.ID group ->
                         SendRecord.CreatedAt r' <= SendRecord.CreatedAt r).
Proof.
  intros env d group Hmode. split; [|intros r; apply group_history_head].
  rewrite shouldCreateRepostTask_frequency by exact Hmode.
  unfold Scheduler.shouldCreateFrequencyTask, Repository.GetSendRecordsByGroupID.
  destruct (db_error env _) as [e|] eqn:Herr.
  { split; [intros _; left; discriminate|reflexivity]. }
  rewrite LIMIT_1_head.
  destruct (group_history d (ChannelGroup.ID group)) as [|r rest] eqn:Hh.
  { fold (group_history d (ChannelGroup.ID group)). rewrite Hh. cbn [firstn].
    split; [intros _; right; left; now apply group_history_nil|reflexivity]. }
  fold (group_history d (ChannelGroup.ID group)). rewrite Hh. cbn [firstn].
  assert (Hnil : ~ (forall r0, In r0 (send_records d) ->
                               SendRecord.GroupID r0 <> ChannelGroup.ID group)).
  { intros H. apply group_history_nil in H. congruence. }
  destruct (Scheduler.is_sent_repost r) eqn:Hs; cbn [negb].
  2:{ split; [intros _|reflexivity]. right; right. exists r. cbn [hd_error]. auto. }
  destruct (SendRecord.SentAt r) as [T|] eqn:HT.
  2:{ split; [intros _|reflexivity]. right; right. exists r. cbn [hd_error]. auto. }
  unfold time.After, time.Add, time.Duration_mul. rewrite Z.ltb_lt. split.
  - intros H. right; right. exists r. cbn [hd_error]. split; [reflexivity|].
    right; right. exists T. auto.
  - intros [H|[H|(r0 & Hr0 & H)]]; [congruence|contradiction|].
    cbn [hd_error] in Hr0. injection Hr0 as <-.
    destruct H as [H|[H|(T' & HT' & H)]]; [congruence|congruence|].
    rewrite HT in HT'. injection HT' as <-. exact H.
Qed.

(** A newer failed record makes the group due although the last sent repost
    is only ten minutes old and the frequency is sixty minutes. *)
Lemma C4_counterexample_newer_record :
  let d := Scenario.db_of Scenario.group_frequency
             [Scenario.sent_0800_30; Scenario.failed_0800_01] 2 in
  let now := Scenario.t0800 + 30 * time.Second + 10 * time.Minute in
  Scheduler.shouldCreateRepostTask (Scenario.env_at now) d Scenario.group_frequency = true
  /\ spec_frequency_due d Scenario.group_frequency now = false.
Proof. vm_compute. split; reflexivity. Qed.

Lemma C4_witness :
  Scheduler.shouldCreateRepostTask
    (Scenario.env_at (Scenario.t0800 + 2 * time.Hour))
    (Scenario.db_of Scenario.group_frequency [Scenario.sent_0800_30] 1)
    Scenario.group_frequency = true.
Proof.
  apply (proj1 (C4_frequency_due_by_newest_record
                  (Scenario.env_at (Scenario.t0800 + 2 * time.Hour))
                  (Scenario.db_of Scenario.group_frequency [Scenario.sent_0800_30] 1)
                  Scenario.group_frequency ltac:(discriminate))).
  right; right. exists Scenario.sent_0800_30. split; [reflexivity|].
  right; right. exists (Scenario.t0800 + 30 * time.Second). split; reflexivity.
Defined.

(** ** The due check in timepoints mode (C5) *)


Lemma sentTodayAt_In today timepoint records r s :
  In r records ->
  Scheduler.is_sent_repost r = true ->
  SendRecord.SentAt r = Some s ->
  time.Time_Date s = today ->
  time.Time_Hour s = TimePoint.Hour timepoint ->
  Scheduler.abs (int64 (time.Time_Minute s - TimePoint.Minute timepoint)) <= 1 ->
  Scheduler.sentTodayAt today timepoint records = true.
Proof.
  intros Hin Hs HT Hd Hh Hm. induction records as [|x records IH]; [destruct Hin|].
  simpl. destruct Hin as [->|Hin].
  - rewrite Hs, HT. cbn [negb].
    apply Z.eqb_eq in Hd, Hh. apply Z.leb_le in Hm. now rewrite Hd, Hh, Hm.
  - rewrite (IH Hin). destruct (negb _); [reflexivity|].
    destruct (SendRecord.SentAt x); [|reflexivity].
    destruct (negb _); [reflexivity|]. now destruct (_ && _).
Qed.






(** ** The retry classifier (C2) *)

Lemma UpdateSendRecord_ScheduledAt env d record :
  map SendRecord.ScheduledAt (send_records (snd (Repository.UpdateSendRecord env d record)))
  = map SendRecord.ScheduledAt (send_records d).
Proof.
  unfold Repository.UpdateSendRecord. destruct (db_error env _); [reflexivity|].
  cbn [snd set_send_records send_records]. rewrite map_map. apply map_ext.
  intros row. now destruct (SendRecord.ID row =? SendRecord.ID record).
Qed.

(** The retry classifier sets the scheduled-at of its copy of the record, but
    the UPDATE it then runs does not write that column. *)
Lemma handleSendError_ScheduledAt config env record err w :
  map SendRecord.ScheduledAt
      (send_records (db (Scheduler.handleSendError config env record err w)))
  = map SendRecord.ScheduledAt (send_records (db w)).
Proof. unfold Scheduler.handleSendError. cbn [set_db db]. apply UpdateSendRecord_ScheduledAt. Qed.

(** C2, the code at the failing input. With three attempts configured and a
    retry interval of 300 seconds, a pending record that is due at 08:00:00
    goes through retry(1), retry(2), failed(3) with the error text stored, and
    a fourth tick leaves it alone; but its scheduled-at stays 08:00:00 after
    each failure instead of moving to now + 300 s, so the three attempts are
    made by three consecutive dispatch ticks, ten seconds apart.  In general
    the retry classifier never changes a stored scheduled-at. *)
Theorem C2_retry_is_not_rescheduled :
  (let w1 := Scenario2.tick 1 Scenario2.w0 in
   let w2 := Scenario2.tick 2 w1 in
   let w3 := Scenario2.tick 3 w2 in
   let w4 := Scenario2.tick 4 w3 in
   map retry_view (send_records (db Scenario2.w0))
   = [(SendStatusPending, 0, None, Scenario.t0800)]
   /\ map retry_view (send_records (db w1))
      = [(SendStatusRetry, 1, Some Scenario2.error_text, Scenario.t0800)]
   /\ map retry_view (send_records (db w2))
      = [(SendStatusRetry, 2, Some Scenario2.error_text, Scenario.t0800)]
   /\ map retry_view (send_records (db w3))
      = [(SendStatusFailed, 3, Some Scenario2.error_text, Scenario.t0800)]
   /\ w4 = w3
   /\ Scenario.t0800 <> Scenario.t0800 + 10 * time.Second + 300 * time.Second)
  /\ (forall config env record err w,
         map SendRecord.ScheduledAt
             (send_records (db (Scheduler.handleSendError config env record err w)))
         = map SendRecord.ScheduledAt (send_records (db w))).
Proof.
  split; [|exact handleSendError_ScheduledAt].
  vm_compute. repeat split. discriminate.
Qed.

(** ** The outcome reconciler (C6, C7, C8) *)

Lemma findTargetChannel_ChannelID channelID channels targetChannel :
  Scheduler.findTargetChannel channelID channels = Some targetChannel ->
  Channel.ChannelID targetChannel = channelID.
Proof.
  unfold Scheduler.findTargetChannel. intros H. apply find_some in H.
  now apply String.eqb_eq.
Qed.

Lemma UpdateSendRecord_same_rows env d1 d2 r :
  send_records d1 = send_records d2 ->
  fst (Repository.UpdateSendRecord env d1 r) = fst (Repository.UpdateSendRecord env d2 r)
  /\ send_records (snd (Repository.UpdateSendRecord env d1 r))
     = send_records (snd (Repository.UpdateSendRecord env d2 r)).
Proof.
  intros E. unfold Repository.UpdateSendRecord.
  destruct (db_error env _); cbn [fst snd set_send_records send_records]; [auto|].
  now rewrite E.
Qed.

Lemma UpdateSendRecord_pair_fst env d record (w : World) :
  fst (let '(err, d') := Repository.UpdateSendRecord env d record in (err, set_db d' w))
  = fst (Repository.UpdateSendRecord env d record).
Proof. destruct (Repository.UpdateSendRecord env d record); reflexivity. Qed.

Lemma UpdateSendRecord_channels env d record :
  channels (snd (Repository.UpdateSendRecord env d record)) = channels d.
Proof. unfold Repository.UpdateSendRecord. now destruct (db_error env _). Qed.



(** C7. When the group of a repost record taken from the table is loaded and
    found inactive, and the storage accepts the update, [processRecord] makes
    no call to the message service and does not run the retry classifier: the
    row of the record ends with status failed, the error text "Channel group
    is inactive" and the retry count it had; no other row and no channel is
    touched. *)
Theorem C7_inactive_group_fails_without_delivery :
  forall config env record w group,
    SendRecord.MessageType record = SendTypeRepost ->
    In record (send_records (db w)) ->
    Repository.GetChannelGroup env (db w) (SendRecord.GroupID record) = Ok group ->
    ChannelGroup.IsActive group = false ->
    db_error env (QUpdateSendRecord (SendRecord.ID record)) = None ->
    let w' := Scheduler.processRecord config env record w in
    calls w' = calls w
    /\ channels (db w') = channels (db w)
    /\ (exists row, In row (send_records (db w')) /\ SendRecord.ID row = SendRecord.ID record)
    /\ (forall row,
           In row (send_records (db w')) -> SendRecord.ID row = SendRecord.ID record ->
           SendRecord.Status row = SendStatusFailed
           /\ SendRecord.ErrorMessage row = Some "Channel group is inactive"
           /\ SendRecord.RetryCount row = SendRecord.RetryCount record)
    /\ (forall row,
           In row (send_records (db w)) -> SendRecord.ID row <> SendRecord.ID record ->
           In row (send_records (db w'))).
Proof.
  intros config env record w group Hkind Hin Hg Hinactive Hupd w'. subst w'.
  unfold Scheduler.processRecord. rewrite Hkind. cbn [String.eqb Ascii.eqb Bool.eqb].
  unfold Scheduler.processRepostRecord. rewrite Hg, Hinactive. cbn [negb].
  unfold Repository.UpdateSendRecord. rewrite mark_failed_ID, Hupd.
  cbn [snd set_db db calls set_send_records send_records channels].
  repeat split.
  - exists (Repository.updated_row env
              (Scheduler.mark_failed "Channel group is inactive" record) record).
    split; [|reflexivity]. apply in_map_iff. exists record.
    now rewrite Z.eqb_refl.
  - apply in_map_iff in H. destruct H as (r & <- & _).
    destruct (SendRecord.ID r =? SendRecord.ID record) eqn:E; [reflexivity|].
    apply Z.eqb_neq in E. contradiction.
  - apply in_map_iff in H. destruct H as (r & <- & _).
    destruct (SendRecord.ID r =? SendRecord.ID record) eqn:E; [reflexivity|].
    apply Z.eqb_neq in E. contradiction.
  - apply in_map_iff in H. destruct H as (r & <- & _).
    destruct (SendRecord.ID r =? SendRecord.ID record) eqn:E; [reflexivity|].
    apply Z.eqb_neq in E. contradiction.
  - intros row Hrow Hne. apply in_map_iff. exists row. split; [|exact Hrow].
    apply Z.eqb_neq in Hne. now rewrite Hne.
Qed.

Lemma C7_witness :
  let env := Scenario.env_at (Scenario.t0800 + 10 * time.Second) in
  let w := Scenario.world_of Scenario.group_inactive [Scenario.pending1] 1 in
  let w' := Scheduler.processRecord Scenario.config3 env Scenario.pending1 w in
  calls w' = []
  /\ map retry_view (send_records (db w'))
     = [(SendStatusFailed, 0, Some "Channel group is inactive", Scenario.t0800)].
Proof.
  destruct (C7_inactive_group_fails_without_delivery Scenario.config3
              (Scenario.env_at (Scenario.t0800 + 10 * time.Second)) Scenario.pending1
              (Scenario.world_of Scenario.group_inactive [Scenario.pending1] 1)
              Scenario.group_inactive eq_refl (or_introl eq_refl) eq_refl eq_refl eq_refl)
    as (Hcalls & _).
  split; [exact Hcalls|reflexivity].
Defined.


Ltac nothing_sent :=
  repeat split; exists []; cbn [filter snd calls set_db]; rewrite app_nil_r; split; reflexivity.

(** C8, amended. Processing a push record shares with the processing of a
    repost record whose target channel is found the load of the group, the
    inactive-group check, the load of the template, the delivery of the same
    template to the record's channel and the persistence of the outcome: both
    return the same error and leave the same [send_records], and the calls of
    the push are the send calls of the repost.  The push leaves out the delete
    of the previous message and also the pin and the update of the channel's
    last-message id: it makes at most one call, a send, and never writes the
    channels. *)
Theorem C8_push_sends_only :
  (forall env record w channels targetChannel,
      Repository.GetChannelsByGroupID env (db w) (SendRecord.GroupID record) = Ok channels ->
      Scheduler.findTargetChannel (SendRecord.ChannelID record) channels = Some targetChannel ->
      let push := Scheduler.processPushRecord env record w in
      let repost := Scheduler.processRepostRecord env record w in
      fst push = fst repost
      /\ send_records (db (snd push)) = send_records (db (snd repost))
      /\ exists added,
          calls (snd repost) = calls w ++ added
          /\ calls (snd push) = calls w ++ filter is_send_call added)
  /\ (forall env record w,
         let push := Scheduler.processPushRecord env record w in
         channels (db (snd push)) = channels (db w)
         /\ (calls (snd push) = calls w
             \/ exists template entities,
                 calls (snd push)
                 = calls w ++ [CallSendMessageWithTemplate (SendRecord.ChannelID record)
                                 template entities])).
Proof.
  split.
  - intros env record w chans targetChannel Hc Ht push repost. subst push repost.
    pose proof (findTargetChannel_ChannelID _ _ _ Ht) as Hid.
    unfold Scheduler.processPushRecord, Scheduler.processRepostRecord.
    destruct (Repository.GetChannelGroup env (db w) _) as [group|]; [|nothing_sent].
    destruct (negb (ChannelGroup.IsActive group)); [nothing_sent|].
    destruct (Repository.GetMessageTemplate env (db w) _) as [template|]; [|nothing_sent].
    rewrite Hc, Ht, Hid.
    unfold MessageService.SendMessage, MessageService.sendMessage,
      MessageService.SendMessageWithTemplate, MessageService.DeleteMessage,
      MessageService.PinMessage.
    destruct (api_Send env _ template _) as [messageID|e].
    + rewrite !UpdateSendRecord_pair, !UpdateSendRecord_pair_fst.
      cbn [snd set_db db calls log_call].
      destruct (ChannelGroup.AutoPin group);
        destruct (negb (String.eqb (Channel.LastMessageID targetChannel) ""));
        cbn [db log_call calls]; (split; [|split]);
        try (apply UpdateSendRecord_same_rows; symmetry;
             apply UpdateChannelLastMessageID_send_records);
        (eexists; split; [rewrite <- ?app_assoc; reflexivity|reflexivity]).
    + destruct (negb (String.eqb (Channel.LastMessageID targetChannel) ""));
        cbn [fst snd db log_call calls]; (split; [|split]); try reflexivity;
        (eexists; split; [rewrite <- ?app_assoc; reflexivity|reflexivity]).
  - intros env record w push. subst push. unfold Scheduler.processPushRecord.
    destruct (Repository.GetChannelGroup env (db w) _) as [group|]; [|auto].
    destruct (negb (ChannelGroup.IsActive group)).
    { cbn [snd set_db db calls]. rewrite UpdateSendRecord_channels. auto. }
    destruct (Repository.GetMessageTemplate env (db w) _) as [template|]; [|auto].
    unfold MessageService.SendMessage, MessageService.sendMessage,
      MessageService.SendMessageWithTemplate.
    destruct (api_Send env _ template _) as [messageID|e].
    + rewrite UpdateSendRecord_pair. cbn [snd set_db db calls log_call].
      rewrite UpdateSendRecord_channels. split; [reflexivity|]. right. eauto.
    + cbn [snd db calls log_call]. split; [reflexivity|]. right. eauto.
Qed.

(** With auto-pin on, the push sends without pinning and leaves the
    channel's last-message id at 101, where the repost without its delete
    step would pin the new message and store its id 102. *)
Lemma C8_counterexample_no_pin_no_update :
  let push := Scheduler.processPushRecord Scenario8.env Scenario8.push1 Scenario8.w0 in
  let spec := spec_processPushRecord Scenario8.env Scenario8.push1 Scenario8.w0 in
  calls (snd push) = [CallSendMessageWithTemplate "-1001" Scenario.template1 []]
  /\ calls (snd spec) = [CallSendMessageWithTemplate "-1001" Scenario.template1 [];
                         CallPinMessage "-1001" "102"]
  /\ map Channel.LastMessageID (channels (db (snd push))) = ["101"]
  /\ map Channel.LastMessageID (channels (db (snd spec))) = ["102"]
  /\ push <> spec.
Proof. vm_compute. repeat split. discriminate. Qed.

Lemma C8_witness :
  let push := Scheduler.processPushRecord Scenario8.env Scenario8.push1 Scenario8.w0 in
  let repost := Scheduler.processRepostRecord Scenario8.env Scenario8.push1 Scenario8.w0 in
  fst push = fst repost
  /\ send_records (db (snd push)) = send_records (db (snd repost))
  /\ exists added,
      calls (snd repost) = calls Scenario8.w0 ++ added
      /\ calls (snd push) = calls Scenario8.w0 ++ filter is_send_call added.
Proof.
  exact (proj1 C8_push_sends_only Scenario8.env Scenario8.push1 Scenario8.w0
               [Scenario.channel1] Scenario.channel1 eq_refl eq_refl).
Defined.

(** * Further properties of the repository, the scheduler and the message service *)

(** ** What the queries return *)

Section OrderBySorted.
Context {A : Type} (before : A -> A -> bool).
Hypothesis before_total : forall a b, before a b = false -> before b a = true.
Hypothesis before_trans :
  forall a b c, before a b = true -> before b c = true -> before a c = true.

Lemma insert_by_perm (x : A) (l : list A) : Permutation (insert_by before x l) (x :: l).
Proof.
  induction l as [|y l IH]; cbn [insert_by]; [apply Permutation_refl|].
  destruct (before x y); [apply Permutation_refl|].
  eapply perm_trans; [apply perm_skip, IH|apply perm_swap].
Qed.

Lemma order_by_perm (l : list A) : Permutation (order_by before l) l.
Proof.
  induction l as [|x l IH]; cbn [order_by fold_right]; [apply perm_nil|].
  eapply perm_trans; [apply insert_by_perm|apply perm_skip, IH].
Qed.

Lemma insert_by_sorted (x : A) (l : list A) :
  StronglySorted (fun a b => before a b = true) l ->
  StronglySorted (fun a b => before a b = true) (insert_by before x l).
Proof.
  induction l as [|y l IH]; intros Hs; cbn [insert_by].
  - constructor; constructor.
  - inversion Hs as [|? ? Hl Hy]; subst.
    destruct (before x y) eqn:E.
    + constructor; [exact Hs|]. constructor; [exact E|].
      rewrite Forall_forall in *. intros z Hz. eapply before_trans; eauto.
    + constructor; [now apply IH|].
      rewrite Forall_forall in *. intros z Hz. apply insert_by_In in Hz.
      destruct Hz as [->|Hz]; [now apply before_total|now apply Hy].
Qed.

Lemma order_by_sorted (l : list A) :
  StronglySorted (fun a b => before a b = true) (order_by before l).
Proof.
  induction l as [|x l IH]; cbn [order_by fold_right]; [constructor|].
  now apply insert_by_sorted.
Qed.

End OrderBySorted.

Lemma order_by_ascending {A : Type} (key : A -> Z) (l : list A) :
  StronglySorted (fun a b => key a <= key b) (order_by (fun a b => key a <=? key b) l).
Proof.
  eapply StronglySorted_ind with (P := fun l => StronglySorted (fun a b => key a <= key b) l).
  3:{ apply (order_by_sorted (fun a b => key a <=? key b)).
      - intros a b H. apply Z.leb_gt in H. apply Z.leb_le. lia.
      - intros a b c H1 H2. apply Z.leb_le in H1, H2. apply Z.leb_le. lia. }
  - constructor.
  - intros a l0 _ IH Hf. constructor; [exact IH|].
    eapply Forall_impl; [|exact Hf]. intros b Hb. now apply Z.leb_le.
Qed.

Lemma order_by_descending {A : Type} (key : A -> Z) (l : list A) :
  StronglySorted (fun a b => key b <= key a) (order_by (fun a b => key b <=? key a) l).
Proof.
  eapply StronglySorted_ind with (P := fun l => StronglySorted (fun a b => key b <= key a) l).
  3:{ apply (order_by_sorted (fun a b => key b <=? key a)).
      - intros a b H. apply Z.leb_gt in H. apply Z.leb_le. lia.
      - intros a b c H1 H2. apply Z.leb_le in H1, H2. apply Z.leb_le. lia. }
  - constructor.
  - intros a l0 _ IH Hf. constructor; [exact IH|].
    eapply Forall_impl; [|exact Hf]. intros b Hb. now apply Z.leb_le.
Qed.

Lemma GetPendingSendRecords_due env d records x :
  Repository.GetPendingSendRecords env d = Ok records -> In x records ->
  In x (send_records d)
  /\ Repository.status_in_flight x = true
  /\ SendRecord.ScheduledAt x <= time_Now env.
Proof.
  unfold Repository.GetPendingSendRecords. destruct (db_error env _); [discriminate|].
  intros [= <-] H. apply order_by_In in H. apply filter_In in H.
  destruct H as [Hin H]. apply andb_true_iff in H. rewrite Z.leb_le in H. tauto.
Qed.

(** X1. When the query of the dispatch loop succeeds, what it returns is a
    rearrangement of exactly the rows that are pending or retry and scheduled
    at or before now, oldest scheduled-at first. *)
Theorem X1_GetPendingSendRecords_due_oldest_first :
  forall env d records,
    Repository.GetPendingSendRecords env d = Ok records ->
    Permutation records
      (filter (fun r => Repository.status_in_flight r
                        && (SendRecord.ScheduledAt r <=? time_Now env))
              (send_records d))
    /\ (forall r, In r records <->
                  In r (send_records d)
                  /\ (SendRecord.Status r = SendStatusPending
                      \/ SendRecord.Status r = SendStatusRetry)
                  /\ SendRecord.ScheduledAt r <= time_Now env)
    /\ StronglySorted (fun a b => SendRecord.ScheduledAt a <= SendRecord.ScheduledAt b)
                      records.
Proof.
  intros env d records H. unfold Repository.GetPendingSendRecords in H.
  destruct (db_error env _); [discriminate|]. injection H as <-.
  split; [apply order_by_perm|]. split; [|apply order_by_ascending].
  intros r. rewrite order_by_In, filter_In, andb_true_iff, Z.leb_le.
  unfold Repository.status_in_flight. rewrite orb_true_iff, !String.eqb_eq. tauto.
Qed.

Lemma X1_witness :
  StronglySorted (fun a b => SendRecord.ScheduledAt a <= SendRecord.ScheduledAt b)
                 [Scenario.pending1].
Proof.
  exact (proj2 (proj2 (X1_GetPendingSendRecords_due_oldest_first
                         (Scenario.env_at (Scenario.t0800 + 10 * time.Second))
                         (db Scenario2.w0) [Scenario.pending1]
                         ltac:(vm_compute; reflexivity)))).
Defined.

(** X2. When the history lookup succeeds with a limit that is not negative,
    it returns rows of the group only, as many as the limit allows, most
    recently created first, and every row of the group it leaves out was
    created no later than each row it returns. *)
Theorem X2_GetSendRecordsByGroupID_newest_first :
  forall env d groupID limit records,
    0 <= limit ->
    Repository.GetSendRecordsByGroupID env d groupID limit = Ok records ->
    exists older,
      Permutation (records ++ older)
                  (filter (fun r => SendRecord.GroupID r =? groupID) (send_records d))
      /\ StronglySorted (fun a b => SendRecord.CreatedAt b <= SendRecord.CreatedAt a)
                        (records ++ older)
      /\ List.length records
         = Nat.min (Z.to_nat limit) (List.length (records ++ older)).
Proof.
  intros env d groupID limit records Hl H. unfold Repository.GetSendRecordsByGroupID in H.
  destruct (db_error env _); [discriminate|]. injection H as <-.
  unfold LIMIT. apply Z.ltb_ge in Hl. rewrite Hl.
  fold (group_history d groupID).
  exists (skipn (Z.to_nat limit) (group_history d groupID)).
  rewrite firstn_skipn. split; [apply order_by_perm|]. split.
  - apply (order_by_descending SendRecord.CreatedAt).
  - apply length_firstn.
Qed.

Lemma X2_witness :
  exists older,
    Permutation ([Scenario.failed_0800_01] ++ older)
      (filter (fun r => SendRecord.GroupID r =? 1)
              [Scenario.sent_0800_30; Scenario.failed_0800_01])
    /\ StronglySorted (fun a b => SendRecord.CreatedAt b <= SendRecord.CreatedAt a)
                      ([Scenario.failed_0800_01] ++ older)
    /\ List.length [Scenario.failed_0800_01]
       = Nat.min (Z.to_nat 1) (List.length ([Scenario.failed_0800_01] ++ older)).
Proof.
  exact (X2_GetSendRecordsByGroupID_newest_first
           (Scenario.env_at Scenario.t0800)
           (Scenario.db_of Scenario.group_frequency
              [Scenario.sent_0800_30; Scenario.failed_0800_01] 2)
           1 1 [Scenario.failed_0800_01]
           ltac:(vm_compute; discriminate) ltac:(vm_compute; reflexivity)).
Defined.

(** ** Which rows a dispatch tick can touch *)

Lemma dispatch_frame config env r0 records w :
  (forall x, In x records -> SendRecord.ID x = SendRecord.ID r0 ->
             select_case env (SendRecord.ID r0) <> WorkerAcquired) ->
  In r0 (send_records (db w)) ->
  In r0 (send_records (db (Scheduler.dispatch config env records w))).
Proof.
  revert w. induction records as [|x records IH]; intros w Hx Hin; [exact Hin|].
  cbn [Scheduler.dispatch].
  destruct (select_case env (SendRecord.ID x)) eqn:E; [|exact Hin|].
  - apply IH; [intros y Hy; apply Hx; now right|].
    destruct (updates_only_frame _ _ _ (processRecord_updates_only config env x w))
      as (_ & _ & F).
    apply F; [exact Hin|]. intros Heq.
    apply (Hx x (or_introl eq_refl)); congruence.
  - apply IH; [intros y Hy; apply Hx; now right|exact Hin].
Qed.

(** X3. In a table with distinct ids, a tick of the dispatch loop leaves a
    row exactly as it is unless the row is pending or retry, is scheduled at
    or before now, and gets a worker. *)
Theorem X3_dispatch_tick_touches_only_dispatched_rows :
  forall config env w r0,
    wf_send_records (db w) ->
    In r0 (send_records (db w)) ->
    Repository.status_in_flight r0 = false
    \/ time_Now env < SendRecord.ScheduledAt r0
    \/ select_case env (SendRecord.ID r0) <> WorkerAcquired ->
    In r0 (send_records (db (Scheduler.processPendingRecords config env w))).
Proof.
  intros config env w r0 [Hn _] Hin Hwhy. unfold Scheduler.processPendingRecords.
  destruct (Repository.GetPendingSendRecords env (db w)) as [records|] eqn:G; [|exact Hin].
  apply dispatch_frame; [|exact Hin].
  intros x Hx Hid.
  destruct (GetPendingSendRecords_due _ _ _ _ G Hx) as (Hxin & Hst & Hdue).
  assert (x = r0) by (exact (NoDup_map_In_eq _ _ _ _ Hn Hxin Hin Hid)). subst x.
  destruct Hwhy as [Hs|[Hlate|Hsel]]; [congruence|lia|exact Hsel].
Qed.

Lemma X3_witness :
  In Scenario.sent_0800_30
     (send_records
        (db (Scheduler.processPendingRecords Scenario.config3
               (Scenario.env_at (Scenario.t0800 + time.Hour))
               (Scenario.world_of Scenario.group_frequency
                  [Scenario.sent_0800_30; Scenario.failed_0800_01] 2)))).
Proof.
  apply X3_dispatch_tick_touches_only_dispatched_rows.
  - split.
    + repeat constructor; simpl; intuition discriminate.
    + intros r [<-|[<-|[]]]; simpl; lia.
  - now left.
  - left. reflexivity.
Defined.



(** ** What the materializer creates *)

Lemma createRepostTask_channel_creates env group w channel :
  calls (Scheduler.createRepostTask_channel env group w channel) = calls w
  /\ same_tables (db w) (db (Scheduler.createRepostTask_channel env group w channel))
  /\ exists added,
      send_records (db (Scheduler.createRepostTask_channel env group w channel))
      = send_records (db w) ++ added
      /\ forall r, In r added ->
           Channel.IsActive channel = true
           /\ SendRecord.GroupID r = ChannelGroup.ID group
           /\ SendRecord.ChannelID r = Channel.ChannelID channel
           /\ SendRecord.Status r = SendStatusPending
           /\ SendRecord.MessageType r = SendTypeRepost
           /\ SendRecord.RetryCount r = 0
           /\ SendRecord.ScheduledAt r = time_Now env
           /\ SendRecord.SentAt r = None
           /\ SendRecord.ErrorMessage r = None.
Proof.
  assert (Same : calls w = calls w /\ same_tables (db w) (db w)
                 /\ exists added : list SendRecord.t,
                     send_records (db w) = send_records (db w) ++ added
                     /\ forall r, In r added ->
                          Channel.IsActive channel = true
                          /\ SendRecord.GroupID r = ChannelGroup.ID group
                          /\ SendRecord.ChannelID r = Channel.ChannelID channel
                          /\ SendRecord.Status r = SendStatusPending
                          /\ SendRecord.MessageType r = SendTypeRepost
                          /\ SendRecord.RetryCount r = 0
                          /\ SendRecord.ScheduledAt r = time_Now env
                          /\ SendRecord.SentAt r = None
                          /\ SendRecord.ErrorMessage r = None).
  { repeat split. exists []. split; [now rewrite app_nil_r|intros r []]. }
  unfold Scheduler.createRepostTask_channel.
  destruct (Channel.IsActive channel) eqn:Hact; cbn [negb]; [|exact Same].
  destruct (Repository.GetPendingSendRecordsByGroupAndChannel env (db w) _ _); [|exact Same].
  destruct (0 <? _); [exact Same|].
  unfold Repository.CreateSendRecord. cbn [SendRecord.GroupID SendRecord.ChannelID].
  destruct (db_error env _); [exact Same|].
  cbn [snd set_db db calls set_send_records send_records]. repeat split.
  eexists. split; [reflexivity|]. intros r [<-|[]]. repeat split.
Qed.

Lemma createRepostTask_creates env group w :
  calls (Scheduler.createRepostTask env group w) = calls w
  /\ same_tables (db w) (db (Scheduler.createRepostTask env group w))
  /\ exists added,
      send_records (db (Scheduler.createRepostTask env group w)) = send_records (db w) ++ added
      /\ forall r, In r added ->
           SendRecord.GroupID r = ChannelGroup.ID group
           /\ SendRecord.Status r = SendStatusPending
           /\ SendRecord.MessageType r = SendTypeRepost
           /\ SendRecord.RetryCount r = 0
           /\ SendRecord.ScheduledAt r = time_Now env
           /\ SendRecord.SentAt r = None
           /\ SendRecord.ErrorMessage r = None
           /\ exists channel,
               In channel (channels (db w)) /\ Channel.IsActive channel = true
               /\ Channel.GroupID channel = ChannelGroup.ID group
               /\ Channel.ChannelID channel = SendRecord.ChannelID r.
Proof.
  unfold Scheduler.createRepostTask.
  destruct (Repository.GetChannelsByGroupID env (db w) _) as [chans|] eqn:G.
  2:{ repeat split. exists []. split; [now rewrite app_nil_r|intros r []]. }
  assert (Hch : forall c, In c chans ->
                          In c (channels (db w))
                          /\ Channel.GroupID c = ChannelGroup.ID group).
  { unfold Repository.GetChannelsByGroupID in G.
    destruct (db_error env _); [discriminate|]. injection G as <-.
    intros c Hc. apply order_by_In in Hc. apply filter_In in Hc.
    destruct Hc as [Hc Hp]. apply andb_true_iff in Hp. rewrite Z.eqb_eq in Hp. tauto. }
  clear G. revert w Hch. induction chans as [|c cs IH]; intros w Hch.
  { repeat split. exists []. split; [now rewrite app_nil_r|intros r []]. }
  cbn [fold_left].
  destruct (createRepostTask_channel_creates env group w c) as (C1 & (T1 & T2 & T3) & a1 & E1 & S1).
  destruct (IH (Scheduler.createRepostTask_channel env group w c)) as (C2 & (U1 & U2 & U3) & a2 & E2 & S2).
  { intros c' Hc'. rewrite T2. apply Hch. now right. }
  split; [congruence|]. split; [repeat split; congruence|].
  exists (a1 ++ a2). split; [now rewrite E2, E1, app_assoc|].
  intros r Hr. apply in_app_iff in Hr. destruct Hr as [Hr|Hr].
  - destruct (S1 r Hr) as (A & B & C & D). repeat split; try tauto.
    exists c. destruct (Hch c (or_introl eq_refl)). repeat split; auto.
  - destruct (S2 r Hr) as (B & D1 & D2 & D3 & D4 & D5 & D6 & c' & K1 & K).
    repeat split; auto. exists c'. rewrite T2 in K1. tauto.
Qed.

Lemma createRepostTasks_creates env w :
  calls (Scheduler.createRepostTasks env w) = calls w
  /\ same_tables (db w) (db (Scheduler.createRepostTasks env w))
  /\ exists added,
      send_records (db (Scheduler.createRepostTasks env w)) = send_records (db w) ++ added
      /\ forall r, In r added -> materialized_at (time_Now env) (db w) r.
Proof.
  unfold Scheduler.createRepostTasks.
  destruct (Repository.GetChannelGroups env (db w)) as [groups|] eqn:G.
  2:{ repeat split. exists []. split; [now rewrite app_nil_r|intros r []]. }
  assert (Hg : forall g, In g groups -> In g (channel_groups (db w))).
  { unfold Repository.GetChannelGroups in G. destruct (db_error env _); [discriminate|].
    injection G as <-. intros g Hg. now apply order_by_In in Hg. }
  clear G.
  assert (Gen : forall w0,
             same_tables (db w) (db w0) ->
             calls (fold_left (Scheduler.createRepostTasks_group env) groups w0) = calls w0
             /\ same_tables (db w0)
                  (db (fold_left (Scheduler.createRepostTasks_group env) groups w0))
             /\ exists added,
                 send_records (db (fold_left (Scheduler.createRepostTasks_group env) groups w0))
                 = send_records (db w0) ++ added
                 /\ forall r, In r added -> materialized_at (time_Now env) (db w) r).
  { induction groups as [|g gs IH]; intros w0 Hw0.
    { repeat split. exists []. split; [now rewrite app_nil_r|intros r []]. }
    cbn [fold_left].
    assert (Step : calls (Scheduler.createRepostTasks_group env w0 g) = calls w0
                   /\ same_tables (db w0) (db (Scheduler.createRepostTasks_group env w0 g))
                   /\ exists added,
                       send_records (db (Scheduler.createRepostTasks_group env w0 g))
                       = send_records (db w0) ++ added
                       /\ forall r, In r added -> materialized_at (time_Now env) (db w) r).
    { unfold Scheduler.createRepostTasks_group.
      destruct (ChannelGroup.IsActive g) eqn:Hact; cbn [negb].
      2:{ repeat split. exists []. split; [now rewrite app_nil_r|intros r []]. }
      destruct (Scheduler.shouldCreateRepostTask env (db w0) g).
      2:{ repeat split. exists []. split; [now rewrite app_nil_r|intros r []]. }
      destruct (createRepostTask_creates env g w0) as (C & T & added & E & S).
      split; [exact C|]. split; [exact T|]. exists added. split; [exact E|].
      intros r Hr. destruct (S r Hr) as (B & D1 & D2 & D3 & D4 & D5 & D6 & c & K1 & K2 & K3 & K4).
      unfold materialized_at. repeat split; auto.
      exists g, c. destruct Hw0 as (W1 & W2 & W3). rewrite W2 in K1.
      repeat split; auto; try congruence. apply Hg. now left. }
    destruct Step as (C1 & (T1 & T2 & T3) & a1 & E1 & S1).
    destruct (IH (fun g' Hg' => Hg g' (or_intror Hg'))
                 (Scheduler.createRepostTasks_group env w0 g))
      as (C2 & (U1 & U2 & U3) & a2 & E2 & S2).
    { destruct Hw0 as (W1 & W2 & W3). repeat split; congruence. }
    split; [congruence|]. split; [repeat split; congruence|].
    exists (a1 ++ a2). split; [now rewrite E2, E1, app_assoc|].
    intros r Hr. apply in_app_iff in Hr. destruct Hr; auto. }
  apply Gen. repeat split.
Qed.

(** X5. A tick of the materializer calls nothing and writes no table but
    [send_records], where it only appends; every row it appends is a pending
    repost with retry count 0, scheduled at now, without sent-at and error
    text, for an active group and an active channel of that group. *)
Theorem X5_materializer_appends_pending_reposts_of_active_pairs :
  forall env w,
    calls (Scheduler.createRepostTasks env w) = calls w
    /\ channel_groups (db (Scheduler.createRepostTasks env w)) = channel_groups (db w)
    /\ channels (db (Scheduler.createRepostTasks env w)) = channels (db w)
    /\ message_templates (db (Scheduler.createRepostTasks env w)) = message_templates (db w)
    /\ exists added,
        send_records (db (Scheduler.createRepostTasks env w)) = send_records (db w) ++ added
        /\ forall r, In r added -> materialized_at (time_Now env) (db w) r.
Proof.
  intros env w. destruct (createRepostTasks_creates env w) as (C & (T1 & T2 & T3) & H). auto.
Qed.

Lemma X5_witness :
  let env := Scenario.env_at Scenario.t0800 in
  let w := Scenario.world_of Scenario.group_frequency [] 0 in
  exists added,
    send_records (db (Scheduler.createRepostTasks env w)) = send_records (db w) ++ added
    /\ forall r, In r added -> materialized_at (time_Now env) (db w) r.
Proof.
  exact (proj2 (proj2 (proj2 (proj2
           (X5_materializer_appends_pending_reposts_of_active_pairs
              (Scenario.env_at Scenario.t0800)
              (Scenario.world_of Scenario.group_frequency [] 0)))))).
Defined.

Lemma in_flight_rows_appends groupID channelID d d' :
  appends_only d d' ->
  in_flight_rows groupID channelID d <> [] -> in_flight_rows groupID channelID d' <> [].
Proof.
  intros [added E] H. unfold in_flight_rows in *. rewrite E, filter_app.
  destruct (filter _ (send_records d)); [congruence|discriminate].
Qed.

Lemma createRepostTask_channel_covers env group w channel :
  (forall q, db_error env q = None) ->
  Channel.IsActive channel = true ->
  in_flight_rows (ChannelGroup.ID group) (Channel.ChannelID channel)
    (db (Scheduler.createRepostTask_channel env group w channel)) <> [].
Proof.
  intros Hok Hact. unfold Scheduler.createRepostTask_channel. rewrite Hact. cbn [negb].
  unfold Repository.GetPendingSendRecordsByGroupAndChannel. rewrite Hok.
  rewrite order_by_length.
  fold (in_flight_rows (ChannelGroup.ID group) (Channel.ChannelID channel) (db w)).
  destruct (in_flight_rows _ _ (db w)) as [|x l] eqn:E.
  2:{ destruct (0 <? _) eqn:C; [rewrite E; discriminate|].
      apply Z.ltb_ge in C. cbn [List.length] in C. lia. }
  cbn [List.length Z.of_nat Z.ltb Z.compare].
  unfold Repository.CreateSendRecord. rewrite Hok.
  cbn [snd set_db db]. unfold in_flight_rows.
  cbn [set_send_records send_records]. rewrite filter_app.
  cbn [filter SendRecord.GroupID SendRecord.ChannelID SendRecord.Status].
  rewrite Z.eqb_refl, String.eqb_refl. cbn.
  destruct (filter _ (send_records (db w))); discriminate.
Qed.

Lemma createRepostTask_fold_covers env group chans w :
  (forall q, db_error env q = None) ->
  (forall c, In c chans -> Channel.IsActive c = true) ->
  forall c, In c chans ->
    in_flight_rows (ChannelGroup.ID group) (Channel.ChannelID c)
      (db (fold_left (Scheduler.createRepostTask_channel env group) chans w)) <> [].
Proof.
  intros Hok. revert w. induction chans as [|c0 cs IH]; intros w Hact c Hc; [destruct Hc|].
  cbn [fold_left]. destruct Hc as [->|Hc].
  - assert (Hmono : forall cs' w',
               in_flight_rows (ChannelGroup.ID group) (Channel.ChannelID c) (db w') <> [] ->
               in_flight_rows (ChannelGroup.ID group) (Channel.ChannelID c)
                 (db (fold_left (Scheduler.createRepostTask_channel env group) cs' w')) <> []).
    { induction cs' as [|c' cs' IH']; intros w' H; [exact H|].
      cbn [fold_left]. apply IH'.
      eapply in_flight_rows_appends; [apply createRepostTask_channel_appends|exact H]. }
    apply Hmono. apply createRepostTask_channel_covers; [exact Hok|].
    apply Hact. now left.
  - apply IH; [intros c' Hc'; apply Hact; now right|exact Hc].
Qed.

Lemma createRepostTask_fold_skips env group chans w :
  (forall c, In c chans ->
     in_flight_rows (ChannelGroup.ID group) (Channel.ChannelID c) (db w) <> []) ->
  fold_left (Scheduler.createRepostTask_channel env group) chans w = w.
Proof.
  induction chans as [|c cs IH]; intros H; [reflexivity|].
  cbn [fold_left]. rewrite createRepostTask_channel_skip by (apply H; now left).
  apply IH. intros c' Hc'. apply H. now right.
Qed.

(** X6. When the storage works, one run of the materializer for a group
    leaves every active channel of the group with a pending or retry record;
    and whatever the storage and the clock do then, a further run for the
    group right after it changes nothing. *)
Theorem X6_materializer_covers_every_active_channel :
  forall env group w,
    (forall q, db_error env q = None) ->
    (forall channel,
        In channel (channels (db w)) ->
        Channel.GroupID channel = ChannelGroup.ID group ->
        Channel.IsActive channel = true ->
        in_flight_rows (ChannelGroup.ID group) (Channel.ChannelID channel)
          (db (Scheduler.createRepostTask env group w)) <> [])
    /\ (forall env',
           Scheduler.createRepostTask env' group (Scheduler.createRepostTask env group w)
           = Scheduler.createRepostTask env group w).
Proof.
  intros env group w Hok.
  assert (Hall : forall c,
             In c (channels (db w)) ->
             Channel.GroupID c = ChannelGroup.ID group ->
             Channel.IsActive c = true ->
             in_flight_rows (ChannelGroup.ID group) (Channel.ChannelID c)
               (db (Scheduler.createRepostTask env group w)) <> []).
  { intros c Hc Hg Hact. unfold Scheduler.createRepostTask, Repository.GetChannelsByGroupID.
    rewrite Hok. apply createRepostTask_fold_covers; [exact Hok| |].
    - intros c' Hc'. apply order_by_In in Hc'. apply filter_In in Hc'.
      destruct Hc' as [_ Hp]. apply andb_true_iff in Hp. tauto.
    - apply order_by_In. apply filter_In. split; [exact Hc|].
      rewrite Hact, andb_true_r. now apply Z.eqb_eq. }
  split; [exact Hall|].
  intros env'. remember (Scheduler.createRepostTask env group w) as w1 eqn:Ew1.
  destruct (createRepostTask_creates env group w) as (_ & (_ & Hch & _) & _).
  rewrite <- Ew1 in Hch.
  unfold Scheduler.createRepostTask at 1, Repository.GetChannelsByGroupID.
  destruct (db_error env' _); [reflexivity|].
  apply createRepostTask_fold_skips. intros c Hc.
  apply order_by_In in Hc. apply filter_In in Hc. destruct Hc as [Hc Hp].
  apply andb_true_iff in Hp. destruct Hp as [Hg Hact]. apply Z.eqb_eq in Hg.
  rewrite Hch in Hc. now apply Hall.
Qed.

Lemma X6_witness :
  let env := Scenario.env_at Scenario.t0800 in
  let w := Scenario.world_of Scenario.group_frequency [] 0 in
  in_flight_rows 1 "-1001" (db (Scheduler.createRepostTask env Scenario.group_frequency w))
  <> [].
Proof.
  exact (proj1 (X6_materializer_covers_every_active_channel
                  (Scenario.env_at Scenario.t0800) Scenario.group_frequency
                  (Scenario.world_of Scenario.group_frequency [] 0)
                  (fun _ => eq_refl))
               Scenario.channel1 (or_introl eq_refl) eq_refl eq_refl).
Defined.

(** ** The due check in timepoints mode *)

Lemma matchTimepoints_true env d groupID h m today tps :
  Scheduler.matchTimepoints env d groupID h m today tps = true ->
  exists tp, In tp tps /\ TimePoint.Hour tp = h /\ TimePoint.Minute tp = m
             /\ Scheduler.hasAlreadySentToday env d groupID today tp = false.
Proof.
  induction tps as [|tp tps IH]; cbn [Scheduler.matchTimepoints]; [discriminate|].
  destruct ((TimePoint.Hour tp =? h) && (TimePoint.Minute tp =? m)) eqn:E.
  - destruct (Scheduler.hasAlreadySentToday env d groupID today tp) eqn:S.
    + intros H. destruct (IH H) as (tp' & Hin & K). exists tp'. split; [now right|exact K].
    + intros _. apply andb_true_iff in E. rewrite !Z.eqb_eq in E.
      exists tp. split; [now left|tauto].
  - intros H. destruct (IH H) as (tp' & Hin & K). exists tp'. split; [now right|exact K].
Qed.

Lemma matchTimepoints_false env d groupID h m today tps :
  (forall tp, In tp tps -> TimePoint.Hour tp = h -> TimePoint.Minute tp = m ->
              Scheduler.hasAlreadySentToday env d groupID today tp = true) ->
  Scheduler.matchTimepoints env d groupID h m today tps = false.
Proof.
  induction tps as [|tp tps IH]; intros H; cbn [Scheduler.matchTimepoints]; [reflexivity|].
  rewrite IH by (intros tp' Hin; apply H; now right).
  destruct ((TimePoint.Hour tp =? h) && (TimePoint.Minute tp =? m)) eqn:E; [|reflexivity].
  apply andb_true_iff in E. rewrite !Z.eqb_eq in E.
  now rewrite (H tp (or_introl eq_refl)) by tauto.
Qed.

Lemma shouldCreateRepostTask_timepoints env d group :
  ChannelGroup.ScheduleMode group = ScheduleModeTimepoints ->
  Scheduler.shouldCreateRepostTask env d group
  = Scheduler.matchTimepoints env d (ChannelGroup.ID group)
      (time.Time_Hour (time_Now env)) (time.Time_Minute (time_Now env))
      (time.Time_Date (time_Now env)) (ChannelGroup.ScheduleTimepoints group).
Proof.
  intros Hmode. unfold Scheduler.shouldCreateRepostTask. rewrite Hmode.
  cbn [String.eqb Ascii.eqb Bool.eqb ScheduleModeTimepoints ScheduleModeFrequency andb].
  unfold Scheduler.shouldCreateTimepointTask.
  now destruct (ChannelGroup.ScheduleTimepoints group).
Qed.

(** X7. A group in timepoints mode is due only in a minute of the day that is
    one of its configured time points, and then only if the check of the
    history did not find, or could not look for, a send of today at that time
    point; a group without time points is never due. *)
Theorem X7_timepoints_due_only_at_a_configured_minute :
  forall env d group,
    ChannelGroup.ScheduleMode group = ScheduleModeTimepoints ->
    Scheduler.shouldCreateRepostTask env d group = true ->
    exists tp,
      In tp (ChannelGroup.ScheduleTimepoints group)
      /\ TimePoint.Hour tp = time.Time_Hour (time_Now env)
      /\ TimePoint.Minute tp = time.Time_Minute (time_Now env)
      /\ Scheduler.hasAlreadySentToday env d (ChannelGroup.ID group)
           (time.Time_Date (time_Now env)) tp = false.
Proof.
  intros env d group Hmode H. rewrite shouldCreateRepostTask_timepoints in H by exact Hmode.
  now apply matchTimepoints_true in H.
Qed.

Lemma X7_witness :
  exists tp,
    In tp (ChannelGroup.ScheduleTimepoints Scenario.group_timepoints)
    /\ TimePoint.Hour tp = time.Time_Hour (Scenario.t0800 + 5 * time.Second)
    /\ TimePoint.Minute tp = time.Time_Minute (Scenario.t0800 + 5 * time.Second)
    /\ Scheduler.hasAlreadySentToday (Scenario.env_at (Scenario.t0800 + 5 * time.Second))
         (Scenario.db_of Scenario.group_timepoints [] 0) 1
         (time.Time_Date (Scenario.t0800 + 5 * time.Second)) tp = false.
Proof.
  exact (X7_timepoints_due_only_at_a_configured_minute
           (Scenario.env_at (Scenario.t0800 + 5 * time.Second))
           (Scenario.db_of Scenario.group_timepoints [] 0)
           Scenario.group_timepoints eq_refl ltac:(vm_compute; reflexivity)).
Defined.

(** X8. In timepoints mode, a sent repost among the fifty records the history
    lookup returns, sent today in the current hour and in the current minute
    or the minute before or after it, makes the group not due, whatever its
    time points are: a time point one minute after another one is suppressed
    by the send of the first. *)
Theorem X8_timepoint_suppressed_by_send_within_a_minute :
  forall env d group records r s,
    ChannelGroup.ScheduleMode group = ScheduleModeTimepoints ->
    Repository.GetSendRecordsByGroupID env d (ChannelGroup.ID group) 50 = Ok records ->
    In r records ->
    Scheduler.is_sent_repost r = true ->
    SendRecord.SentAt r = Some s ->
    time.Time_Date s = time.Time_Date (time_Now env) ->
    time.Time_Hour s = time.Time_Hour (time_Now env) ->
    -1 <= time.Time_Minute s - time.Time_Minute (time_Now env) <= 1 ->
    Scheduler.shouldCreateRepostTask env d group = false.
Proof.
  intros env d group records r s Hmode Hq Hin Hs HT Hd Hh Hm.
  rewrite shouldCreateRepostTask_timepoints by exact Hmode.
  apply matchTimepoints_false. intros tp _ Hth Htm.
  unfold Scheduler.hasAlreadySentToday. rewrite Hq.
  apply (sentTodayAt_In _ _ _ r s); auto; [congruence|].
  rewrite Htm. rewrite int64_small by lia. unfold Scheduler.abs.
  destruct (_ <? 0) eqn:E; [|lia]. rewrite int64_small by lia. lia.
Qed.

Lemma X8_witness :
  time.Time_Minute (time_Now Scenario7.env) = 1
  /\ Scheduler.shouldCreateRepostTask Scenario7.env Scenario7.d Scenario7.group_adjacent
     = false.
Proof.
  split; [vm_compute; reflexivity|].
  apply (X8_timepoint_suppressed_by_send_within_a_minute Scenario7.env Scenario7.d
           Scenario7.group_adjacent [Scenario.sent_0800_30] Scenario.sent_0800_30
           (Scenario.t0800 + 30 * time.Second)); by_computation.
Defined.

(** X9. The due check fails open: when the history lookup fails, a group in
    any mode but timepoints is due, and a group in timepoints mode is due in
    every minute that is one of its time points. *)
Theorem X9_due_check_fails_open :
  forall env d group,
    (ChannelGroup.ScheduleMode group <> ScheduleModeTimepoints ->
     db_error env (QGetSendRecordsByGroupID (ChannelGroup.ID group) 1) <> None ->
     Scheduler.shouldCreateRepostTask env d group = true)
    /\ (ChannelGroup.ScheduleMode group = ScheduleModeTimepoints ->
        db_error env (QGetSendRecordsByGroupID (ChannelGroup.ID group) 50) <> None ->
        forall tp,
          In tp (ChannelGroup.ScheduleTimepoints group) ->
          TimePoint.Hour tp = time.Time_Hour (time_Now env) ->
          TimePoint.Minute tp = time.Time_Minute (time_Now env) ->
          Scheduler.shouldCreateRepostTask env d group = true).
Proof.
  intros env d group. split.
  - intros Hmode Herr. rewrite shouldCreateRepostTask_frequency by exact Hmode.
    unfold Scheduler.shouldCreateFrequencyTask, Repository.GetSendRecordsByGroupID.
    destruct (db_error env _); [reflexivity|congruence].
  - intros Hmode Herr tp Hin Hh Hm.
    rewrite shouldCreateRepostTask_timepoints by exact Hmode.
    assert (Hno : forall tp', Scheduler.hasAlreadySentToday env d (ChannelGroup.ID group)
                                (time.Time_Date (time_Now env)) tp' = false).
    { intros tp'. unfold Scheduler.hasAlreadySentToday, Repository.GetSendRecordsByGroupID.
      destruct (db_error env _); [reflexivity|congruence]. }
    induction (ChannelGroup.ScheduleTimepoints group) as [|tp0 tps IH]; [destruct Hin|].
    cbn [Scheduler.matchTimepoints]. rewrite Hno.
    destruct Hin as [->|Hin].
    + rewrite Hh, Hm, !Z.eqb_refl. reflexivity.
    + destruct (_ && _); [reflexivity|now apply IH].
Qed.

Lemma X9_witness :
  Scheduler.shouldCreateRepostTask
    (Scenario7.env_lookup_fails (Scenario.t0800 + 50 * time.Second))
    (Scenario.db_of Scenario.group_timepoints [Scenario.sent_0800_30] 1)
    Scenario.group_timepoints = true.
Proof.
  apply (proj2 (X9_due_check_fails_open
                  (Scenario7.env_lookup_fails (Scenario.t0800 + 50 * time.Second))
                  (Scenario.db_of Scenario.group_timepoints [Scenario.sent_0800_30] 1)
                  Scenario.group_timepoints)
               eq_refl ltac:(discriminate) (TimePoint.mk 8 0) (or_introl eq_refl));
    by_computation.
Defined.

(** ** What the processing of one record can do *)

Lemma processing_effect_none config env record w w' :
  calls w' = calls w -> db w' = db w -> processing_effect config env record w w'.
Proof.
  intros Hc Hd. exists []. rewrite Hc, Hd, app_nil_r.
  split; [reflexivity|]. split; [constructor|].
  split; [cbn; lia|]. split; [cbn; lia|]. repeat split. now left.
Qed.

Lemma UpdateSendRecord_effect env d record :
  channel_groups (snd (Repository.UpdateSendRecord env d record)) = channel_groups d
  /\ message_templates (snd (Repository.UpdateSendRecord env d record)) = message_templates d
  /\ send_records_seq (snd (Repository.UpdateSendRecord env d record)) = send_records_seq d
  /\ channels (snd (Repository.UpdateSendRecord env d record)) = channels d
  /\ (send_records (snd (Repository.UpdateSendRecord env d record)) = send_records d
      /\ fst (Repository.UpdateSendRecord env d record) <> None
      \/ send_records (snd (Repository.UpdateSendRecord env d record))
         = rows_updated env record (send_records d)
         /\ fst (Repository.UpdateSendRecord env d record) = None
         /\ db_error env (QUpdateSendRecord (SendRecord.ID record)) = None).
Proof.
  unfold Repository.UpdateSendRecord.
  destruct (db_error env _); cbn [fst snd]; repeat split; [left|right]; repeat split.
  discriminate.
Qed.

Lemma UpdateChannelLastMessageID_effect env d channelID messageID :
  channel_groups (snd (Repository.UpdateChannelLastMessageID env d channelID messageID))
  = channel_groups d
  /\ message_templates (snd (Repository.UpdateChannelLastMessageID env d channelID messageID))
     = message_templates d
  /\ map channel_identity
         (channels (snd (Repository.UpdateChannelLastMessageID env d channelID messageID)))
     = map channel_identity (channels d).
Proof.
  unfold Repository.UpdateChannelLastMessageID.
  destruct (db_error env _); cbn [snd]; repeat split.
  cbn [set_channels channels]. rewrite map_map. apply map_ext. intros c.
  now destruct (String.eqb _ _).
Qed.

Lemma handleSendError_classified config env record err w :
  Scheduler.handleSendError config env record err w
  = set_db (snd (Repository.UpdateSendRecord env (db w) (classified config env record err))) w.
Proof.
  unfold Scheduler.handleSendError, classified. cbn zeta.
  now destruct (_ <? _).
Qed.

Lemma classified_ID config env record err :
  SendRecord.ID (classified config env record err) = SendRecord.ID record.
Proof. unfold classified. cbn zeta. now destruct (_ <? _). Qed.

Lemma mark_failed_effect config env record reason w :
  processing_effect config env record w
    (set_db (snd (Repository.UpdateSendRecord env (db w)
                    (Scheduler.mark_failed reason record))) w).
Proof.
  destruct (UpdateSendRecord_effect env (db w) (Scheduler.mark_failed reason record))
    as (E1 & E2 & E3 & E4 & E5).
  exists []. cbn [calls set_db db]. rewrite app_nil_r, E1, E2, E3, E4.
  split; [reflexivity|]. split; [constructor|].
  split; [cbn; lia|]. split; [cbn; lia|]. repeat split.
  destruct E5 as [[E5 _]|[E5 _]]; [now left|right].
  exists (Scheduler.mark_failed reason record). split; [constructor|exact E5].
Qed.

Lemma processRepostRecord_effect config env record w :
  processing_effect config env record w (snd (Scheduler.processRepostRecord env record w))
  /\ (fst (Scheduler.processRepostRecord env record w) <> None ->
      send_records (db (snd (Scheduler.processRepostRecord env record w)))
      = send_records (db w)).
Proof.
  unfold Scheduler.processRepostRecord.
  destruct (Repository.GetChannelGroup env (db w) _) as [group|];
    [|split; [now apply processing_effect_none|reflexivity]].
  destruct (negb (ChannelGroup.IsActive group)).
  { split; [apply mark_failed_effect|intros H; now elim H]. }
  destruct (Repository.GetMessageTemplate env (db w) _) as [template|];
    [|split; [now apply processing_effect_none|reflexivity]].
  destruct (Repository.GetChannelsByGroupID env (db w) _) as [chans|];
    [|split; [now apply processing_effect_none|reflexivity]].
  destruct (Scheduler.findTargetChannel _ chans) as [targetChannel|] eqn:Ht.
  2:{ split; [apply mark_failed_effect|intros H; now elim H]. }
  rewrite (findTargetChannel_ChannelID _ _ _ Ht).
  unfold MessageService.SendMessageWithTemplate, MessageService.DeleteMessage,
    MessageService.PinMessage.
  destruct (api_Send env _ template _) as [messageID|e].
  - rewrite UpdateSendRecord_pair, UpdateSendRecord_pair_fst.
    set (w1 := if negb (String.eqb (Channel.LastMessageID targetChannel) "") then _ else w).
    set (w2 := log_call _ w1).
    set (w3 := if ChannelGroup.AutoPin group then _ else w2).
    set (d4 := snd (Repository.UpdateChannelLastMessageID env (db w3) _ messageID)).
    cbn [snd set_db db].
    assert (Hdb : db w3 = db w).
    { subst w3 w2 w1. destruct (ChannelGroup.AutoPin group);
        destruct (negb (String.eqb (Channel.LastMessageID targetChannel) "")); reflexivity. }
    destruct (UpdateChannelLastMessageID_effect env (db w3) (SendRecord.ChannelID record)
                messageID) as (G1 & G2 & G3).
    destruct (UpdateChannelLastMessageID_send_records env (db w3)
                (SendRecord.ChannelID record) messageID) as (G4 & G5).
    fold d4 in G1, G2, G3, G4, G5. rewrite Hdb in G1, G2, G3, G4, G5.
    destruct (UpdateSendRecord_effect env d4 (Scheduler.mark_sent env messageID record))
      as (E1 & E2 & E3 & E4 & E5).
    split.
    + exists ((if negb (String.eqb (Channel.LastMessageID targetChannel) "")
               then [CallDeleteMessage (SendRecord.ChannelID record)
                       (Channel.LastMessageID targetChannel)] else [])
              ++ [CallSendMessageWithTemplate (SendRecord.ChannelID record) template
                    (deserialize_entities env template)]
              ++ (if ChannelGroup.AutoPin group
                  then [CallPinMessage (SendRecord.ChannelID record) messageID] else [])).
      cbn [calls db set_db]. rewrite E1, E2, E3, E4, G1, G2, G3, G5.
      split.
      { subst w3 w2 w1. destruct (ChannelGroup.AutoPin group);
          destruct (negb (String.eqb (Channel.LastMessageID targetChannel) ""));
          cbn [snd calls log_call app]; rewrite <- ?app_assoc; cbn [app];
          rewrite ?app_nil_r; reflexivity. }
      split.
      { destruct (ChannelGroup.AutoPin group);
          destruct (negb (String.eqb (Channel.LastMessageID targetChannel) ""));
          repeat constructor. }
      split.
      { destruct (ChannelGroup.AutoPin group);
          destruct (negb (String.eqb (Channel.LastMessageID targetChannel) ""));
          cbn; lia. }
      split.
      { destruct (ChannelGroup.AutoPin group);
          destruct (negb (String.eqb (Channel.LastMessageID targetChannel) ""));
          cbn; lia. }
      repeat split.
      destruct E5 as [[E5 _]|[E5 _]]; rewrite E5, G4; [now left|right].
      exists (Scheduler.mark_sent env messageID record). split; [constructor|reflexivity].
    + intros Hf. destruct E5 as [[E5 _]|[_ [E5 _]]]; [now rewrite E5, G4|contradiction].
  - cbn [fst snd]. split; [|now destruct (negb _)].
    exists ((if negb (String.eqb (Channel.LastMessageID targetChannel) "")
             then [CallDeleteMessage (SendRecord.ChannelID record)
                     (Channel.LastMessageID targetChannel)] else [])
            ++ [CallSendMessageWithTemplate (SendRecord.ChannelID record) template
                  (deserialize_entities env template)]).
    destruct (negb (String.eqb (Channel.LastMessageID targetChannel) ""));
      cbn [snd calls log_call app db]; rewrite <- ?app_assoc;
      repeat split; repeat constructor; cbn; lia.
Qed.

Lemma processPushRecord_effect config env record w :
  processing_effect config env record w (snd (Scheduler.processPushRecord env record w))
  /\ (fst (Scheduler.processPushRecord env record w) <> None ->
      send_records (db (snd (Scheduler.processPushRecord env record w)))
      = send_records (db w)).
Proof.
  unfold Scheduler.processPushRecord.
  destruct (Repository.GetChannelGroup env (db w) _) as [group|];
    [|split; [now apply processing_effect_none|reflexivity]].
  destruct (negb (ChannelGroup.IsActive group)).
  { split; [apply mark_failed_effect|intros H; now elim H]. }
  destruct (Repository.GetMessageTemplate env (db w) _) as [template|];
    [|split; [now apply processing_effect_none|reflexivity]].
  unfold MessageService.SendMessage, MessageService.sendMessage,
    MessageService.SendMessageWithTemplate.
  destruct (api_Send env _ template _) as [messageID|e].
  - rewrite UpdateSendRecord_pair, UpdateSendRecord_pair_fst. cbn [snd set_db db log_call].
    destruct (UpdateSendRecord_effect env (db w) (Scheduler.mark_sent env messageID record))
      as (E1 & E2 & E3 & E4 & E5).
    split.
    + exists [CallSendMessageWithTemplate (SendRecord.ChannelID record) template
                (deserialize_entities env template)].
      cbn [calls db set_db log_call]. rewrite E1, E2, E3, E4.
      split; [reflexivity|]. split; [repeat constructor|].
      split; [cbn; lia|]. split; [cbn; lia|]. repeat split.
      destruct E5 as [[E5 _]|[E5 _]]; [now left|right].
      exists (Scheduler.mark_sent env messageID record). split; [constructor|exact E5].
    + intros Hf. destruct E5 as [[E5 _]|[_ [E5 _]]]; [exact E5|contradiction].
  - cbn [fst snd]. split; [|reflexivity].
    exists [CallSendMessageWithTemplate (SendRecord.ChannelID record) template
              (deserialize_entities env template)].
    cbn [calls db log_call].
    split; [reflexivity|]. split; [repeat constructor|].
    split; [cbn; lia|]. split; [cbn; lia|]. repeat split. now left.
Qed.

Lemma handleSendError_after config env record err w w1 :
  processing_effect config env record w w1 ->
  send_records (db w1) = send_records (db w) ->
  processing_effect config env record w (Scheduler.handleSendError config env record err w1).
Proof.
  intros (added & C & F & L1 & L2 & G & T & S & K & _) Hrows.
  rewrite handleSendError_classified.
  destruct (UpdateSendRecord_effect env (db w1) (classified config env record err))
    as (E1 & E2 & E3 & E4 & E5).
  exists added. cbn [calls db set_db]. rewrite E1, E2, E3, E4.
  repeat (split; [assumption|]).
  destruct E5 as [[E5 _]|[E5 _]]; rewrite E5, Hrows; [now left|right].
  exists (classified config env record err). split; [constructor|reflexivity].
Qed.

Lemma processRecord_effect config env record w :
  processing_effect config env record w (Scheduler.processRecord config env record w).
Proof.
  unfold Scheduler.processRecord.
  destruct (String.eqb (SendRecord.MessageType record) SendTypeRepost).
  { destruct (processRepostRecord_effect config env record w) as [H1 H2].
    destruct (Scheduler.processRepostRecord env record w) as [[err|] w1]; [|exact H1].
    apply handleSendError_after; [exact H1|]. apply H2. discriminate. }
  destruct (String.eqb (SendRecord.MessageType record) SendTypePush).
  { destruct (processPushRecord_effect config env record w) as [H1 H2].
    destruct (Scheduler.processPushRecord env record w) as [[err|] w1]; [|exact H1].
    apply handleSendError_after; [exact H1|]. apply H2. discriminate. }
  now apply processing_effect_none.
Qed.

(** X16. Whatever the kind and the state of a record, processing it makes at
    most three calls to the message service, at most one of them a send, and
    every call goes to the channel of the record; it leaves the groups and the
    templates as they are; and it writes [send_records] at most once, as an
    UPDATE of the rows with the id of the record with either the failed mark,
    the sent mark or the outcome of the retry classifier. *)
Theorem X16_processing_a_record_sends_at_most_once :
  forall config env record w,
    exists added,
      calls (Scheduler.processRecord config env record w) = calls w ++ added
      /\ Forall (fun c => call_channel c = SendRecord.ChannelID record) added
      /\ (List.length (filter is_send_call added) <= 1)%nat
      /\ (List.length added <= 3)%nat
      /\ channel_groups (db (Scheduler.processRecord config env record w))
         = channel_groups (db w)
      /\ message_templates (db (Scheduler.processRecord config env record w))
         = message_templates (db w)
      /\ (send_records (db (Scheduler.processRecord config env record w))
          = send_records (db w)
          \/ exists rec',
              written_record config env record rec'
              /\ send_records (db (Scheduler.processRecord config env record w))
                 = rows_updated env rec' (send_records (db w))).
Proof.
  intros config env record w.
  destruct (processRecord_effect config env record w)
    as (added & C & F & L1 & L2 & G & T & S & K & R).
  exists added. auto 10.
Qed.

(** ** What the scheduling core keeps over any run *)

Lemma written_record_sent_at config env record rec' :
  written_record config env record rec' ->
  SendRecord.Status rec' = SendStatusSent -> SendRecord.SentAt rec' <> None.
Proof.
  intros [reason|messageID|err]; cbn.
  - discriminate.
  - discriminate.
  - unfold classified. cbn zeta. destruct (_ <? _); cbn; discriminate.
Qed.

Lemma dispatch_effect config env records w :
  channel_groups (db (Scheduler.dispatch config env records w)) = channel_groups (db w)
  /\ message_templates (db (Scheduler.dispatch config env records w))
     = message_templates (db w)
  /\ map channel_identity (channels (db (Scheduler.dispatch config env records w)))
     = map channel_identity (channels (db w))
  /\ (sent_rows_have_sent_at (db w) ->
      sent_rows_have_sent_at (db (Scheduler.dispatch config env records w))).
Proof.
  revert w. induction records as [|x records IH]; intros w; [auto|].
  cbn [Scheduler.dispatch]. destruct (select_case env (SendRecord.ID x)); auto.
  destruct (IH (Scheduler.processRecord config env x w)) as (G & T & K & I).
  destruct (processRecord_effect config env x w)
    as (added & _ & _ & _ & _ & G' & T' & _ & K' & R).
  repeat split; try congruence.
  intros Inv. apply I. intros r Hr Hs.
  destruct R as [R|(rec' & Hw & R)]; rewrite R in Hr; [now apply Inv|].
  unfold rows_updated in Hr. apply in_map_iff in Hr. destruct Hr as (row & <- & Hrow).
  destruct (SendRecord.ID row =? SendRecord.ID rec'); [|now apply Inv].
  cbn in Hs |- *. now apply (written_record_sent_at _ _ _ _ Hw).
Qed.

Lemma activate_effect config a w :
  channel_groups (db (Scheduler.activate config w a)) = channel_groups (db w)
  /\ message_templates (db (Scheduler.activate config w a)) = message_templates (db w)
  /\ map channel_identity (channels (db (Scheduler.activate config w a)))
     = map channel_identity (channels (db w))
  /\ (sent_rows_have_sent_at (db w) ->
      sent_rows_have_sent_at (db (Scheduler.activate config w a))).
Proof.
  destruct a as [env|env|env]; cbn [Scheduler.activate].
  - unfold Scheduler.Start, Repository.CleanupDuplicatePendingRecords.
    destruct (db_error env _); cbn [snd set_db db]; [auto|].
    repeat split. intros Inv r Hr. cbn [set_send_records send_records] in Hr.
    apply filter_In in Hr. apply Inv. tauto.
  - destruct (createRepostTasks_creates env w) as (_ & (T1 & T2 & T3) & added & E & S).
    rewrite T1, T2, T3. repeat split.
    intros Inv r Hr Hs. rewrite E in Hr. apply in_app_iff in Hr.
    destruct Hr as [Hr|Hr]; [now apply Inv|].
    destruct (S r Hr) as (Hp & _). rewrite Hp in Hs. discriminate.
  - unfold Scheduler.processPendingRecords.
    destruct (Repository.GetPendingSendRecords env (db w)); [apply dispatch_effect|auto].
Qed.

(** X12. If every row marked sent carries a sent-at, this is still so after
    any sequence of start sweeps, materializer ticks and dispatch ticks. *)
Theorem X12_sent_rows_keep_a_sent_at :
  forall config acts w,
    sent_rows_have_sent_at (db w) ->
    sent_rows_have_sent_at (db (Scheduler.run config acts w)).
Proof.
  intros config acts. induction acts as [|a acts IH]; intros w Inv; [exact Inv|].
  unfold Scheduler.run. cbn [fold_left]. apply IH. now apply activate_effect.
Qed.

Lemma X12_witness :
  sent_rows_have_sent_at
    (db (Scheduler.run Scenario.config3
           [Scheduler.AProcessPendingRecords
              (Scenario.env_at (Scenario.t0800 + 10 * time.Second))]
           Scenario2.w0)).
Proof.
  apply X12_sent_rows_keep_a_sent_at.
  intros r [<-|[]]. discriminate.
Defined.

(** X15. The scheduling core only reads the groups and the templates, and of
    a channel it writes nothing but the last-message id (and the update
    stamp): after any sequence of start sweeps, materializer ticks and
    dispatch ticks, the groups and templates are the same, and so are the
    ids, channel ids, names, groups, active flags and creation times of the
    channels, row by row. *)
Theorem X15_core_only_writes_records_and_last_message_ids :
  forall config acts w,
    channel_groups (db (Scheduler.run config acts w)) = channel_groups (db w)
    /\ message_templates (db (Scheduler.run config acts w)) = message_templates (db w)
    /\ map channel_identity (channels (db (Scheduler.run config acts w)))
       = map channel_identity (channels (db w)).
Proof.
  intros config acts. induction acts as [|a acts IH]; intros w; [auto|].
  unfold Scheduler.run. cbn [fold_left].
  destruct (IH (Scheduler.activate config w a)) as (G & T & K).
  destruct (activate_effect config a w) as (G' & T' & K' & _).
  unfold Scheduler.run in G, T, K. repeat split; congruence.
Qed.

(** ** Outcomes of the processing of a repost record *)

Lemma find_none_of {A : Type} (f : A -> bool) (l : list A) :
  (forall x, In x l -> f x = false) -> find f l = None.
Proof.
  induction l as [|a l IH]; intros H; [reflexivity|]. cbn [find].
  rewrite (H a (or_introl eq_refl)). apply IH. intros x Hx. apply H. now right.
Qed.

Lemma rows_updated_row env rec' rows record :
  In record rows -> SendRecord.ID rec' = SendRecord.ID record ->
  (exists row, In row (rows_updated env rec' rows) /\ SendRecord.ID row = SendRecord.ID record)
  /\ (forall row, In row (rows_updated env rec' rows) ->
                  SendRecord.ID row = SendRecord.ID record ->
                  SendRecord.Status row = SendRecord.Status rec'
                  /\ SendRecord.ErrorMessage row = SendRecord.ErrorMessage rec'
                  /\ SendRecord.RetryCount row = SendRecord.RetryCount rec'
                  /\ SendRecord.SentAt row = SendRecord.SentAt rec'
                  /\ SendRecord.MessageID row = SendRecord.MessageID rec')
  /\ (forall row, In row rows -> SendRecord.ID row <> SendRecord.ID record ->
                  In row (rows_updated env rec' rows)).
Proof.
  intros Hin Hid. unfold rows_updated. rewrite Hid. repeat split.
  - exists (Repository.updated_row env rec' record). split; [|reflexivity].
    apply in_map_iff. exists record. now rewrite Z.eqb_refl.
  - apply in_map_iff in H. destruct H as (r & <- & _).
    destruct (SendRecord.ID r =? SendRecord.ID record) eqn:E; [reflexivity|].
    apply Z.eqb_neq in E. contradiction.
  - apply in_map_iff in H. destruct H as (r & <- & _).
    destruct (SendRecord.ID r =? SendRecord.ID record) eqn:E; [reflexivity|].
    apply Z.eqb_neq in E. contradiction.
  - apply in_map_iff in H. destruct H as (r & <- & _).
    destruct (SendRecord.ID r =? SendRecord.ID record) eqn:E; [reflexivity|].
    apply Z.eqb_neq in E. contradiction.
  - apply in_map_iff in H. destruct H as (r & <- & _).
    destruct (SendRecord.ID r =? SendRecord.ID record) eqn:E; [reflexivity|].
    apply Z.eqb_neq in E. contradiction.
  - apply in_map_iff in H. destruct H as (r & <- & _).
    destruct (SendRecord.ID r =? SendRecord.ID record) eqn:E; [reflexivity|].
    apply Z.eqb_neq in E. contradiction.
  - intros row Hrow Hne. apply in_map_iff. exists row. split; [|exact Hrow].
    apply Z.eqb_neq in Hne. now rewrite Hne.
Qed.

Lemma UpdateSendRecord_accepted env d record :
  db_error env (QUpdateSendRecord (SendRecord.ID record)) = None ->
  Repository.UpdateSendRecord env d record
  = (None, set_send_records (rows_updated env record (send_records d))
             (send_records_seq d) d).
Proof. intros H. unfold Repository.UpdateSendRecord. now rewrite H. Qed.

(** X10. When the group of a repost record is active and its template loads,
    but the group has no active channel row with the channel id of the record
    (the channel was removed or switched off), the record is given up at
    once: no call to the message service, no channel written, the retry
    classifier not run; with the update accepted its row ends failed with the
    error text "Channel not found" and the retry count it had. *)
Theorem X10_missing_channel_fails_without_delivery :
  forall config env record w group template,
    SendRecord.MessageType record = SendTypeRepost ->
    In record (send_records (db w)) ->
    Repository.GetChannelGroup env (db w) (SendRecord.GroupID record) = Ok group ->
    ChannelGroup.IsActive group = true ->
    Repository.GetMessageTemplate env (db w) (ChannelGroup.MessageID group) = Ok template ->
    db_error env (QGetChannelsByGroupID (SendRecord.GroupID record)) = None ->
    (forall c, In c (channels (db w)) ->
               Channel.GroupID c = SendRecord.GroupID record ->
               Channel.ChannelID c = SendRecord.ChannelID record ->
               Channel.IsActive c = false) ->
    db_error env (QUpdateSendRecord (SendRecord.ID record)) = None ->
    let w' := Scheduler.processRecord config env record w in
    calls w' = calls w
    /\ channels (db w') = channels (db w)
    /\ (exists row, In row (send_records (db w')) /\ SendRecord.ID row = SendRecord.ID record)
    /\ (forall row,
           In row (send_records (db w')) -> SendRecord.ID row = SendRecord.ID record ->
           SendRecord.Status row = SendStatusFailed
           /\ SendRecord.ErrorMessage row = Some "Channel not found"
           /\ SendRecord.RetryCount row = SendRecord.RetryCount record)
    /\ (forall row,
           In row (send_records (db w)) -> SendRecord.ID row <> SendRecord.ID record ->
           In row (send_records (db w'))).
Proof.
  intros config env record w group template Hkind Hin Hg Hact Ht Hq Hnone Hupd w'. subst w'.
  unfold Scheduler.processRecord. rewrite Hkind.
  cbn [String.eqb Ascii.eqb Bool.eqb SendTypeRepost].
  unfold Scheduler.processRepostRecord. rewrite Hg, Hact, Ht. cbn [negb].
  unfold Repository.GetChannelsByGroupID. rewrite Hq.
  unfold Scheduler.findTargetChannel. rewrite find_none_of.
  2:{ intros c Hc. apply order_by_In in Hc. apply filter_In in Hc. destruct Hc as [Hc Hp].
      apply andb_true_iff in Hp. destruct Hp as [Hp1 Hp2]. apply Z.eqb_eq in Hp1.
      apply String.eqb_neq. intros Heq. specialize (Hnone c Hc Hp1 Heq). congruence. }
  rewrite UpdateSendRecord_accepted by (rewrite mark_failed_ID; exact Hupd).
  cbn [snd set_db db calls set_send_records send_records channels].
  destruct (rows_updated_row env (Scheduler.mark_failed "Channel not found" record)
              (send_records (db w)) record Hin (mark_failed_ID _ _)) as (Hex & Hrow & Hother).
  split; [reflexivity|]. split; [reflexivity|]. split; [exact Hex|]. split; [|exact Hother].
  intros row Hr Hid. destruct (Hrow row Hr Hid) as (A & B & C & _). auto.
Qed.

Lemma X10_witness :
  let env := Scenario.env_at (Scenario.t0800 + 10 * time.Second) in
  let record :=
    SendRecord.mk 1 1 "-1009" "" SendTypeRepost SendStatusPending None 0
      Scenario.t0800 None Scenario.t0800 Scenario.t0800 in
  let w := Scenario.world_of Scenario.group_frequency [record] 1 in
  calls (Scheduler.processRecord Scenario.config3 env record w) = calls w.
Proof.
  intros env record w.
  refine (proj1 (X10_missing_channel_fails_without_delivery Scenario.config3 env record w
                   Scenario.group_frequency Scenario.template1
                   eq_refl (or_introl eq_refl) eq_refl eq_refl eq_refl eq_refl _ eq_refl)).
  intros c [<-|[]] _ H. discriminate H.
Defined.

(** X11. When a repost record is processed with its group active, its
    template loaded, its target channel found, the send answered with a
    message id and the storage accepting the writes, then its row ends sent,
    with sent-at now, the new message id, no error text and the retry count it
    had; and every channel row with the channel id of the record, in whatever
    group, ends with the new message id as its last-message id, while the
    rows of other channels are left as they are. *)
Theorem X11_successful_repost_outcome :
  forall config env record w group template targetChannel messageID,
    SendRecord.MessageType record = SendTypeRepost ->
    In record (send_records (db w)) ->
    Repository.GetChannelGroup env (db w) (SendRecord.GroupID record) = Ok group ->
    ChannelGroup.IsActive group = true ->
    Repository.GetMessageTemplate env (db w) (ChannelGroup.MessageID group) = Ok template ->
    targetChannelOf env (db w) record = Some targetChannel ->
    api_Send env (SendRecord.ChannelID record) template (deserialize_entities env template)
    = Ok messageID ->
    db_error env (QUpdateSendRecord (SendRecord.ID record)) = None ->
    db_error env (QUpdateChannelLastMessageID (SendRecord.ChannelID record)) = None ->
    let w' := Scheduler.processRecord config env record w in
    (exists row, In row (send_records (db w')) /\ SendRecord.ID row = SendRecord.ID record)
    /\ (forall row,
           In row (send_records (db w')) -> SendRecord.ID row = SendRecord.ID record ->
           SendRecord.Status row = SendStatusSent
           /\ SendRecord.SentAt row = Some (time_Now env)
           /\ SendRecord.MessageID row = messageID
           /\ SendRecord.ErrorMessage row = None
           /\ SendRecord.RetryCount row = SendRecord.RetryCount record)
    /\ (forall c, In c (channels (db w')) ->
                  Channel.ChannelID c = SendRecord.ChannelID record ->
                  Channel.LastMessageID c = messageID)
    /\ (forall c, In c (channels (db w)) ->
                  Channel.ChannelID c <> SendRecord.ChannelID record ->
                  In c (channels (db w'))).
Proof.
  intros config env record w group template targetChannel messageID
         Hkind Hin Hg Hact Ht Htc Hsend Hupd Hlast w'. subst w'.
  unfold Scheduler.processRecord. rewrite Hkind.
  cbn [String.eqb Ascii.eqb Bool.eqb SendTypeRepost].
  unfold Scheduler.processRepostRecord. rewrite Hg, Hact, Ht. cbn [negb].
  unfold targetChannelOf in Htc.
  destruct (Repository.GetChannelsByGroupID env (db w) _) as [chans|]; [|discriminate].
  rewrite Htc. rewrite (findTargetChannel_ChannelID _ _ _ Htc).
  unfold MessageService.SendMessageWithTemplate, MessageService.DeleteMessage,
    MessageService.PinMessage. rewrite Hsend.
  rewrite UpdateSendRecord_accepted by (rewrite mark_sent_ID; exact Hupd).
  cbn [snd set_db db set_send_records send_records channels].
  set (w1 := if negb (String.eqb (Channel.LastMessageID targetChannel) "") then _ else w).
  set (w3 := if ChannelGroup.AutoPin group then _ else _).
  assert (Hdb : db w3 = db w).
  { subst w3 w1. destruct (ChannelGroup.AutoPin group);
      destruct (negb (String.eqb (Channel.LastMessageID targetChannel) "")); reflexivity. }
  rewrite Hdb. unfold Repository.UpdateChannelLastMessageID. rewrite Hlast.
  cbn [snd set_channels send_records channels].
  destruct (rows_updated_row env (Scheduler.mark_sent env messageID record)
              (send_records (db w)) record Hin (mark_sent_ID _ _ _)) as (Hex & Hrow & _).
  split; [exact Hex|]. split; [|split].
  - intros row Hr Hid. destruct (Hrow row Hr Hid) as (A & B & C & D & E). auto.
  - intros c Hc Hid. apply in_map_iff in Hc. destruct Hc as (c0 & <- & _).
    destruct (String.eqb (Channel.ChannelID c0) (SendRecord.ChannelID record)) eqn:E;
      [reflexivity|].
    apply String.eqb_neq in E. contradiction.
  - intros c Hc Hne. apply in_map_iff. exists c. split; [|exact Hc].
    apply String.eqb_neq in Hne. now rewrite Hne.
Qed.

Lemma X11_witness :
  let env := Scenario.env_at (Scenario.t0800 + 10 * time.Second) in
  let w := Scenario.world_of Scenario.group_autopin [Scenario.pending1] 1 in
  exists row,
    In row (send_records (db (Scheduler.processRecord Scenario.config3 env
                                Scenario.pending1 w)))
    /\ SendRecord.ID row = SendRecord.ID Scenario.pending1.
Proof.
  exact (proj1
           (X11_successful_repost_outcome Scenario.config3
              (Scenario.env_at (Scenario.t0800 + 10 * time.Second)) Scenario.pending1
              (Scenario.world_of Scenario.group_autopin [Scenario.pending1] 1)
              Scenario.group_autopin Scenario.template1 Scenario.channel1 "102"
              eq_refl (or_introl eq_refl) eq_refl eq_refl eq_refl eq_refl eq_refl
              eq_refl eq_refl)).
Defined.

(** ** The retry classifier *)

(** X13. When the storage accepts the update, the retry classifier makes no
    call and writes no channel; the row of the record gets the error text and
    a retry count one higher (short of the overflow of the counter), and its
    status is retry exactly when the new count is below the configured number
    of attempts, failed otherwise; the other rows are left as they are.  With
    one attempt or less configured the first failure is final. *)
Theorem X13_retry_classifier_budget :
  forall config env record err w,
    In record (send_records (db w)) ->
    db_error env (QUpdateSendRecord (SendRecord.ID record)) = None ->
    - 2 ^ 63 <= SendRecord.RetryCount record + 1 < 2 ^ 63 ->
    let w' := Scheduler.handleSendError config env record err w in
    calls w' = calls w
    /\ channels (db w') = channels (db w)
    /\ (exists row, In row (send_records (db w')) /\ SendRecord.ID row = SendRecord.ID record)
    /\ (forall row,
           In row (send_records (db w')) -> SendRecord.ID row = SendRecord.ID record ->
           SendRecord.RetryCount row = SendRecord.RetryCount record + 1
           /\ SendRecord.ErrorMessage row = Some err
           /\ (SendRecord.RetryCount record + 1 < SchedulerConfig.RetryAttempts config ->
               SendRecord.Status row = SendStatusRetry)
           /\ (SchedulerConfig.RetryAttempts config <= SendRecord.RetryCount record + 1 ->
               SendRecord.Status row = SendStatusFailed))
    /\ (forall row,
           In row (send_records (db w)) -> SendRecord.ID row <> SendRecord.ID record ->
           In row (send_records (db w'))).
Proof.
  intros config env record err w Hin Hupd Hrange w'. subst w'.
  rewrite handleSendError_classified.
  rewrite UpdateSendRecord_accepted by (rewrite classified_ID; exact Hupd).
  cbn [snd set_db db calls set_send_records send_records channels].
  destruct (rows_updated_row env (classified config env record err)
              (send_records (db w)) record Hin (classified_ID _ _ _ _)) as (Hex & Hrow & Hother).
  split; [reflexivity|]. split; [reflexivity|]. split; [exact Hex|]. split; [|exact Hother].
  intros row Hr Hid. destruct (Hrow row Hr Hid) as (A & B & C & _).
  rewrite A, B, C. unfold classified. cbn zeta.
  cbn [SendRecord.with_ErrorMessage SendRecord.with_RetryCount SendRecord.RetryCount].
  rewrite int64_small by exact Hrange.
  destruct (SendRecord.RetryCount record + 1 <? SchedulerConfig.RetryAttempts config) eqn:E;
    cbn; [apply Z.ltb_lt in E|apply Z.ltb_ge in E]; repeat split; intros; try lia; reflexivity.
Qed.

Lemma X13_witness :
  let env := Scenario.env_send_fails (Scenario.t0800 + 10 * time.Second) in
  calls (Scheduler.handleSendError Scenario.config3 env Scenario.pending1
           Scenario2.error_text Scenario2.w0)
  = calls Scenario2.w0.
Proof.
  exact (proj1 (X13_retry_classifier_budget Scenario.config3
                  (Scenario.env_send_fails (Scenario.t0800 + 10 * time.Second))
                  Scenario.pending1 Scenario2.error_text Scenario2.w0
                  (or_introl eq_refl) eq_refl
                  ltac:(vm_compute; split; [discriminate|reflexivity]))).
Defined.

(** X14. Unlike an inactive group, a group or a template that cannot be
    loaded costs the record a retry: for a repost or push record whose group
    cannot be read, whose group row is gone ("channel group not found"), or
    whose template cannot be read, the processing makes no call to the
    message service and is exactly the retry classifier applied to that
    error. *)
Theorem X14_load_errors_go_to_the_retry_classifier :
  forall config env record w,
    SendRecord.MessageType record = SendTypeRepost
    \/ SendRecord.MessageType record = SendTypePush ->
    (forall e,
        Repository.GetChannelGroup env (db w) (SendRecord.GroupID record) = Err e ->
        Scheduler.processRecord config env record w
        = Scheduler.handleSendError config env record e w)
    /\ (db_error env (QGetChannelGroup (SendRecord.GroupID record)) = None ->
        (forall g, In g (channel_groups (db w)) ->
                   ChannelGroup.ID g <> SendRecord.GroupID record) ->
        Scheduler.processRecord config env record w
        = Scheduler.handleSendError config env record "channel group not found" w)
    /\ (forall group e,
           Repository.GetChannelGroup env (db w) (SendRecord.GroupID record) = Ok group ->
           ChannelGroup.IsActive group = true ->
           Repository.GetMessageTemplate env (db w) (ChannelGroup.MessageID group) = Err e ->
           Scheduler.processRecord config env record w
           = Scheduler.handleSendError config env record e w)
    /\ (forall e, calls (Scheduler.handleSendError config env record e w) = calls w).
Proof.
  intros config env record w Hkind.
  assert (H1 : forall e,
             Repository.GetChannelGroup env (db w) (SendRecord.GroupID record) = Err e ->
             Scheduler.processRecord config env record w
             = Scheduler.handleSendError config env record e w).
  { intros e He. unfold Scheduler.processRecord, Scheduler.processRepostRecord,
      Scheduler.processPushRecord. rewrite He.
    destruct Hkind as [-> | ->]; reflexivity. }
  split; [exact H1|]. split; [|split].
  - intros Hq Hnone. apply H1. unfold Repository.GetChannelGroup. rewrite Hq.
    rewrite find_none_of; [reflexivity|].
    intros g Hg. apply Z.eqb_neq. now apply Hnone.
  - intros group e Hg Hact Ht. unfold Scheduler.processRecord, Scheduler.processRepostRecord,
      Scheduler.processPushRecord. rewrite Hg, Hact, Ht.
    destruct Hkind as [-> | ->]; reflexivity.
  - intros e. reflexivity.
Qed.

Lemma X14_witness :
  let env := Scenario.env_at (Scenario.t0800 + 10 * time.Second) in
  let record :=
    SendRecord.mk 1 7 "-1001" "" SendTypeRepost SendStatusPending None 0
      Scenario.t0800 None Scenario.t0800 Scenario.t0800 in
  let w := Scenario.world_of Scenario.group_frequency [record] 1 in
  Scheduler.processRecord Scenario.config3 env record w
  = Scheduler.handleSendError Scenario.config3 env record "channel group not found" w.
Proof.
  intros env record w.
  refine (proj1 (proj2 (X14_load_errors_go_to_the_retry_classifier Scenario.config3 env
                          record w (or_introl eq_refl))) eq_refl _).
  intros g [<-|[]]. discriminate.
Defined.

(** ** Sends and deletes for a whole group *)

(** X17. [SendRepost], [SendPush] and [DeleteGroupMessages] either go through
    all channels and return no error, or return an error having done nothing:
    no call, no row, no channel written.  In particular an inactive group is
    refused with "channel group is not active". *)
Theorem X17_group_operations_fail_without_effect :
  forall env groupID w,
    (forall e w', Services.SendRepost env groupID w = (Some e, w') -> w' = w)
    /\ (forall e w', Services.SendPush env groupID w = (Some e, w') -> w' = w)
    /\ (forall e w', Services.DeleteGroupMessages env groupID w = (Some e, w') -> w' = w)
    /\ (forall group,
           Repository.GetChannelGroup env (db w) groupID = Ok group ->
           ChannelGroup.IsActive group = false ->
           Services.SendRepost env groupID w = (Some "channel group is not active", w)
           /\ Services.SendPush env groupID w = (Some "channel group is not active", w)).
Proof.
  intros env groupID w. unfold Services.SendRepost, Services.SendPush,
    Services.DeleteGroupMessages. repeat split.
  - intros e w'. destruct (Repository.GetChannelGroup env (db w) groupID) as [group|];
      [|congruence].
    destruct (negb (ChannelGroup.IsActive group)); [congruence|].
    destruct (Repository.GetMessageTemplate env (db w) _); [|congruence].
    destruct (Repository.GetChannelsByGroupID env (db w) groupID); [discriminate|congruence].
  - intros e w'. destruct (Repository.GetChannelGroup env (db w) groupID) as [group|];
      [|congruence].
    destruct (negb (ChannelGroup.IsActive group)); [congruence|].
    destruct (Repository.GetMessageTemplate env (db w) _); [|congruence].
    destruct (Repository.GetChannelsByGroupID env (db w) groupID); [discriminate|congruence].
  - intros e w'.
    destruct (Repository.GetChannelsByGroupID env (db w) groupID); [discriminate|congruence].
  - rewrite H, H0. reflexivity.
  - rewrite H, H0. reflexivity.
Qed.

Lemma X17_witness :
  Services.SendRepost (Scenario.env_at Scenario.t0800) 1
    (Scenario.world_of Scenario.group_inactive [] 0)
  = (Some "channel group is not active", Scenario.world_of Scenario.group_inactive [] 0).
Proof.
  exact (proj1 (proj2 (proj2 (proj2
           (X17_group_operations_fail_without_effect (Scenario.env_at Scenario.t0800) 1
              (Scenario.world_of Scenario.group_inactive [] 0)))) Scenario.group_inactive
           eq_refl eq_refl)).
Defined.

Lemma CreateSendRecord_row env d record :
  exists added,
    send_records (snd (Repository.CreateSendRecord env d record)) = send_records d ++ added
    /\ channel_groups (snd (Repository.CreateSendRecord env d record)) = channel_groups d
    /\ channels (snd (Repository.CreateSendRecord env d record)) = channels d
    /\ message_templates (snd (Repository.CreateSendRecord env d record)) = message_templates d
    /\ Forall (fun r =>
                 SendRecord.GroupID r = SendRecord.GroupID record
                 /\ SendRecord.ChannelID r = SendRecord.ChannelID record
                 /\ SendRecord.MessageID r = SendRecord.MessageID record
                 /\ SendRecord.MessageType r = SendRecord.MessageType record
                 /\ SendRecord.Status r = SendRecord.Status record
                 /\ SendRecord.ScheduledAt r = SendRecord.ScheduledAt record
                 /\ SendRecord.SentAt r = None
                 /\ SendRecord.ErrorMessage r = None
                 /\ SendRecord.RetryCount r = 0
                 /\ SendRecord.CreatedAt r = CURRENT_TIMESTAMP env) added
    /\ ((forall q, db_error env q = None) ->
        map SendRecord.ChannelID added = [SendRecord.ChannelID record]).
Proof.
  unfold Repository.CreateSendRecord. destruct (db_error env _) eqn:E; cbn [snd].
  - exists []. rewrite app_nil_r. repeat split; [constructor|].
    intros H. rewrite H in E. discriminate.
  - eexists. split; [reflexivity|]. repeat split.
    constructor; [|constructor]. repeat split.
Qed.

Lemma SendRepost_channel_step env groupID template w c :
  Channel.GroupID c = groupID ->
  exists added_calls added_rows,
    calls (Services.SendRepost_channel env groupID template w c) = calls w ++ added_calls
    /\ map call_channel (filter is_send_call added_calls) = [Channel.ChannelID c]
    /\ Forall (fun k => is_send_call k || is_delete_call k = true) added_calls
    /\ send_records (db (Services.SendRepost_channel env groupID template w c))
       = send_records (db w) ++ added_rows
    /\ Forall (recorded_by_group_send env groupID SendTypeRepost) added_rows
    /\ ((forall q, db_error env q = None) ->
        map SendRecord.ChannelID added_rows = [Channel.ChannelID c]).
Proof.
  intros Hg. unfold Services.SendRepost_channel, Services.sendRepostToChannel,
    MessageService.sendMessage, MessageService.SendMessageWithTemplate,
    MessageService.DeleteMessage.
  set (w1 := if negb (String.eqb (Channel.LastMessageID c) "") then _ else w).
  assert (H1 : exists dels,
             calls w1 = calls w ++ dels /\ db w1 = db w
             /\ filter is_send_call dels = []
             /\ Forall (fun k => is_send_call k || is_delete_call k = true) dels).
  { subst w1. destruct (negb _).
    - eexists. cbn [snd calls log_call db]. repeat split. repeat constructor.
    - exists []. rewrite app_nil_r. repeat split. constructor. }
  destruct H1 as (dels & C1 & D1 & F1 & A1).
  destruct (api_Send env _ template _) as [messageID|e].
  - unfold Services.recordSendSuccess. cbn [set_db db calls log_call].
    rewrite D1.
    destruct (UpdateChannelLastMessageID_send_records env (db w) (Channel.ChannelID c)
                messageID) as (G4 & _).
    match goal with
    | |- context [Repository.CreateSendRecord env ?d ?r] =>
        destruct (CreateSendRecord_row env d r) as (ar & E & _ & _ & _ & P & N)
    end.
    exists (dels ++ [CallSendMessageWithTemplate (Channel.ChannelID c) template
                       (deserialize_entities env template)]), ar.
    rewrite E, G4, C1, filter_app, F1. cbn.
    split; [now rewrite app_assoc|]. split; [reflexivity|].
    split; [apply Forall_app; split; [exact A1|repeat constructor]|].
    split; [reflexivity|]. split; [|exact N].
    eapply Forall_impl; [|exact P]. cbn. intros r H. unfold recorded_by_group_send.
    intuition congruence.
  - unfold Services.recordSendFailure. cbn [set_db db calls log_call]. rewrite D1.
    match goal with
    | |- context [Repository.CreateSendRecord env ?d ?r] =>
        destruct (CreateSendRecord_row env d r) as (ar & E & _ & _ & _ & P & N)
    end.
    exists (dels ++ [CallSendMessageWithTemplate (Channel.ChannelID c) template
                       (deserialize_entities env template)]), ar.
    rewrite E, C1, filter_app, F1. cbn.
    split; [now rewrite app_assoc|]. split; [reflexivity|].
    split; [apply Forall_app; split; [exact A1|repeat constructor]|].
    split; [reflexivity|]. split; [|exact N].
    eapply Forall_impl; [|exact P]. cbn. intros r H. unfold recorded_by_group_send.
    intuition congruence.
Qed.

Lemma SendRepost_fold env groupID template chans w :
  (forall c, In c chans -> Channel.GroupID c = groupID) ->
  exists added_calls added_rows,
    calls (fold_left (Services.SendRepost_channel env groupID template) chans w)
    = calls w ++ added_calls
    /\ map call_channel (filter is_send_call added_calls) = map Channel.ChannelID chans
    /\ Forall (fun k => is_send_call k || is_delete_call k = true) added_calls
    /\ send_records (db (fold_left (Services.SendRepost_channel env groupID template) chans w))
       = send_records (db w) ++ added_rows
    /\ Forall (recorded_by_group_send env groupID SendTypeRepost) added_rows
    /\ ((forall q, db_error env q = None) ->
        map SendRecord.ChannelID added_rows = map Channel.ChannelID chans).
Proof.
  revert w. induction chans as [|c cs IH]; intros w Hg.
  { exists [], []. rewrite !app_nil_r. repeat split; constructor. }
  cbn [fold_left].
  destruct (SendRepost_channel_step env groupID template w c (Hg c (or_introl eq_refl)))
    as (ac1 & ar1 & C1 & S1 & A1 & R1 & P1 & N1).
  destruct (IH (Services.SendRepost_channel env groupID template w c)
               (fun c' Hc' => Hg c' (or_intror Hc')))
    as (ac2 & ar2 & C2 & S2 & A2 & R2 & P2 & N2).
  exists (ac1 ++ ac2), (ar1 ++ ar2).
  rewrite C2, C1, R2, R1, filter_app, !map_app, S1, S2, !app_assoc.
  repeat split; try (apply Forall_app; split; assumption).
  intros Hok. rewrite (N1 Hok), (N2 Hok). reflexivity.
Qed.

(** X18. When [SendRepost] returns no error, it has tried every active
    channel of the group, in order, with exactly one send each, whatever
    happened to the sends before; it has made no pin call; and it has only
    appended rows to [send_records], each a repost of the group marked sent
    or failed and stored without sent-at and without error text, one per
    channel when the storage works. *)
Theorem X18_SendRepost_tries_every_channel :
  forall env groupID w w',
    Services.SendRepost env groupID w = (None, w') ->
    exists chans added_calls added_rows,
      Repository.GetChannelsByGroupID env (db w) groupID = Ok chans
      /\ calls w' = calls w ++ added_calls
      /\ map call_channel (filter is_send_call added_calls) = map Channel.ChannelID chans
      /\ Forall (fun k => is_send_call k || is_delete_call k = true) added_calls
      /\ send_records (db w') = send_records (db w) ++ added_rows
      /\ Forall (recorded_by_group_send env groupID SendTypeRepost) added_rows
      /\ ((forall q, db_error env q = None) ->
          map SendRecord.ChannelID added_rows = map Channel.ChannelID chans).
Proof.
  intros env groupID w w'. unfold Services.SendRepost.
  destruct (Repository.GetChannelGroup env (db w) groupID) as [group|]; [|discriminate].
  destruct (negb (ChannelGroup.IsActive group)); [discriminate|].
  destruct (Repository.GetMessageTemplate env (db w) _) as [template|]; [|discriminate].
  destruct (Repository.GetChannelsByGroupID env (db w) groupID) as [chans|] eqn:G;
    [|discriminate].
  intros [= <-]. exists chans.
  destruct (SendRepost_fold env groupID template chans w) as (ac & ar & H).
  { unfold Repository.GetChannelsByGroupID in G. destruct (db_error env _); [discriminate|].
    injection G as <-. intros c Hc. apply order_by_In in Hc. apply filter_In in Hc.
    destruct Hc as [_ Hp]. apply andb_true_iff in Hp. destruct Hp as [Hp _].
    now apply Z.eqb_eq. }
  exists ac, ar. split; [reflexivity|exact H].
Qed.

Lemma X18_witness :
  exists chans added_calls added_rows,
    Repository.GetChannelsByGroupID Scenario18.env (db Scenario18.w0) 1 = Ok chans
    /\ calls (snd (Services.SendRepost Scenario18.env 1 Scenario18.w0))
       = calls Scenario18.w0 ++ added_calls
    /\ map call_channel (filter is_send_call added_calls) = map Channel.ChannelID chans
    /\ Forall (fun k => is_send_call k || is_delete_call k = true) added_calls
    /\ send_records (db (snd (Services.SendRepost Scenario18.env 1 Scenario18.w0)))
       = send_records (db Scenario18.w0) ++ added_rows
    /\ Forall (recorded_by_group_send Scenario18.env 1 SendTypeRepost) added_rows
    /\ ((forall q, db_error Scenario18.env q = None) ->
        map SendRecord.ChannelID added_rows = map Channel.ChannelID chans).
Proof.
  exact (X18_SendRepost_tries_every_channel Scenario18.env 1 Scenario18.w0
           (snd (Services.SendRepost Scenario18.env 1 Scenario18.w0))
           ltac:(vm_compute; reflexivity)).
Defined.

Lemma frequency_due_when_newest_has_no_sent_at env d group r :
  ChannelGroup.ScheduleMode group <> ScheduleModeTimepoints ->
  hd_error (group_history d (ChannelGroup.ID group)) = Some r ->
  SendRecord.SentAt r = None ->
  Scheduler.shouldCreateRepostTask env d group = true.
Proof.
  intros Hmode Hh Hs. rewrite shouldCreateRepostTask_frequency by exact Hmode.
  unfold Scheduler.shouldCreateFrequencyTask, Repository.GetSendRecordsByGroupID.
  destruct (db_error env _); [reflexivity|].
  fold (group_history d (ChannelGroup.ID group)).
  destruct (group_history d (ChannelGroup.ID group)) as [|x rest]; [reflexivity|].
  cbn in Hh. injection Hh as ->. rewrite LIMIT_1_head. cbn [firstn].
  rewrite Hs. now destruct (negb _).
Qed.

(** X19. A send for a whole group does not postpone the schedule: after
    [SendRepost] has gone through a group that has an active channel, with
    the storage working and every earlier row of the group created before the
    current second, the most recently created row of the group is one just
    recorded, which has no sent-at; so a group in frequency mode is due at
    the very next check, whatever its frequency. *)
Theorem X19_group_send_leaves_the_group_due :
  forall env env' group w w',
    Services.SendRepost env (ChannelGroup.ID group) w = (None, w') ->
    (forall q, db_error env q = None) ->
    (exists c, In c (channels (db w))
               /\ Channel.GroupID c = ChannelGroup.ID group
               /\ Channel.IsActive c = true) ->
    (forall r, In r (send_records (db w)) ->
               SendRecord.GroupID r = ChannelGroup.ID group ->
               SendRecord.CreatedAt r < CURRENT_TIMESTAMP env) ->
    ChannelGroup.ScheduleMode group <> ScheduleModeTimepoints ->
    Scheduler.shouldCreateRepostTask env' (db w') group = true.
Proof.
  intros env env' group w w' Hsend Hok (c & Hc & Hcg & Hca) Hold Hmode.
  unfold Services.SendRepost in Hsend.
  destruct (Repository.GetChannelGroup env (db w) _) as [g|]; [|discriminate].
  destruct (negb (ChannelGroup.IsActive g)); [discriminate|].
  destruct (Repository.GetMessageTemplate env (db w) _) as [template|]; [|discriminate].
  unfold Repository.GetChannelsByGroupID in Hsend. rewrite Hok in Hsend.
  injection Hsend as <-.
  set (chans := order_by _ _).
  assert (Hchans : forall c', In c' chans -> Channel.GroupID c' = ChannelGroup.ID group).
  { intros c' Hc'. apply order_by_In in Hc'. apply filter_In in Hc'.
    destruct Hc' as [_ Hp]. apply andb_true_iff in Hp. destruct Hp as [Hp _].
    now apply Z.eqb_eq. }
  assert (Hcin : In c chans).
  { apply order_by_In. apply filter_In. split; [exact Hc|].
    rewrite Hca, andb_true_r. now apply Z.eqb_eq. }
  destruct (SendRepost_fold env (ChannelGroup.ID group) template chans w Hchans)
    as (ac & ar & _ & _ & _ & R & P & N).
  specialize (N Hok). rewrite Forall_forall in P.
  destruct ar as [|a ar'].
  { destruct chans; [destruct Hcin|discriminate N]. }
  destruct (P a (or_introl eq_refl)) as (Pg & _ & _ & _ & _ & _ & _ & Pc).
  remember (fold_left (Services.SendRepost_channel env (ChannelGroup.ID group) template)
              chans w) as w1.
  destruct (group_history (db w1) (ChannelGroup.ID group)) as [|r rest] eqn:Hh.
  { exfalso. apply (proj1 (group_history_nil _ _) Hh a); [|exact Pg].
    rewrite R. apply in_app_iff. right. now left. }
  apply (frequency_due_when_newest_has_no_sent_at env' (db w1) group r Hmode).
  { now rewrite Hh. }
  destruct (group_history_head (db w1) (ChannelGroup.ID group) r) as (Hrin & Hrg & Hmax).
  { now rewrite Hh. }
  rewrite R in Hrin. apply in_app_iff in Hrin. destruct Hrin as [Hrold|Hrnew].
  - exfalso. specialize (Hold r Hrold Hrg).
    assert (Ha : SendRecord.CreatedAt a <= SendRecord.CreatedAt r).
    { apply Hmax; [|exact Pg]. rewrite R. apply in_app_iff. right. now left. }
    lia.
  - destruct (P r Hrnew) as (_ & _ & _ & Hs & _). exact Hs.
Qed.

Lemma X19_witness :
  Scheduler.shouldCreateRepostTask (Scenario.env_at (Scenario.t0800 + 10 * time.Second))
    (db (snd (Services.SendRepost Scenario18.env 1 Scenario18.w0)))
    Scenario.group_frequency = true.
Proof.
  apply (X19_group_send_leaves_the_group_due Scenario18.env
           (Scenario.env_at (Scenario.t0800 + 10 * time.Second))
           Scenario.group_frequency Scenario18.w0
           (snd (Services.SendRepost Scenario18.env 1 Scenario18.w0))).
  - vm_compute. reflexivity.
  - intros q. reflexivity.
  - exists Scenario.channel1. repeat split. now left.
  - intros r [].
  - discriminate.
Defined.

Lemma SendPush_fold env groupID template chans w :
  exists added_calls,
    calls (fold_left (Services.SendPush_channel env groupID template) chans w)
    = calls w ++ added_calls
    /\ Forall (fun k => is_send_call k = true) added_calls
    /\ map call_channel added_calls = map Channel.ChannelID chans
    /\ channels (db (fold_left (Services.SendPush_channel env groupID template) chans w))
       = channels (db w)
    /\ channel_groups (db (fold_left (Services.SendPush_channel env groupID template) chans w))
       = channel_groups (db w).
Proof.
  revert w. induction chans as [|c cs IH]; intros w.
  { exists []. rewrite app_nil_r. repeat split. constructor. }
  cbn [fold_left].
  destruct (IH (Services.SendPush_channel env groupID template w c))
    as (ac & C & F & M & K & G).
  assert (Step : calls (Services.SendPush_channel env groupID template w c)
                 = calls w ++ [CallSendMessageWithTemplate (Channel.ChannelID c) template
                                 (deserialize_entities env template)]
                 /\ channels (db (Services.SendPush_channel env groupID template w c))
                    = channels (db w)
                 /\ channel_groups (db (Services.SendPush_channel env groupID template w c))
                    = channel_groups (db w)).
  { unfold Services.SendPush_channel, Services.sendPushToChannel,
      MessageService.sendMessage, MessageService.SendMessageWithTemplate,
      Services.recordSendSuccess, Services.recordSendFailure.
    destruct (api_Send env _ template _); cbn [set_db db calls log_call];
      match goal with
      | |- context [Repository.CreateSendRecord env ?d ?r] =>
          destruct (CreateSendRecord_row env d r) as (ar & _ & E1 & E2 & _)
      end; rewrite E1, E2; repeat split. }
  destruct Step as (C1 & K1 & G1).
  exists (CallSendMessageWithTemplate (Channel.ChannelID c) template
            (deserialize_entities env template) :: ac).
  rewrite C, C1, K, K1, G, G1, <- app_assoc. cbn [app map call_channel].
  repeat split; [constructor; [reflexivity|exact F]|now rewrite M].
Qed.

(** X20. [SendPush] is additive: all it ever asks of the message service are
    sends, it never deletes or pins a message, and it writes neither the
    groups nor the channels, so no last-message id moves; when it returns no
    error it has sent exactly once to every active channel of the group, in
    order. *)
Theorem X20_SendPush_only_sends :
  forall env groupID w,
    exists added_calls,
      calls (snd (Services.SendPush env groupID w)) = calls w ++ added_calls
      /\ Forall (fun k => is_send_call k = true) added_calls
      /\ channels (db (snd (Services.SendPush env groupID w))) = channels (db w)
      /\ channel_groups (db (snd (Services.SendPush env groupID w))) = channel_groups (db w)
      /\ (fst (Services.SendPush env groupID w) = None ->
          exists chans,
            Repository.GetChannelsByGroupID env (db w) groupID = Ok chans
            /\ map call_channel added_calls = map Channel.ChannelID chans).
Proof.
  intros env groupID w.
  assert (Nothing : forall e : string,
             exists added_calls : list GatewayCall,
               calls w = calls w ++ added_calls
               /\ Forall (fun k => is_send_call k = true) added_calls
               /\ channels (db w) = channels (db w)
               /\ channel_groups (db w) = channel_groups (db w)
               /\ (Some e = None ->
                   exists chans,
                     Repository.GetChannelsByGroupID env (db w) groupID = Ok chans
                     /\ map call_channel added_calls = map Channel.ChannelID chans)).
  { intros e. exists []. rewrite app_nil_r. repeat split; [constructor|discriminate]. }
  unfold Services.SendPush.
  destruct (Repository.GetChannelGroup env (db w) groupID) as [group|]; [|apply Nothing].
  destruct (negb (ChannelGroup.IsActive group)); [apply Nothing|].
  destruct (Repository.GetMessageTemplate env (db w) _) as [template|]; [|apply Nothing].
  destruct (Repository.GetChannelsByGroupID env (db w) groupID) as [chans|] eqn:G;
    [|apply Nothing].
  cbn [fst snd].
  destruct (SendPush_fold env groupID template chans w) as (ac & C & F & M & K & Gr).
  exists ac. repeat split; auto. exists chans. auto.
Qed.





(** X22. Switching a group off stops the materializer for it: when
    [UpdateChannelGroupStatus] has set the group inactive without error, a
    materializer tick on the resulting database, at any time and under any
    database errors, appends no row of that group. *)
Theorem X22_deactivated_group_gets_no_new_rows :
  forall env env' driver_error w id,
    fst (UpdateChannelGroupStatus env driver_error (db w) id false) = None ->
    exists added,
      send_records
        (db (Scheduler.createRepostTasks env'
               (set_db (snd (UpdateChannelGroupStatus env driver_error (db w) id false)) w)))
      = send_records (db w) ++ added
      /\ forall r, In r added -> SendRecord.GroupID r <> id.
Proof.
  intros env env' driver_error w id Hok.
  destruct driver_error as [e|]; [discriminate|]. clear Hok.
  set (w1 := set_db _ w).
  destruct (createRepostTasks_creates env' w1) as (_ & _ & added & E & M).
  exists added. split; [exact E|].
  intros r Hr Hid. destruct (M r Hr) as (_ & _ & _ & _ & _ & _ & g & c & Hg & Ha & Hi & _).
  subst w1. cbn [db set_db UpdateChannelGroupStatus snd channel_groups] in Hg.
  apply in_map_iff in Hg. destruct Hg as (g0 & <- & _).
  destruct (ChannelGroup.ID g0 =? id) eqn:Eg.
  - cbn in Ha. discriminate.
  - apply Z.eqb_neq in Eg. congruence.
Qed.

Lemma X22_witness :
  exists added,
    send_records
      (db (Scheduler.createRepostTasks (Scenario.env_at Scenario.t0800) Scenario22.switched_off))
    = send_records (db Scenario22.w0) ++ added
    /\ forall r, In r added -> SendRecord.GroupID r <> 1.
Proof.
  exact (X22_deactivated_group_gets_no_new_rows
           (Scenario.env_at Scenario.t0800) (Scenario.env_at Scenario.t0800)
           None Scenario22.w0 1 eq_refl).
Defined.

(** X23. What a restart leaves to dispatch: when the sweep of [Start] has
    succeeded, the first query of the dispatch loop returns exactly the rows
    of before the restart that are due and are either a retry or a pending
    row that is no repost; a pending repost that was queued is not dispatched,
    the retry of a repost still is. *)
Theorem X23_restart_drops_queued_reposts_keeps_retries :
  forall env env' w records,
    db_error env QCleanupDuplicatePendingRecords = None ->
    Repository.GetPendingSendRecords env' (db (Scheduler.Start env w)) = Ok records ->
    forall r,
      In r records <->
      (In r (send_records (db w))
       /\ SendRecord.ScheduledAt r <= time_Now env'
       /\ (SendRecord.Status r = SendStatusRetry
           \/ (SendRecord.Status r = SendStatusPending
               /\ SendRecord.MessageType r <> SendTypeRepost))).
Proof.
  intros env env' w records Hsweep Hq r.
  unfold Repository.GetPendingSendRecords in Hq.
  destruct (db_error env' _); [discriminate|]. injection Hq as <-.
  unfold Scheduler.Start, Repository.CleanupDuplicatePendingRecords. rewrite Hsweep.
  cbn [snd db set_db set_send_records send_records].
  unfold Repository.status_in_flight.
  split.
  - intros H. apply order_by_In in H. apply filter_In in H. destruct H as [H1 H2].
    apply filter_In in H1. destruct H1 as [Hin Hk].
    apply andb_true_iff in H2. destruct H2 as [Hs Hd]. apply Z.leb_le in Hd.
    split; [exact Hin|]. split; [exact Hd|].
    apply orb_true_iff in Hs. destruct Hs as [Hs|Hs].
    + right. rewrite Hs in Hk. cbn [andb] in Hk. apply negb_true_iff in Hk.
      apply String.eqb_eq in Hs. apply String.eqb_neq in Hk. auto.
    + left. now apply String.eqb_eq.
  - intros (Hin & Hd & Hs).
    assert (P : forall x l, In x l -> In x (order_by
                 (fun a b => SendRecord.ScheduledAt a <=? SendRecord.ScheduledAt b) l)).
    { intros x l Hx. apply (Permutation_in x (Permutation_sym (order_by_perm _ l))). exact Hx. }
    apply P. apply filter_In. split.
    + apply filter_In. split; [exact Hin|].
      destruct Hs as [Hs|[Hs Ht]].
      * rewrite Hs. reflexivity.
      * apply String.eqb_neq in Ht. rewrite Ht. now rewrite andb_false_r.
    + apply andb_true_iff. split; [|now apply Z.leb_le].
      destruct Hs as [Hs|[Hs Ht]]; rewrite Hs; reflexivity.
Qed.

Lemma X23_witness :
  In Scenario23.retry2 [Scenario23.retry2] <->
  (In Scenario23.retry2 (send_records (db Scenario23.w0))
   /\ SendRecord.ScheduledAt Scenario23.retry2 <= time_Now (Scenario.env_at Scenario.t0800)
   /\ (SendRecord.Status Scenario23.retry2 = SendStatusRetry
       \/ (SendRecord.Status Scenario23.retry2 = SendStatusPending
           /\ SendRecord.MessageType Scenario23.retry2 <> SendTypeRepost))).
Proof.
  refine (X23_restart_drops_queued_reposts_keeps_retries
            (Scenario.env_at Scenario.t0800) (Scenario.env_at Scenario.t0800)
            Scenario23.w0 [Scenario23.retry2] _ _ Scenario23.retry2);
    vm_compute; reflexivity.
Defined.
